(** * pyOxygenStream: the Oxygen data-stream decoder (oxygendst.py)

    A shallow embedding of [src/pyOxygenStream/oxygendst.py].  Python
    integers are [Z]; buffers are [list byte]; numpy's fixed-width integer
    arithmetic is written with its wrap-around; float64 values are
    [spec_float] with the binary64 operations of the Standard Library's
    IEEE-754 specification (round to nearest even); attribute mutation of
    the receiver object is explicit state passing, and an exception leaves
    the state as it was when it was raised. *)

From Stdlib Require Import ZArith List Lia Bool String Ascii SpecFloat.
From Stdlib Require Import Strings.Byte.
Import ListNotations.
Open Scope Z_scope.

Set Implicit Arguments.

(* ================================================================= *)
(** ** Python outcomes: a state-and-exception monad *)

Module Py.

(** The exceptions the decoder can meet. *)
Inductive exn :=
| StructError          (* struct.error *)
| ValueError
| TypeError
| IndexError
| KeyError
| AttributeError
| UnicodeDecodeError
| ParseError          (* xml.etree.ElementTree.ParseError *)
| SocketTimeout.      (* socket.timeout *)

(** What a call does: it returns, it raises, or the loop inside it was
    still running when the fuel of the model ran out. *)
Inductive outcome (A : Type) :=
| Returns (a : A)
| Raises (e : exn)
| OutOfFuel.
Arguments Raises {A} e.
Arguments OutOfFuel {A}.

(** A method over a mutable object of type [S]. *)
Definition M (S A : Type) := S -> outcome A * S.

Definition ret {S A} (a : A) : M S A := fun s => (Returns a, s).
Definition raise {S A} (e : exn) : M S A := fun s => (Raises e, s).
Definition bind {S A B} (m : M S A) (k : A -> M S B) : M S B :=
  fun s =>
    match m s with
    | (Returns a, s') => k a s'
    | (Raises e, s') => (Raises e, s')
    | (OutOfFuel, s') => (OutOfFuel, s')
    end.
Definition get {S} : M S S := fun s => (Returns s, s).
Definition modify {S} (f : S -> S) : M S unit := fun s => (Returns tt, f s).

(** A pure computation that may raise, run inside a method. *)
Definition lift {S A} (o : outcome A) : M S A := fun s => (o, s).

Definition obind {A B} (o : outcome A) (k : A -> outcome B) : outcome B :=
  match o with
  | Returns a => k a
  | Raises e => Raises e
  | OutOfFuel => OutOfFuel
  end.

Definition of_option {A} (e : exn) (o : option A) : outcome A :=
  match o with
  | Some a => Returns a
  | None => Raises e
  end.

Definition when {S} (b : bool) (m : M S unit) : M S unit :=
  if b then m else ret tt.

End Py.
Import Py.

Declare Scope py_scope.
Delimit Scope py_scope with py.
Notation "x <- m ;; k" := (bind m (fun x => k))
  (at level 61, m at next level, right associativity) : py_scope.
Notation "' pat <- m ;; k" := (bind m (fun x => match x with pat => k end))
  (at level 61, pat pattern, m at next level, right associativity) : py_scope.
Notation "m ;; k" := (bind m (fun _ => k))
  (at level 61, right associativity) : py_scope.
Notation "x <~ o ;; k" := (obind o (fun x => k))
  (at level 61, o at next level, right associativity) : py_scope.
Open Scope py_scope.

(* ================================================================= *)
(** ** Bytes and little-endian integers *)

Module Bytes.

Definition byte_val (b : byte) : Z := Z.of_N (Byte.to_N b).

(** [buf[off:off+n]] for non-negative [off] and [n]. *)
Definition slice (buf : list byte) (off n : Z) : list byte :=
  firstn (Z.to_nat n) (skipn (Z.to_nat off) buf).

Definition len (buf : list byte) : Z := Z.of_nat (List.length buf).

(** Unsigned little-endian value of a byte string. *)
Fixpoint le_uint (bs : list byte) : Z :=
  match bs with
  | [] => 0
  | b :: r => byte_val b + 256 * le_uint r
  end.

(** Two's-complement reading of a [w]-bit pattern. *)
Definition wrap_signed (w : Z) (z : Z) : Z :=
  let m := z mod 2 ^ w in
  if m <? 2 ^ (w - 1) then m else m - 2 ^ w.

Definition le_int (bs : list byte) : Z :=
  wrap_signed (8 * len bs) (le_uint bs).

(** Cut a buffer into consecutive items of [k] bytes. *)
Fixpoint chunks (k : nat) (n : nat) (bs : list byte) : list (list byte) :=
  match n with
  | O => []
  | S n' => firstn k bs :: chunks k n' (skipn k bs)
  end.

End Bytes.
Import Bytes.

(* ================================================================= *)
(** ** float64 *)

Module F64.

Definition t := spec_float.

Definition prec : Z := 53.
Definition emax : Z := 1024.

Definition add : t -> t -> t := SFadd prec emax.
Definition mul : t -> t -> t := SFmul prec emax.
Definition div : t -> t -> t := SFdiv prec emax.

(** Conversion of an integer, rounding to nearest even (C's
    [(double)i], numpy's [astype('float64')] on an integer array). *)
Definition of_Z (z : Z) : t := binary_normalize prec emax z 0 false.

(** The value of an IEEE-754 binary64 bit pattern. *)
Definition of_bits (w : Z) : t :=
  let s := Z.testbit w 63 in
  let e := (w / 2 ^ 52) mod 2 ^ 11 in
  let m := w mod 2 ^ 52 in
  if e =? 0 then
    if m =? 0 then S754_zero s else S754_finite s (Z.to_pos m) (-1074)
  else if e =? 2047 then
    if m =? 0 then S754_infinity s else S754_nan
  else S754_finite s (Z.to_pos (m + 2 ^ 52)) (e - 1075).

(** The value of a binary32 bit pattern, widened to float64 (exact). *)
Definition of_bits32 (w : Z) : t :=
  let s := Z.testbit w 31 in
  let e := (w / 2 ^ 23) mod 2 ^ 8 in
  let m := w mod 2 ^ 23 in
  if e =? 0 then
    if m =? 0 then S754_zero s else binary_round prec emax s (Z.to_pos m) (-149)
  else if e =? 255 then
    if m =? 0 then S754_infinity s else S754_nan
  else binary_round prec emax s (Z.to_pos (m + 2 ^ 23)) (e - 150).

End F64.

(* ================================================================= *)
(** ** struct.Struct(fmt).unpack_from *)

Module Struct.

(** In the four formats of the receiver [I] is a u32, [Q] a u64 and [d]
    a float64; [=] means standard sizes, no padding, and the byte order
    of the host, little-endian here as on the wire.  [unpack_from]
    raises struct.error when fewer bytes than the format needs are left
    at the offset. *)

Definition u32_at (buffer : list byte) (off : Z) : Z :=
  le_uint (slice buffer off 4).
Definition u64_at (buffer : list byte) (off : Z) : Z :=
  le_uint (slice buffer off 8).
Definition f64_at (buffer : list byte) (off : Z) : F64.t :=
  F64.of_bits (le_uint (slice buffer off 8)).

Definition requires (size : Z) (buffer : list byte) (offset : Z)
  : outcome unit :=
  if len buffer - offset <? size then Raises StructError else Returns tt.

(** DT_SUBPACKET_HEADER_FMT = "=2I" *)
Definition unpack_2I (buffer : list byte) (offset : Z) : outcome (Z * Z) :=
  _ <~ requires 8 buffer offset ;;
  Returns (u32_at buffer offset, u32_at buffer (offset + 4)).

(** DT_PACKET_INFO_FMT = "=6I" *)
Definition unpack_6I (buffer : list byte) (offset : Z)
  : outcome (Z * Z * Z * Z * Z * Z) :=
  _ <~ requires 24 buffer offset ;;
  Returns (u32_at buffer offset, u32_at buffer (offset + 4),
           u32_at buffer (offset + 8), u32_at buffer (offset + 12),
           u32_at buffer (offset + 16), u32_at buffer (offset + 20)).

(** DT_SYNC_FIXED_FMT = "=3IQd" *)
Definition unpack_3IQd (buffer : list byte) (offset : Z)
  : outcome (Z * Z * Z * Z * F64.t) :=
  _ <~ requires 28 buffer offset ;;
  Returns (u32_at buffer offset, u32_at buffer (offset + 4),
           u32_at buffer (offset + 8), u64_at buffer (offset + 12),
           f64_at buffer (offset + 20)).

(** DT_ASYNC_FIXED_FMT = "=3Id" *)
Definition unpack_3Id (buffer : list byte) (offset : Z)
  : outcome (Z * Z * Z * F64.t) :=
  _ <~ requires 20 buffer offset ;;
  Returns (u32_at buffer offset, u32_at buffer (offset + 4),
           u32_at buffer (offset + 8), f64_at buffer (offset + 12)).

End Struct.

(* ================================================================= *)
(** ** numpy: dtypes, frombuffer, the arrays the decoder builds *)

Module Np.

Inductive dtype :=
| int8 | uint8 | int16 | uint16 | int24 | uint24 | int32 | uint32
| int64 | uint64 | float32 | float64 | complex64 | complex128.

(** An array element.  The dtype of the array it sits in says how wide
    it is; a float32 element is held as the float64 of the same value. *)
Inductive scalar :=
| SInt (z : Z)
| SFloat (x : F64.t)
| SComplex (re im : F64.t).

(** [np.dtype(name).itemsize]; numpy has no 3-byte integer, so the two
    24-bit names are not understood (TypeError). *)
Definition itemsize (dt : dtype) : option Z :=
  match dt with
  | int8 | uint8 => Some 1
  | int16 | uint16 => Some 2
  | int24 | uint24 => None
  | int32 | uint32 | float32 => Some 4
  | int64 | uint64 | float64 | complex64 => Some 8
  | complex128 => Some 16
  end.

Definition decode_item (dt : dtype) (bs : list byte) : scalar :=
  match dt with
  | int8 | int16 | int24 | int32 | int64 => SInt (le_int bs)
  | uint8 | uint16 | uint24 | uint32 | uint64 => SInt (le_uint bs)
  | float32 => SFloat (F64.of_bits32 (le_uint bs))
  | float64 => SFloat (F64.of_bits (le_uint bs))
  | complex64 =>
      SComplex (F64.of_bits32 (le_uint (firstn 4 bs)))
               (F64.of_bits32 (le_uint (skipn 4 bs)))
  | complex128 =>
      SComplex (F64.of_bits (le_uint (firstn 8 bs)))
               (F64.of_bits (le_uint (skipn 8 bs)))
  end.

(** [np.frombuffer(buffer, dtype, count, offset)] for an item size and
    an item decoder: ValueError when the offset lies beyond the buffer
    or fewer than [count] items are left (count is never negative
    here). *)
Definition frombuffer_items {A} (size : Z) (dec : list byte -> A)
    (buffer : list byte) (offset count : Z) : outcome (list A) :=
  if len buffer <? offset then Raises ValueError
  else if len buffer - offset <? count * size then Raises ValueError
  else Returns (map dec (chunks (Z.to_nat size) (Z.to_nat count)
                                (skipn (Z.to_nat offset) buffer))).

Definition frombuffer (buffer : list byte) (dt : dtype) (offset count : Z)
  : outcome (list scalar) :=
  match itemsize dt with
  | None => Raises TypeError
  | Some k => frombuffer_items k (decode_item dt) buffer offset count
  end.

(** dtype="uint8" and dtype="uint64" *)
Definition frombuffer_uint8 := frombuffer_items 1 le_uint.
Definition frombuffer_uint64 := frombuffer_items 8 le_uint.

(** dtype="uint64,<name>": packed records with fields f0 and f1. *)
Definition frombuffer_pair (buffer : list byte) (dt : dtype)
    (offset count : Z) : outcome (list (Z * scalar)) :=
  match itemsize dt with
  | None => Raises TypeError
  | Some k =>
      frombuffer_items (8 + k)
        (fun bs => (le_uint (firstn 8 bs), decode_item dt (skipn 8 bs)))
        buffer offset count
  end.

(** [a[start::3]] *)
Fixpoint every3 {A} (l : list A) : list A :=
  match l with
  | x :: _ :: _ :: r => x :: every3 r
  | x :: _ => [x]
  | [] => []
  end.
Definition stride3 {A} (start : nat) (l : list A) : list A :=
  every3 (skipn start l).

(** Integer arrays: [astype] re-reads the value in the new width, and
    arithmetic of an int32 array wraps. *)
Definition astype_int8 (a : list Z) : list Z := map (wrap_signed 8) a.
Definition astype_int32 (a : list Z) : list Z := map (wrap_signed 32) a.
Definition mul_int32 (a : list Z) (k : Z) : list Z :=
  map (fun x => wrap_signed 32 (x * k)) a.
Fixpoint add_int32 (a b : list Z) : list Z :=
  match a, b with
  | x :: a', y :: b' => wrap_signed 32 (x + y) :: add_int32 a' b'
  | _, _ => []
  end.

(** [astype('float64')]: an integer is rounded to the nearest double, a
    complex number keeps its real part (numpy issues a ComplexWarning
    through the warnings module and goes on). *)
Definition to_f64 (s : scalar) : F64.t :=
  match s with
  | SInt z => F64.of_Z z
  | SFloat x => x
  | SComplex re _ => re
  end.

(** The objects [readSamples] hands back and the blocks kept in
    [channelValue]. *)
Inductive pydata :=
| Vector (dt : dtype) (xs : list scalar)
    (* 1-D ndarray *)
| Records (dt : dtype) (recs : list (Z * scalar))
    (* 1-D structured ndarray, f0 : uint64, f1 : dt *)
| RowArrays (dt : dtype) (rows : list (list scalar))
    (* Python list of 1-D ndarrays *)
| RowLists (dt : dtype) (rows : list (Z * list scalar))
    (* Python list of lists [ts, v0, v1, ...] *)
| Matrix (dt : dtype) (ncols : Z) (rows : list (list scalar)).
    (* 2-D ndarray *)

(** [np.empty(0)] *)
Definition empty0 : pydata := Vector float64 [].

(** [data.size]: a Python list has no such attribute. *)
Definition size (d : pydata) : outcome Z :=
  match d with
  | Vector _ xs => Returns (Z.of_nat (List.length xs))
  | Records _ recs => Returns (Z.of_nat (List.length recs))
  | Matrix _ ncols rows => Returns (Z.of_nat (List.length rows) * ncols)
  | RowArrays _ _ | RowLists _ _ => Raises AttributeError
  end.

(** [data['f0']] and [data['f1']]: only a structured array has fields. *)
Definition field_f0 (d : pydata) : outcome (list Z) :=
  match d with
  | Records _ recs => Returns (map fst recs)
  | Vector _ _ | Matrix _ _ _ => Raises IndexError
  | RowArrays _ _ | RowLists _ _ => Raises TypeError
  end.
Definition field_f1 (d : pydata) : outcome pydata :=
  match d with
  | Records dt recs => Returns (Vector dt (map snd recs))
  | Vector _ _ | Matrix _ _ _ => Raises IndexError
  | RowArrays _ _ | RowLists _ _ => Raises TypeError
  end.

(** The dtype of a float64 column put next to a [dt] column, and the
    conversion of an element to it. *)
Definition with_f64 (dt : dtype) : dtype :=
  match dt with
  | complex64 | complex128 => complex128
  | _ => float64
  end.
Definition cast (res : dtype) (s : scalar) : scalar :=
  match res with
  | complex128 =>
      match s with
      | SInt z => SComplex (F64.of_Z z) (S754_zero false)
      | SFloat x => SComplex x (S754_zero false)
      | SComplex _ _ => s
      end
  | _ => SFloat (to_f64 s)
  end.

Fixpoint zip_rows (res : dtype) (ts : list F64.t) (rows : list (list scalar))
  : list (list scalar) :=
  match ts, rows with
  | t :: ts', r :: rows' =>
      (cast res (SFloat t) :: map (cast res) r) :: zip_rows res ts' rows'
  | _, _ => []
  end.

(** [np.c_[timeStamps, data]]: both operands become 2-D (a 1-D array
    becomes a column) and are joined along the last axis; the numbers
    of rows must agree (ValueError otherwise).  It is only ever applied
    to a 1-D array or to the list of row arrays of [readArraySync]. *)
Definition c_ (timeStamps : list F64.t) (data : pydata) : outcome pydata :=
  match data with
  | Vector dt xs =>
      if Nat.eqb (List.length timeStamps) (List.length xs)
      then Returns (Matrix (with_f64 dt) 2
                      (zip_rows (with_f64 dt) timeStamps (map (fun x => [x]) xs)))
      else Raises ValueError
  | RowArrays dt rows =>
      if Nat.eqb (List.length timeStamps) (List.length rows)
      then Returns (Matrix (with_f64 dt)
                      (match rows with
                       | [] => 2
                       | r :: _ => 1 + Z.of_nat (List.length r)
                       end)
                      (zip_rows (with_f64 dt) timeStamps rows))
      else Raises ValueError
  | Records _ _ | RowLists _ _ | Matrix _ _ _ => Raises TypeError
  end.

(** The integers [start, start+1, ..., start+n-1]. *)
Fixpoint zrange (start : Z) (n : nat) : list Z :=
  match n with
  | O => []
  | S n' => start :: zrange (start + 1) n'
  end.

End Np.

(* ================================================================= *)
(** ** Library calls left abstract *)

(** A parsed XML element: tag, attributes, sub-elements. *)
#[local] Set Warnings "-register-all".
Inductive Element :=
| Elem (tag : string) (attrib : list (string * string)) (children : list Element).

Definition tag (e : Element) : string := let 'Elem t _ _ := e in t.
Definition children (e : Element) : list Element := let 'Elem _ _ c := e in c.

(** [elem.get(key)]: [None] when the attribute is absent. *)
Fixpoint assoc (key : string) (l : list (string * string)) : option string :=
  match l with
  | [] => None
  | (k, v) :: r => if String.eqb k key then Some v else assoc key r
  end.
Definition Element_get (e : Element) (key : string) : option string :=
  let 'Elem _ a _ := e in assoc key a.

(** The text-level library functions the receiver calls.  They are not
    code of this repository, so the development is parametric in them:
    - [bytes_decode] is [bytes.decode()], [None] for UnicodeDecodeError;
    - [ET_fromstring] is [xml.etree.ElementTree.fromstring], [None] for
      ParseError;
    - [float_of_str] is [float(s)] on a string, [None] for ValueError;
    - [arange_wide start stop] is [np.arange(start, stop)] as float64 when
      [stop] does not fit a signed 64-bit integer, where numpy leaves
      integer arithmetic. *)
Record PyLib := {
  bytes_decode : list byte -> option string;
  ET_fromstring : string -> option Element;
  float_of_str : string -> option F64.t;
  arange_wide : Z -> Z -> outcome (list F64.t)
}.

(* ================================================================= *)
(** ** The receiver object *)

(** Sub packet types *)
Definition SBT_PACKET_INFO : Z := 1.
Definition SBT_XML_CONFIG : Z := 2.
Definition SBT_SYNC_FIXED : Z := 3.
Definition SBT_SYNC_VARIABLE : Z := 4.
Definition SBT_ASYNC_FIXED : Z := 5.
Definition SBT_ASYNC_VARIABLE : Z := 6.
Definition SBT_PACKET_FOOTER : Z := 7.

Definition DT_SUBPACKET_HEADER_SIZE : Z := 8.
Definition DT_SYNC_FIXED_SIZE : Z := 28.
Definition DT_ASYNC_FIXED_SIZE : Z := 20.

(** [DT_DATA_TYPE[code]]: a dtype name, [False] for codes 14 and 15,
    KeyError for any other code. *)
Definition DT_DATA_TYPE (code : Z) : outcome (option Np.dtype) :=
  match code with
  | 0 => Returns (Some Np.int8)
  | 1 => Returns (Some Np.uint8)
  | 2 => Returns (Some Np.int16)
  | 3 => Returns (Some Np.uint16)
  | 4 => Returns (Some Np.int24)
  | 5 => Returns (Some Np.uint24)
  | 6 => Returns (Some Np.int32)
  | 7 => Returns (Some Np.uint32)
  | 8 => Returns (Some Np.int64)
  | 9 => Returns (Some Np.uint64)
  | 10 => Returns (Some Np.float32)
  | 11 => Returns (Some Np.float64)
  | 12 => Returns (Some Np.complex64)
  | 13 => Returns (Some Np.complex128)
  | 14 | 15 => Returns None
  | _ => Raises KeyError
  end.

Record DtPacketInfo := {
  protocol_version : Z;
  stream_id : Z;
  sequence_number : Z;
  stream_status : Z;
  seed : Z;
  number_of_subpackets : Z
}.

Record DtXmlSubPacket := {
  xml_content : string;
  xml_content_size : Z
}.

(** An attribute of a scaling entry as [parseScalingXML] stores it: the
    attribute's text, or the integer default. *)
Inductive attr_value := AStr (s : string) | AInt (z : Z).

(** The attributes of an [OxygenStreamReceiver] the decoder touches.
    [channelValue] does not exist before [readPacket] creates it;
    [warnings] collects the messages of [logging.warning]. *)
Record receiver := {
  packet_info : DtPacketInfo;
  packet_xml : list DtXmlSubPacket;
  scaling_info : list (attr_value * attr_value);
  actual_channel_idx : Z;
  channelValue : option (list Np.pydata);
  warnings : list string
}.

Definition set_packet_info (v : DtPacketInfo) (r : receiver) : receiver :=
  {| packet_info := v; packet_xml := packet_xml r;
     scaling_info := scaling_info r; actual_channel_idx := actual_channel_idx r;
     channelValue := channelValue r; warnings := warnings r |}.
Definition set_packet_xml (v : list DtXmlSubPacket) (r : receiver) : receiver :=
  {| packet_info := packet_info r; packet_xml := v;
     scaling_info := scaling_info r; actual_channel_idx := actual_channel_idx r;
     channelValue := channelValue r; warnings := warnings r |}.
Definition set_scaling_info (v : list (attr_value * attr_value)) (r : receiver)
  : receiver :=
  {| packet_info := packet_info r; packet_xml := packet_xml r;
     scaling_info := v; actual_channel_idx := actual_channel_idx r;
     channelValue := channelValue r; warnings := warnings r |}.
Definition set_actual_channel_idx (v : Z) (r : receiver) : receiver :=
  {| packet_info := packet_info r; packet_xml := packet_xml r;
     scaling_info := scaling_info r; actual_channel_idx := v;
     channelValue := channelValue r; warnings := warnings r |}.
Definition set_channelValue (v : option (list Np.pydata)) (r : receiver)
  : receiver :=
  {| packet_info := packet_info r; packet_xml := packet_xml r;
     scaling_info := scaling_info r; actual_channel_idx := actual_channel_idx r;
     channelValue := v; warnings := warnings r |}.
Definition set_warnings (v : list string) (r : receiver) : receiver :=
  {| packet_info := packet_info r; packet_xml := packet_xml r;
     scaling_info := scaling_info r; actual_channel_idx := actual_channel_idx r;
     channelValue := channelValue r; warnings := v |}.

(** [OxygenStreamReceiver.__init__] *)
Definition init_receiver : receiver :=
  {| packet_info := {| protocol_version := 0; stream_id := 0;
                       sequence_number := 0; stream_status := 0;
                       seed := 0; number_of_subpackets := 0 |};
     packet_xml := [];
     scaling_info := [];
     actual_channel_idx := 0;
     channelValue := None;
     warnings := [] |}.

Definition logging_warning (msg : string) : M receiver unit :=
  modify (fun r => set_warnings (warnings r ++ [msg]) r).

(** [self.channelValue.append(data)] *)
Definition channelValue_append (data : Np.pydata) : M receiver unit :=
  r <- get ;;
  match channelValue r with
  | None => raise AttributeError
  | Some l => modify (set_channelValue (Some (l ++ [data])))
  end.

Section Receiver.

Variable lib : PyLib.

(** [float(v)] on a stored scaling attribute. *)
Definition py_float (v : attr_value) : outcome F64.t :=
  match v with
  | AStr s => of_option ValueError (float_of_str lib s)
  | AInt z => Returns (F64.of_Z z)
  end.

(** [self.scaling_info[self.actual_channel_idx]] *)
Definition scaling_entry (r : receiver) : outcome (attr_value * attr_value) :=
  of_option IndexError
    (nth_error (scaling_info r) (Z.to_nat (actual_channel_idx r))).

(** The two 24-bit compositions of [readSamplesSync]. *)
Definition compose_int24 (data : list Z) : list Z :=
  Np.add_int32
    (Np.add_int32
       (Np.mul_int32 (Np.astype_int32 (Np.astype_int8 (Np.stride3 2 data)))
                     (2 ^ 16))
       (Np.mul_int32 (Np.astype_int32 (Np.stride3 1 data)) (2 ^ 8)))
    (Np.stride3 0 data).

Definition compose_uint24 (data : list Z) : list Z :=
  Np.add_int32
    (Np.add_int32
       (Np.mul_int32 (Np.astype_int32 (Np.stride3 2 data)) (2 ^ 16))
       (Np.mul_int32 (Np.astype_int32 (Np.stride3 1 data)) (2 ^ 8)))
    (Np.stride3 0 data).

(** [data.astype('float64') * f + o] *)
Definition scale (f o : F64.t) (data : list Np.scalar) : list Np.scalar :=
  map (fun x => Np.SFloat (F64.add (F64.mul (Np.to_f64 x) f) o)) data.

Definition readSamplesSync (packet : list byte) (pos num_samples : Z)
    (sample_type : Np.dtype) : M receiver Np.pydata :=
  r <- get ;;
  f <- lift (e <~ scaling_entry r ;; py_float (fst e)) ;;
  o <- lift (e <~ scaling_entry r ;; py_float (snd e)) ;;
  data <- lift
    match sample_type with
    | Np.int24 =>
        data <~ Np.frombuffer_uint8 packet (pos + DT_SYNC_FIXED_SIZE)
                                   (num_samples * 3) ;;
        Returns (map Np.SInt (compose_int24 data))
    | Np.uint24 =>
        data <~ Np.frombuffer_uint8 packet (pos + DT_SYNC_FIXED_SIZE)
                                   (num_samples * 3) ;;
        Returns (map Np.SInt (compose_uint24 data))
    | _ =>
        Np.frombuffer packet sample_type (pos + DT_SYNC_FIXED_SIZE) num_samples
    end ;;
  ret (Np.Vector Np.float64 (scale f o data)).

(** The loop of [readArraySync]: [n] rows of [dim] items from [cur]. *)
Fixpoint readArraySync_rows (packet : list byte) (sample_type : Np.dtype)
    (dim cur : Z) (n : nat) : outcome (list (list Np.scalar)) :=
  match n with
  | O => Returns []
  | S n' =>
      row <~ Np.frombuffer packet sample_type cur dim ;;
      sz <~ of_option TypeError (Np.itemsize sample_type) ;;
      rest <~ readArraySync_rows packet sample_type dim (cur + dim * sz) n' ;;
      Returns (row :: rest)
  end.

Definition readArraySync (packet : list byte) (pos dim num_samples : Z)
    (sample_type : Np.dtype) : M receiver Np.pydata :=
  rows <- lift (readArraySync_rows packet sample_type dim
                  (pos + DT_SYNC_FIXED_SIZE) (Z.to_nat num_samples)) ;;
  ret (Np.RowArrays sample_type rows).

Definition readSamplesAsync (packet : list byte) (pos num_samples : Z)
    (sample_type : Np.dtype) : M receiver Np.pydata :=
  recs <- lift (Np.frombuffer_pair packet sample_type
                  (pos + DT_ASYNC_FIXED_SIZE) num_samples) ;;
  ret (Np.Records sample_type recs).

(** The loop of [readArrayAsync]: a u64 timestamp, then [dim] items. *)
Fixpoint readArrayAsync_rows (packet : list byte) (sample_type : Np.dtype)
    (dim cur : Z) (n : nat) : outcome (list (Z * list Np.scalar)) :=
  match n with
  | O => Returns []
  | S n' =>
      ts <~ Np.frombuffer_uint64 packet cur 1 ;;
      ts0 <~ of_option IndexError (nth_error ts 0) ;;
      samples <~ Np.frombuffer packet sample_type (cur + 8) dim ;;
      sz <~ of_option TypeError (Np.itemsize sample_type) ;;
      rest <~ readArrayAsync_rows packet sample_type dim
                (cur + 8 + dim * sz) n' ;;
      Returns ((ts0, samples) :: rest)
  end.

Definition readArrayAsync (packet : list byte) (pos dim num_samples : Z)
    (sample_type : Np.dtype) : M receiver Np.pydata :=
  rows <- lift (readArrayAsync_rows packet sample_type dim
                  (pos + DT_ASYNC_FIXED_SIZE) (Z.to_nat num_samples)) ;;
  ret (Np.RowLists sample_type rows).

(** [readSamples(packet, sub_packet, pos, sample_type)]; of [sub_packet]
    it reads [channel_data_type], [channel_dimension] and
    [number_samples], passed here one by one. *)
Definition readSamples (packet : list byte)
    (channel_data_type dim num_samples : Z) (pos sample_type : Z)
  : M receiver Np.pydata :=
  dtype <- lift (DT_DATA_TYPE channel_data_type) ;;
  match dtype with
  | Some dtype =>
      if (sample_type =? SBT_SYNC_FIXED) && (0 <? num_samples) then
        if dim =? 1
        then readSamplesSync packet pos num_samples dtype
        else readArraySync packet pos dim num_samples dtype
      else if (sample_type =? SBT_ASYNC_FIXED) && (0 <? num_samples) then
        if dim =? 1
        then readSamplesAsync packet pos num_samples dtype
        else readArrayAsync packet pos dim num_samples dtype
      else
        logging_warning "No or invalid data received." ;;
        ret Np.empty0
  | None =>
      logging_warning "Data type not supported yet by python" ;;
      ret Np.empty0
  end.

(** [np.arange(start, stop) / frequency].  While [stop] fits a signed
    64-bit integer the range is an integer array and the division turns
    each element into a double first. *)
Definition arange_over (start stop : Z) (frequency : F64.t)
  : outcome (list F64.t) :=
  if stop <=? 2 ^ 63 - 1 then
    Returns (map (fun k => F64.div (F64.of_Z k) frequency)
                 (Np.zrange start (Z.to_nat (stop - start))))
  else
    ts <~ arange_wide lib start stop ;;
    Returns (map (fun t => F64.div t frequency) ts).

Definition incr_channel_idx : M receiver unit :=
  modify (fun r => set_actual_channel_idx (actual_channel_idx r + 1) r).

Definition processSyncFixed (packet : list byte) (pos : Z) : M receiver unit :=
  '(channel_data_type, channel_dimension, number_samples, timestamp,
    timebase_frequency) <- lift (Struct.unpack_3IQd packet pos) ;;
  data <- readSamples packet channel_data_type channel_dimension
            number_samples pos SBT_SYNC_FIXED ;;
  timeStamps <- lift (arange_over timestamp (timestamp + number_samples)
                                  timebase_frequency) ;;
  data <- lift (Np.c_ timeStamps data) ;;
  channelValue_append data ;;
  incr_channel_idx.

Definition processAsyncFixed (packet : list byte) (pos : Z) : M receiver unit :=
  '(channel_data_type, channel_dimension, number_samples,
    timebase_frequency) <- lift (Struct.unpack_3Id packet pos) ;;
  data <- readSamples packet channel_data_type channel_dimension
            number_samples pos SBT_ASYNC_FIXED ;;
  size <- lift (Np.size data) ;;
  data <- (if 0 <? size then
             f0 <- lift (Np.field_f0 data) ;;
             f1 <- lift (Np.field_f1 data) ;;
             lift (Np.c_ (map (fun t => F64.div (F64.of_Z t) timebase_frequency) f0)
                         f1)
           else ret data) ;;
  channelValue_append data ;;
  incr_channel_idx.

Definition processPacketInfo (packet : list byte) (pos : Z) : M receiver unit :=
  '(v, id, sq, st, sd, n) <- lift (Struct.unpack_6I packet pos) ;;
  modify (set_packet_info
            {| protocol_version := v; stream_id := id; sequence_number := sq;
               stream_status := st; seed := sd; number_of_subpackets := n |}).

(** The body of [for child in root] in [parseScalingXML]. *)
Fixpoint parseScalingXML_children (cs : list Element) : M receiver unit :=
  match cs with
  | [] => ret tt
  | child :: rest =>
      child0 <- lift (of_option IndexError (nth_error (children child) 0)) ;;
      let factor := match Element_get child0 "factor" with
                    | None => AInt 1
                    | Some s => AStr s
                    end in
      let offset := match Element_get child0 "offset" with
                    | None => AInt 0
                    | Some s => AStr s
                    end in
      modify (fun r => set_scaling_info (scaling_info r ++ [(factor, offset)]) r) ;;
      parseScalingXML_children rest
  end.

Definition parseScalingXML (xml_content : string) : M receiver unit :=
  root <- lift (of_option ParseError (ET_fromstring lib xml_content)) ;;
  if String.eqb (tag root) "ChannelInfo"
  then parseScalingXML_children (children root)
  else ret tt.

Definition processXmlConfig (packet : list byte) (pos size : Z)
  : M receiver unit :=
  content <- lift (of_option UnicodeDecodeError
                     (bytes_decode lib (slice packet pos size))) ;;
  modify (fun r => set_packet_xml
                     (packet_xml r ++ [{| xml_content := content;
                                          xml_content_size := size |}]) r) ;;
  parseScalingXML content.

(** The four [if]s in the body of the [while] loop of [processPacket]. *)
Definition processPacket_dispatch (packet : list byte)
    (pos sub_packet_size sub_packet_type : Z) : M receiver unit :=
  when (SBT_PACKET_INFO =? sub_packet_type)
       (processPacketInfo packet (pos + DT_SUBPACKET_HEADER_SIZE)) ;;
  when (SBT_XML_CONFIG =? sub_packet_type)
       (processXmlConfig packet (pos + DT_SUBPACKET_HEADER_SIZE)
          (sub_packet_size - DT_SUBPACKET_HEADER_SIZE)) ;;
  when (SBT_SYNC_FIXED =? sub_packet_type)
       (processSyncFixed packet (pos + DT_SUBPACKET_HEADER_SIZE)) ;;
  when (SBT_ASYNC_FIXED =? sub_packet_type)
       (processAsyncFixed packet (pos + DT_SUBPACKET_HEADER_SIZE)).

(** The [while] loop of [processPacket], one unit of fuel per turn.
    [hit_footer] is the local variable of that name: the loop tests it
    and nothing assigns it. *)
Fixpoint processPacket_loop (fuel : nat) (packet : list byte) (pos : Z)
    (hit_footer : bool) : M receiver unit :=
  if (pos <? len packet) && negb hit_footer then
    match fuel with
    | O => lift OutOfFuel
    | S fuel' =>
        '(sub_packet_size, sub_packet_type) <-
           lift (Struct.unpack_2I packet pos) ;;
        processPacket_dispatch packet pos sub_packet_size sub_packet_type ;;
        processPacket_loop fuel' packet (pos + sub_packet_size) hit_footer
    end
  else ret tt.

Definition processPacket (fuel : nat) (packet : list byte) : M receiver unit :=
  modify (set_actual_channel_idx 0) ;;
  processPacket_loop fuel packet 0 false.

End Receiver.

(* ================================================================= *)
(** ** The socket and [recvFixedSize] *)

Module Socket.

(** What the peer does next: a segment of bytes arrives, or nothing
    arrives for a whole timeout period. *)
Inductive event :=
| Segment (bs : list byte)
| Quiet.

(** A connected socket: the events still to come and, after them,
    whether the peer has closed the connection (reads then return no
    bytes) or stays silent (reads then time out). *)
Record socket := {
  incoming : list event;
  peer_closed : bool
}.

(** [s.recv_into(view, nbytes)] for [nbytes > 0], returning the bytes
    it wrote at the start of [view]; their number is the call's
    result. *)
Fixpoint recv_events (evs : list event) (closed : bool) (nbytes : Z)
  : outcome (list byte) * socket :=
  match evs with
  | [] =>
      (if closed then Returns [] else Raises SocketTimeout,
       {| incoming := []; peer_closed := closed |})
  | Quiet :: rest =>
      (Raises SocketTimeout, {| incoming := rest; peer_closed := closed |})
  | Segment [] :: rest => recv_events rest closed nbytes
  | Segment bs :: rest =>
      let k := Z.to_nat nbytes in
      (Returns (firstn k bs),
       {| incoming := match skipn k bs with
                      | [] => rest
                      | more => Segment more :: rest
                      end;
          peer_closed := closed |})
  end.

Definition recv_into (nbytes : Z) : M socket (list byte) :=
  fun s => recv_events (incoming s) (peer_closed s) nbytes.

(** [view[:k] = chunk] for the view that starts at [off] in [data]. *)
Definition write_at (data : list byte) (off : Z) (chunk : list byte)
  : list byte :=
  firstn (Z.to_nat off) data ++ chunk
    ++ skipn (Z.to_nat off + List.length chunk) data.

(** The [while data_to_read] loop; [off] is where [view] starts. *)
Fixpoint recvFixedSize_loop (fuel : nat) (data : list byte)
    (off data_to_read : Z) : M socket (list byte) :=
  if data_to_read =? 0 then ret data
  else
    match fuel with
    | O => lift OutOfFuel
    | S fuel' =>
        chunk <- recv_into data_to_read ;;
        let num_bytes := len chunk in
        recvFixedSize_loop fuel' (write_at data off chunk)
          (off + num_bytes) (data_to_read - num_bytes)
    end.

(** [bytearray(size)] raises ValueError for a negative size. *)
Definition recvFixedSize (fuel : nat) (size : Z) : M socket (list byte) :=
  if size <? 0 then raise ValueError
  else recvFixedSize_loop fuel (repeat x00 (Z.to_nat size)) 0 size.

(** All the bytes a socket will still deliver. *)
Fixpoint stream (evs : list event) : list byte :=
  match evs with
  | [] => []
  | Segment bs :: rest => bs ++ stream rest
  | Quiet :: rest => stream rest
  end.

(** No timeout period passes before the events have all happened. *)
Definition prompt (evs : list event) : bool :=
  forallb (fun ev => match ev with Segment _ => true | Quiet => false end) evs.

End Socket.

(* ================================================================= *)
(** ** What the specification says, in its own words *)

Module Spec.

(** "signed value = sign_extend(high) x 65536 + mid x 256 + low" *)
Definition sign_extend (high : Z) : Z :=
  if high <? 128 then high else high - 256.
Definition int24_value (low mid high : byte) : Z :=
  sign_extend (byte_val high) * 65536 + byte_val mid * 256 + byte_val low.

(** "unsigned value treats high as unsigned" *)
Definition uint24_value (low mid high : byte) : Z :=
  byte_val high * 65536 + byte_val mid * 256 + byte_val low.

(** "then scaled by factor, offset": value x factor + offset in
    float64. *)
Definition scaled (factor offset : F64.t) (value : Z) : F64.t :=
  F64.add (F64.mul (F64.of_Z value) factor) offset.

(** The triplets of a run of sample bytes. *)
Fixpoint triplets (bs : list byte) : list (byte * byte * byte) :=
  match bs with
  | low :: mid :: high :: r => (low, mid, high) :: triplets r
  | _ => []
  end.

(** "per-sample time = (start_timestamp + sample_index) /
    timebase_frequency" *)
Definition sample_time (start : Z) (frequency : F64.t) (index : nat) : F64.t :=
  F64.div (F64.of_Z (start + Z.of_nat index)) frequency.

End Spec.

(** Bytes per sample on the wire: three for the 24-bit integers, the
    item size of the numpy dtype for the others. *)
Definition wire_width (dt : Np.dtype) : Z :=
  match Np.itemsize dt with
  | Some k => k
  | None => 3
  end.

(** The message [readSamples] logs for a sub-record without samples:
    which one depends on whether the dtype code has a name. *)
Definition no_data_warning (code : Z) : string :=
  if code <? 14 then "No or invalid data received."
  else "Data type not supported yet by python".

(** The receiver after a sample decoder has logged [msg], appended
    [block] and advanced the channel index. *)
Definition after_block (msgs : list string) (block : Np.pydata) (r : receiver)
  : receiver :=
  match channelValue r with
  | Some l =>
      set_actual_channel_idx (actual_channel_idx r + 1)
        (set_channelValue (Some (l ++ [block]))
           (set_warnings (warnings r ++ msgs) r))
  | None => r
  end.


(** The receiver as [readPacket] leaves it just before it calls
    [processPacket]: [self.channelValue = []]. *)
Definition fresh_packet (r : receiver) : receiver :=
  set_channelValue (Some []) r.

(** [r'] differs from [r] by blocks added at the end of [channelValue]. *)
Definition blocks_extended (r r' : receiver) : Prop :=
  match channelValue r, channelValue r' with
  | Some l, Some l' => exists added, l' = l ++ added
  | None, None => True
  | _, _ => False
  end.

(** What a sample decoder may do to [channelValue]: add one block at the
    end when it returns, nothing when it does not return. *)
Definition one_block_or_none (r : receiver) (res : outcome unit * receiver)
  : Prop :=
  match channelValue r with
  | Some l =>
      match fst res with
      | Returns _ => exists block, channelValue (snd res) = Some (l ++ [block])
      | _ => channelValue (snd res) = Some l
      end
  | None => channelValue (snd res) = None /\ fst res <> Returns tt
  end.

(** A method that leaves the receiver as it found it. *)
Definition stateless {A} (m : M receiver A) : Prop :=
  forall r, snd (m r) = r.

(** [r'] differs from [r] by entries added at the end of [scaling_info]. *)
Definition scaling_extended (r r' : receiver) : Prop :=
  exists added, scaling_info r' = scaling_info r ++ added.

(** Every run of [m] relates the state before and the state after by
    [R], whatever the outcome. *)
Definition keeps (R : receiver -> receiver -> Prop) {A} (m : M receiver A)
  : Prop :=
  forall r, R r (snd (m r)).

(** A relation between the receiver before and after which is a preorder
    and which every single attribute update of the decoder respects. *)
Record session_order (R : receiver -> receiver -> Prop) : Prop := {
  so_refl : forall r, R r r;
  so_trans : forall r1 r2 r3, R r1 r2 -> R r2 r3 -> R r1 r3;
  so_warnings : forall r v, R r (set_warnings v r);
  so_packet_info : forall r v, R r (set_packet_info v r);
  so_packet_xml : forall r v, R r (set_packet_xml v r);
  so_channel_idx : forall r v, R r (set_actual_channel_idx v r);
  so_scaling : forall r e, R r (set_scaling_info (scaling_info r ++ [e]) r);
  so_block : forall r l b,
      channelValue r = Some l -> R r (set_channelValue (Some (l ++ [b])) r)
}.

(** The scaling entry [parseScalingXML] makes of a channel element whose
    first sub-element is [child0]. *)
Definition scaling_of (child0 : Element) : attr_value * attr_value :=
  (match Element_get child0 "factor" with None => AInt 1 | Some s => AStr s end,
   match Element_get child0 "offset" with None => AInt 0 | Some s => AStr s end).

(** The channel elements up to the first one without a sub-element. *)
Fixpoint scaling_entries (cs : list Element) : list (attr_value * attr_value) :=
  match cs with
  | [] => []
  | child :: rest =>
      match children child with
      | [] => []
      | child0 :: _ => scaling_of child0 :: scaling_entries rest
      end
  end.

Definition has_child (e : Element) : bool :=
  match children e with [] => false | _ :: _ => true end.

(* ================================================================= *)
(** ** Test vectors *)

Module Vectors.

Definition byte_of (z : Z) : byte :=
  match Byte.of_N (Z.to_N (z mod 256)) with
  | Some b => b
  | None => x00
  end.

Fixpoint le_bytes (n : nat) (z : Z) : list byte :=
  match n with
  | O => []
  | S n' => byte_of z :: le_bytes n' (z / 256)
  end.

Definition u32 : Z -> list byte := le_bytes 4.
Definition u64 : Z -> list byte := le_bytes 8.

(** Bit patterns: 1.0 as float64; 1.0, 2.0, 3.0 as float32. *)
Definition f64_one : list byte := u64 0x3FF0000000000000.
Definition f32_one : list byte := u32 0x3F800000.
Definition f32_two : list byte := u32 0x40000000.
Definition f32_three : list byte := u32 0x40400000.

Definition sub_record (type : Z) (body : list byte) : list byte :=
  u32 (8 + len body) ++ u32 type ++ body.

Definition sync_fixed (dtype dim count start : Z) (samples : list byte)
  : list byte :=
  sub_record SBT_SYNC_FIXED
    (u32 dtype ++ u32 dim ++ u32 count ++ u64 start ++ f64_one ++ samples).

Definition async_fixed (dtype dim count : Z) (samples : list byte)
  : list byte :=
  sub_record SBT_ASYNC_FIXED
    (u32 dtype ++ u32 dim ++ u32 count ++ f64_one ++ samples).

(** One channel, factor 1, offset 0. *)
Definition xml_text : string :=
  "<ChannelInfo><Channel><Scaling factor='1' offset='0'/></Channel></ChannelInfo>".
Definition xml_bytes : list byte := list_byte_of_string xml_text.
Definition xml_doc : Element :=
  Elem "ChannelInfo" []
    [Elem "Channel" []
       [Elem "Scaling" [("factor", "1"); ("offset", "0")]%string []]].

(** The end-to-end packet: packet-info (status 0), xml-config,
    sync-fixed (float32, dim 1, 3 samples, start 0, frequency 1). *)
Definition e2e_packet : list byte :=
  sub_record SBT_PACKET_INFO
    (u32 0x01050000 ++ u32 1 ++ u32 0 ++ u32 0 ++ u32 0 ++ u32 3)
  ++ sub_record SBT_XML_CONFIG xml_bytes
  ++ sync_fixed 10 1 3 0 (f32_one ++ f32_two ++ f32_three).

(** The buffer of the repository's unit test: 28 zero bytes, then the
    triplets 00 00 00, 01 00 00, ff ff ff. *)
Definition test_packet : list byte :=
  repeat x00 28 ++ [x00; x00; x00; x01; x00; x00; xff; xff; xff].

(** A receiver whose scaling table holds one entry. *)
Definition with_scaling (factor offset : Z) : receiver :=
  fresh_packet (set_scaling_info [(AInt factor, AInt offset)] init_receiver).

(** A footer sub-record followed by an async-fixed sub-record
    (int8, dim 1, one sample: timestamp 5, value 7). *)
Definition footer_first_packet : list byte :=
  sub_record SBT_PACKET_FOOTER []
  ++ async_fixed 0 1 1 (u64 5 ++ [x07]).

(** A lone footer header that declares 16 bytes where 8 are left. *)
Definition oversize_packet : list byte := u32 16 ++ u32 SBT_PACKET_FOOTER.

(** A lone footer header that declares a size of zero. *)
Definition zero_size_packet : list byte := u32 0 ++ u32 SBT_PACKET_FOOTER.

(** A sync-fixed sub-record of dtype code 14 with one sample, followed
    by a well-formed async-fixed sub-record. *)
Definition dtype14_packet : list byte :=
  sync_fixed 14 1 1 0 [x00] ++ async_fixed 0 1 1 (u64 5 ++ [x07]).

(** A sync-fixed sub-record of dtype complex64 with the one sample
    1.0 + 2.0j. *)
Definition complex_packet : list byte :=
  sync_fixed 12 1 1 0 (f32_one ++ f32_two).

(** An async-fixed sub-record of dtype int8 with dimension 2 and one
    sample: timestamp 5, values 1 and 2. *)
Definition async_array_packet : list byte :=
  async_fixed 0 2 1 (u64 5 ++ [x01; x02]).

(** A library instance that understands plain ASCII, the document
    [xml_text] and the numerals 0 and 1. *)
Definition demo_lib : PyLib := {|
  bytes_decode := fun bs =>
    if forallb (fun b => byte_val b <? 128) bs
    then Some (string_of_list_byte bs) else None;
  ET_fromstring := fun s =>
    if String.eqb s xml_text then Some xml_doc else None;
  float_of_str := fun s =>
    if String.eqb s "1" then Some (F64.of_Z 1)
    else if String.eqb s "0" then Some (F64.of_Z 0)
    else None;
  arange_wide := fun _ _ => Raises ValueError
|}.

(** A peer that has sent nothing and closed the connection. *)
Definition closed_socket : Socket.socket :=
  {| Socket.incoming := []; Socket.peer_closed := true |}.

End Vectors.

(* ================================================================= *)
(** ** Relations on the receiver, for the walk as a whole *)

(** A preorder between the receiver before and after that respects the
    updates of the logs and of the scaling table, and the step by which
    a sample decoder ends: one block appended and the channel index
    advanced by one, together. *)
Record packet_order (R : receiver -> receiver -> Prop) : Prop := {
  po_refl : forall r, R r r;
  po_trans : forall r1 r2 r3, R r1 r2 -> R r2 r3 -> R r1 r3;
  po_warnings : forall r v, R r (set_warnings v r);
  po_packet_info : forall r v, R r (set_packet_info v r);
  po_packet_xml : forall r v, R r (set_packet_xml v r);
  po_scaling : forall r v, R r (set_scaling_info v r);
  po_block : forall r l b,
      channelValue r = Some l ->
      R r (set_actual_channel_idx (actual_channel_idx r + 1)
             (set_channelValue (Some (l ++ [b])) r))
}.

(** The blocks added between [r] and [r'] are as many as the channel
    index has advanced. *)
Definition index_counts_blocks (r r' : receiver) : Prop :=
  match channelValue r, channelValue r' with
  | Some l, Some l' =>
      exists added,
        l' = l ++ added
        /\ actual_channel_idx r'
           = actual_channel_idx r + Z.of_nat (List.length added)
  | None, None => actual_channel_idx r' = actual_channel_idx r
  | _, _ => False
  end.

(** The offsets at which the walk of a payload reads a header: 0, and
    from each such offset inside the payload the offset advanced by the
    size declared there. *)
Inductive visits (packet : list byte) : Z -> Prop :=
| visits_start : visits packet 0
| visits_next (pos size type : Z) :
    visits packet pos ->
    pos < len packet ->
    Struct.unpack_2I packet pos = Returns (size, type) ->
    visits packet (pos + size).

(** The walk meets a header of the given type. *)
Definition declares (packet : list byte) (type : Z) : Prop :=
  exists pos size,
    visits packet pos /\ pos < len packet
    /\ Struct.unpack_2I packet pos = Returns (size, type).

(** A call that is over, with a value or an exception. *)
Definition ended {A} (o : outcome A) : Prop := o <> OutOfFuel.

(** A method that is over whenever it is called. *)
Definition ends {A} (m : M receiver A) : Prop := forall r, ended (fst (m r)).

(* ================================================================= *)
(** ** The connection: [connectTo], [readPacket], [disconnect] *)

Module Session.

Definition DT_WELCOME_MSG_SIZE : Z := 64.
Definition DT_START_TOKEN : list byte := list_byte_of_string "OXYGEN<<".
Definition DT_TOKEN_SIZE : Z := 8.
Definition DT_PACKET_HEADER_SIZE : Z := 12.

(** [a == b] on byte strings. *)
Fixpoint bytes_eqb (a b : list byte) : bool :=
  match a, b with
  | [], [] => true
  | x :: a', y :: b' => Byte.eqb x y && bytes_eqb a' b'
  | _, _ => false
  end.

(** The records of [logging.error]. *)
Inductive error_record :=
| InvalidAddress                        (* "Invalid address: ..." *)
| ConnectionFailed                      (* "Connection to ... failed: ..." *)
| NoWelcomeMessage                      (* "Could not read welcome message" *)
| InvalidStartToken (window : list byte) (* "Invalid start packet token: ..." *)
| NoPacketSize                          (* "Could not read packet size" *)
| NoPacketData.                         (* "Could not read all packet data" *)

(** A receiver whose socket is connected: the socket, the attributes of
    the decoder, and the error log. *)
Record session := {
  sock : Socket.socket;
  rcv : receiver;
  errors : list error_record
}.

Definition set_sock (s : Socket.socket) (c : session) : session :=
  {| sock := s; rcv := rcv c; errors := errors c |}.
Definition set_rcv (r : receiver) (c : session) : session :=
  {| sock := sock c; rcv := r; errors := errors c |}.
Definition set_errors (e : list error_record) (c : session) : session :=
  {| sock := sock c; rcv := rcv c; errors := e |}.

(** A call on [self.sock], and a method of the decoder, inside a method
    of the connected receiver. *)
Definition on_sock {A} (m : M Socket.socket A) : M session A :=
  fun c => let (o, s') := m (sock c) in (o, set_sock s' c).
Definition on_rcv {A} (m : M receiver A) : M session A :=
  fun c => let (o, r') := m (rcv c) in (o, set_rcv r' c).

Definition logging_error (e : error_record) : M session unit :=
  modify (fun c => set_errors (errors c ++ [e]) c).

(** [try: m  except socket.timeout: handler] *)
Definition except_timeout {A} (m : M session A) (handler : M session A)
  : M session A :=
  fun c =>
    match m c with
    | (Raises SocketTimeout, c') => handler c'
    | other => other
    end.

(** What [readPacket] returns: [False], or the list of blocks. *)
Inductive readPacket_result :=
| RFalse
| RBlocks (blocks : list Np.pydata).

(** [packet_header_buffer.pop(0)]: IndexError on an empty bytearray. *)
Definition pop0 (buffer : list byte) : outcome (list byte) :=
  match buffer with
  | [] => Raises IndexError
  | _ :: rest => Returns rest
  end.

(** The [while packet_header_buffer != DT_START_TOKEN] loop of
    [readPacket]; [None] stands for the [return False] inside it.
    [self.sock.recv(1)] hands over the bytes that [recv_into] would
    write. *)
Fixpoint readPacket_search (fuel : nat) (packet_header_buffer : list byte)
  : M session (option (list byte)) :=
  if bytes_eqb packet_header_buffer DT_START_TOKEN
  then ret (Some packet_header_buffer)
  else
    match fuel with
    | O => lift OutOfFuel
    | S fuel' =>
        logging_error (InvalidStartToken packet_header_buffer) ;;
        received <-
          except_timeout
            (chunk <- on_sock (Socket.recv_into 1) ;; ret (Some chunk))
            (on_rcv (logging_warning "No data available yet") ;; ret None) ;;
        match received with
        | None => ret None
        | Some chunk =>
            buffer <- lift (pop0 (packet_header_buffer ++ chunk)) ;;
            readPacket_search fuel' buffer
        end
    end.

(** [readPacket] from "Read Packet Size" on. *)
Definition readPacket_frame (lib : PyLib) (fuel : nat)
  : M session readPacket_result :=
  received <-
    except_timeout
      (chunk <- on_sock (Socket.recv_into
                           (DT_PACKET_HEADER_SIZE - DT_TOKEN_SIZE)) ;;
       ret (Some chunk))
      (on_rcv (logging_warning "No data available yet") ;; ret None) ;;
  match received with
  | None => ret RFalse
  | Some chunk =>
      let packet_size_buffer :=
        Socket.write_at (repeat x00 (Z.to_nat (DT_PACKET_HEADER_SIZE
                                               - DT_TOKEN_SIZE))) 0 chunk in
      let bc := len chunk in
      if negb (DT_PACKET_HEADER_SIZE - DT_TOKEN_SIZE =? bc) then
        logging_error NoPacketSize ;; ret RFalse
      else
        let packet_size := le_uint packet_size_buffer - DT_PACKET_HEADER_SIZE in
        packet_data <- on_sock (Socket.recvFixedSize fuel packet_size) ;;
        if negb (len packet_data =? packet_size) then
          logging_error NoPacketData ;; ret RFalse
        else
          on_rcv (modify (set_channelValue (Some []))) ;;
          on_rcv (processPacket lib fuel packet_data) ;;
          c <- get ;;
          match channelValue (rcv c) with
          | Some blocks => ret (RBlocks blocks)
          | None => raise AttributeError
          end
  end.

(** [readPacket]; the one parameter [fuel] bounds each of its loops. *)
Definition readPacket (lib : PyLib) (fuel : nat) : M session readPacket_result :=
  packet_header_buffer <- on_sock (Socket.recv_into DT_TOKEN_SIZE) ;;
  found <- readPacket_search fuel packet_header_buffer ;;
  match found with
  | None => ret RFalse
  | Some _ => readPacket_frame lib fuel
  end.

(** The socket object of a receiver: not yet connected, connected, or
    closed ([fileno() == -1]). *)
Inductive link :=
| NotConnected
| Linked (s : Socket.socket)
| ClosedLink.

(** What [sock.connect((dt_server, port))] does, which the network and
    the operating system decide: the address does not resolve
    (socket.gaierror); the call fails with another OSError (the
    connection is refused or times out, or the system refuses to connect
    a socket that is connected already); or the call returns.  When it
    returns on a socket that was not connected, the peer will behave as
    the socket given here says.  When it returns on a socket that is
    connected already (Linux reports success once for a socket whose
    first connect completed under a timeout, and the receiver's socket
    always has one), the socket stays the connection it was. *)
Inductive connect_answer :=
| Unresolvable
| Refused
| Accepted (s : Socket.socket).

(** A receiver as [connectTo] and [disconnect] see it. *)
Record client := {
  conn : link;
  client_errors : list error_record
}.

(** What [connectTo] returns: [True], [False] or [None]. *)
Inductive connectTo_result := CTrue | CFalse | CNone.

(** [connectTo].  A closed socket is replaced by a new one first.  The
    welcome buffer is decoded for the debug record whether or not that
    record is written. *)
Definition connectTo (lib : PyLib) (answer : connect_answer)
  : M client connectTo_result :=
  fun c =>
    let conn0 := match conn c with ClosedLink => NotConnected | l => l end in
    let failed e :=
      (Returns CFalse,
       {| conn := conn0; client_errors := client_errors c ++ [e] |}) in
    match answer with
    | Unresolvable => failed InvalidAddress
    | Refused => failed ConnectionFailed
    | Accepted peer =>
        let s := match conn0 with Linked s0 => s0 | _ => peer end in
        match Socket.recv_into DT_WELCOME_MSG_SIZE s with
        | (Returns chunk, s') =>
            let welcome_buffer :=
              Socket.write_at (repeat x00 (Z.to_nat DT_WELCOME_MSG_SIZE))
                              0 chunk in
            if len chunk =? 0 then
              (Returns CNone,
               {| conn := Linked s';
                  client_errors := client_errors c ++ [NoWelcomeMessage] |})
            else
              match bytes_decode lib welcome_buffer with
              | None =>
                  (Raises UnicodeDecodeError,
                   {| conn := Linked s'; client_errors := client_errors c |})
              | Some _ =>
                  (Returns CTrue,
                   {| conn := Linked s'; client_errors := client_errors c |})
              end
        | (Raises e, s') =>
            (Raises e,
             {| conn := Linked s'; client_errors := client_errors c |})
        | (OutOfFuel, s') =>
            (OutOfFuel,
             {| conn := Linked s'; client_errors := client_errors c |})
        end
    end.

(** [disconnect]: [self.sock.close()]. *)
Definition disconnect : M client unit :=
  modify (fun c => {| conn := ClosedLink; client_errors := client_errors c |}).

(** The windows of eight bytes that start at the offsets below [k] of a
    stream. *)
Definition window_at (stream : list byte) (i : nat) : list byte :=
  firstn 8 (skipn i stream).

(** The start token stands at offset [k] of the stream and at no offset
    before. *)
Definition first_token_at (stream : list byte) (k : nat) : Prop :=
  window_at stream k = DT_START_TOKEN
  /\ forall i, (i < k)%nat -> window_at stream i <> DT_START_TOKEN.

(** What is left of a segment and the events behind it once the front
    of the segment has been read. *)
Definition rest_of (remaining : list byte) (later : list Socket.event)
  : list Socket.event :=
  match remaining with
  | [] => later
  | _ :: _ => Socket.Segment remaining :: later
  end.

(** The result of [readPacket] once the payload is in hand. *)
Definition decoded (lib : PyLib) (fuel : nat) (payload : list byte)
    (r : receiver) : outcome readPacket_result * receiver :=
  match processPacket lib fuel payload (fresh_packet r) with
  | (Returns _, r') =>
      (match channelValue r' with
       | Some blocks => Returns (RBlocks blocks)
       | None => Raises AttributeError
       end, r')
  | (Raises e, r') => (Raises e, r')
  | (OutOfFuel, r') => (OutOfFuel, r')
  end.

End Session.

(* ================================================================= *)
(** ** The command line: [parseargs] *)

Module Args.

(** How a call of [parseargs] is over: it returns [(address, port)],
    [sys.exit(code)] raises SystemExit, or [int(arg)] raises
    ValueError. *)
Inductive parseargs_result :=
| Returned (address : string) (port : Z)
| SystemExit (code : option Z)
| PortValueError.

(** [opt in ("-a", "--address")] and [opt in ("-p", "--port")] *)
Definition is_address (opt : string) : bool :=
  String.eqb opt "-a" || String.eqb opt "--address".
Definition is_port (opt : string) : bool :=
  String.eqb opt "-p" || String.eqb opt "--port".

Section Parse.

(** [getopt.getopt(argv, "ha:p:", ["address=", "port="])], [None] when
    it raises GetoptError; [int(arg)] on a string, [None] when it raises
    ValueError. *)
Variable getopt : list string -> option (list (string * string) * list string).
Variable int_of_str : string -> option Z.

(** [for opt, arg in opts] *)
Fixpoint parseargs_loop (opts : list (string * string)) (address : string)
    (port : Z) : parseargs_result :=
  match opts with
  | [] => Returned address port
  | (opt, arg) :: rest =>
      if String.eqb opt "-h" then SystemExit None
      else if is_address opt then parseargs_loop rest arg port
      else if is_port opt then
        match int_of_str arg with
        | Some value => parseargs_loop rest address value
        | None => PortValueError
        end
      else parseargs_loop rest address port
  end.

Definition parseargs (argv : list string) : parseargs_result :=
  match getopt argv with
  | None => SystemExit (Some 2)
  | Some (opts, args) => parseargs_loop opts "127.0.0.1" 10003
  end.

End Parse.

(** The arguments of the options that satisfy [keep], in order. *)
Definition arguments_of (keep : string -> bool) (opts : list (string * string))
  : list string :=
  map snd (filter (fun oa => keep (fst oa)) opts).

(** The port the loop takes from an argument that converts. *)
Definition port_value (int_of_str : string -> option Z) (arg : string) : Z :=
  match int_of_str arg with
  | Some value => value
  | None => 0
  end.

(** A stand-in for getopt and int on a conforming command line: -h
    stands alone, the other options are followed by their argument,
    ports are one of two known numerals. *)
Fixpoint demo_getopt_pairs (argv : list string) : list (string * string) :=
  match argv with
  | [] => []
  | opt :: rest =>
      if String.eqb opt "-h" then (opt, EmptyString) :: demo_getopt_pairs rest
      else
        match rest with
        | [] => []
        | arg :: rest' => (opt, arg) :: demo_getopt_pairs rest'
        end
  end.
Definition demo_getopt (argv : list string)
  : option (list (string * string) * list string) :=
  Some (demo_getopt_pairs argv, []).
Definition demo_int (s : string) : option Z :=
  if String.eqb s "10005" then Some 10005
  else if String.eqb s "80" then Some 80
  else None.

End Args.

(* ================================================================= *)
(** ** Further test vectors *)

Module Cases.

(** A peer that has sent 01 02, then 03 04, and closed. *)
Definition two_segment_socket : Socket.socket :=
  {| Socket.incoming := [Socket.Segment [x01; x02]; Socket.Segment [x03; x04]];
     Socket.peer_closed := true |}.

(** A payload that ends three bytes after a footer sub-record. *)
Definition stray_bytes_packet : list byte :=
  Vectors.sub_record SBT_PACKET_FOOTER [] ++ [x01; x02; x03].

(** A sync-fixed sub-record with the dtype code 16. *)
Definition dtype16_packet : list byte := Vectors.sync_fixed 16 1 1 0 [x00].

(** An async-fixed sub-record of dtype int24, one scalar sample. *)
Definition async_int24_packet : list byte :=
  Vectors.async_fixed 4 1 1 (Vectors.u64 5 ++ [x01; x02; x03]).

(** A sync-fixed sub-record of dtype uint8, one scalar sample 07. *)
Definition uint8_packet : list byte := Vectors.sync_fixed 1 1 1 0 [x07].

(** A sync-fixed sub-record of dtype int8 with dimension 2 and one
    sample, the values 1 and 2. *)
Definition sync_array_packet : list byte :=
  Vectors.sync_fixed 0 2 1 0 [x01; x02].

(** A frame whose payload is one footer sub-record: token, total size
    20, payload. *)
Definition footer_payload : list byte :=
  Vectors.sub_record SBT_PACKET_FOOTER [].
Definition footer_frame : list byte :=
  Session.DT_START_TOKEN ++ Vectors.u32 20 ++ footer_payload.

(** A connected receiver whose peer has sent the given events. *)
Definition session_with (events : list Socket.event) (closed : bool)
  : Session.session :=
  {| Session.sock := {| Socket.incoming := events;
                        Socket.peer_closed := closed |};
     Session.rcv := init_receiver;
     Session.errors := [] |}.

(** Two bytes of garbage in front of the footer frame, in one segment. *)
Definition garbage_session : Session.session :=
  session_with [Socket.Segment ([x00; x01] ++ footer_frame)] false.

(** The footer frame cut after its first four bytes. *)
Definition split_session : Session.session :=
  session_with [Socket.Segment (firstn 4 footer_frame);
                Socket.Segment (skipn 4 footer_frame)] false.

(** The footer frame with its payload cut into three segments, and one
    byte of the next frame behind it. *)
Definition pieces_session : Session.session :=
  session_with [Socket.Segment (Session.DT_START_TOKEN ++ Vectors.u32 20);
                Socket.Segment (firstn 3 footer_payload);
                Socket.Segment (firstn 2 (skipn 3 footer_payload));
                Socket.Segment (skipn 5 footer_payload ++ [x09])] false.

(** A frame whose size field says 11. *)
Definition undersize_session : Session.session :=
  session_with [Socket.Segment (Session.DT_START_TOKEN ++ Vectors.u32 11)]
               false.

(** The token, then silence. *)
Definition token_then_quiet_session : Session.session :=
  session_with [Socket.Segment Session.DT_START_TOKEN; Socket.Quiet] false.

(** A new receiver, and a server that sends the first 10 bytes of its
    welcome message before the other 54. *)
Definition new_client : Session.client :=
  {| Session.conn := Session.NotConnected; Session.client_errors := [] |}.
Definition slow_welcome : Socket.socket :=
  {| Socket.incoming := [Socket.Segment (repeat "A"%byte 10);
                         Socket.Segment (repeat "A"%byte 54)];
     Socket.peer_closed := false |}.




(** A connected receiver whose peer has sent the footer frame, not yet
    read. *)
Definition streaming_socket : Socket.socket :=
  {| Socket.incoming := [Socket.Segment footer_frame];
     Socket.peer_closed := false |}.
Definition streaming_client : Session.client :=
  {| Session.conn := Session.Linked streaming_socket;
     Session.client_errors := [] |}.

End Cases.

(* ================================================================= *)
(** ** Bytes, slices and fixed-width integers *)

Lemma byte_val_range (b : byte) : 0 <= byte_val b < 256.
Proof.
  unfold byte_val. pose proof (Byte.to_N_bounded b). lia.
Qed.

Lemma wrap_signed_small (w z : Z) :
  0 < w -> - 2 ^ (w - 1) <= z < 2 ^ (w - 1) -> wrap_signed w z = z.
Proof.
  intros Hw Hz. unfold wrap_signed.
  assert (E : 2 ^ w = 2 * 2 ^ (w - 1)).
  { replace w with (Z.succ (w - 1)) at 1 by lia. apply Z.pow_succ_r. lia. }
  destruct (Z_lt_ge_dec z 0) as [Hneg | Hpos].
  - assert (Hm : z mod 2 ^ w = z + 2 ^ w).
    { symmetry. apply Z.mod_unique with (q := -1); lia. }
    rewrite Hm. destruct (Z.ltb_spec (z + 2 ^ w) (2 ^ (w - 1))); lia.
  - rewrite Z.mod_small by lia.
    destruct (Z.ltb_spec z (2 ^ (w - 1))); lia.
Qed.

Lemma wrap_signed_8_byte (h : Z) :
  0 <= h < 256 -> wrap_signed 8 h = Spec.sign_extend h.
Proof.
  intros Hh. unfold wrap_signed, Spec.sign_extend.
  change (2 ^ 8) with 256. change (2 ^ (8 - 1)) with 128.
  rewrite Z.mod_small by lia. reflexivity.
Qed.

Lemma sign_extend_range (h : Z) :
  0 <= h < 256 -> -128 <= Spec.sign_extend h < 128.
Proof.
  intros Hh. unfold Spec.sign_extend. destruct (Z.ltb_spec h 128); lia.
Qed.

Lemma len_nonneg (buf : list byte) : 0 <= len buf.
Proof. unfold len. lia. Qed.

Lemma len_app (a b : list byte) : len (a ++ b) = len a + len b.
Proof. unfold len. rewrite length_app. lia. Qed.

Lemma length_slice (buf : list byte) (off n : Z) :
  0 <= off -> 0 <= n -> off + n <= len buf ->
  List.length (slice buf off n) = Z.to_nat n.
Proof.
  intros Hoff Hn Hlen. unfold slice, len in *.
  rewrite length_firstn, length_skipn. lia.
Qed.

(** Items of one byte are the bytes themselves. *)
Lemma chunks_1 (n : nat) (bs : list byte) :
  (n <= List.length bs)%nat ->
  map le_uint (chunks 1 n bs) = map byte_val (firstn n bs).
Proof.
  revert bs. induction n as [| n IH]; intros bs Hn; [reflexivity |].
  destruct bs as [| b r]; simpl in Hn; [lia |].
  simpl. rewrite IH by lia. f_equal. lia.
Qed.

Lemma length_chunks (k n : nat) (bs : list byte) :
  List.length (chunks k n bs) = n.
Proof.
  revert bs. induction n as [| n IH]; intros bs; simpl; [| rewrite IH]; reflexivity.
Qed.

(** A successful [frombuffer] returns exactly [count] items. *)
Lemma frombuffer_items_length {A} (size : Z) (dec : list byte -> A)
    (buffer : list byte) (offset count : Z) (items : list A) :
  Np.frombuffer_items size dec buffer offset count = Returns items ->
  List.length items = Z.to_nat count.
Proof.
  unfold Np.frombuffer_items.
  destruct (len buffer <? offset); [discriminate |].
  destruct (len buffer - offset <? count * size); [discriminate |].
  intros H. injection H as <-. rewrite length_map. apply length_chunks.
Qed.

Lemma frombuffer_items_ok {A} (size : Z) (dec : list byte -> A)
    (buffer : list byte) (offset count : Z) :
  offset + count * size <= len buffer -> 0 <= count * size ->
  Np.frombuffer_items size dec buffer offset count
  = Returns (map dec (chunks (Z.to_nat size) (Z.to_nat count)
                             (skipn (Z.to_nat offset) buffer))).
Proof.
  intros H1 H2. unfold Np.frombuffer_items.
  destruct (Z.ltb_spec (len buffer) offset); [lia |].
  destruct (Z.ltb_spec (len buffer - offset) (count * size)); [lia |].
  reflexivity.
Qed.

(* ================================================================= *)
(** ** The 24-bit compositions *)

Lemma stride3_0_cons3 {A} (l m h : A) (rest : list A) :
  Np.stride3 0 (l :: m :: h :: rest) = l :: Np.stride3 0 rest.
Proof. reflexivity. Qed.

Lemma stride3_1_cons3 {A} (l m h : A) (rest : list A) :
  Np.stride3 1 (l :: m :: h :: rest) = m :: Np.stride3 1 rest.
Proof. destruct rest; reflexivity. Qed.

Lemma stride3_2_cons3 {A} (l m h : A) (rest : list A) :
  Np.stride3 2 (l :: m :: h :: rest) = h :: Np.stride3 2 rest.
Proof. destruct rest as [| a [| b r]]; reflexivity. Qed.

Lemma int24_no_wrap (l m h : Z) :
  0 <= l < 256 -> 0 <= m < 256 -> 0 <= h < 256 ->
  wrap_signed 32
    (wrap_signed 32
       (wrap_signed 32 (wrap_signed 32 (wrap_signed 8 h) * 2 ^ 16)
        + wrap_signed 32 (wrap_signed 32 m * 2 ^ 8)) + l)
  = Spec.sign_extend h * 65536 + m * 256 + l.
Proof.
  intros Hl Hm Hh.
  rewrite wrap_signed_8_byte by assumption.
  pose proof (sign_extend_range Hh) as Hs.
  change (2 ^ 16) with 65536. change (2 ^ 8) with 256.
  rewrite (wrap_signed_small (w := 32) (z := Spec.sign_extend h))
    by (change (2 ^ (32 - 1)) with 2147483648; lia).
  rewrite (wrap_signed_small (w := 32) (z := m))
    by (change (2 ^ (32 - 1)) with 2147483648; lia).
  rewrite (wrap_signed_small (w := 32) (z := Spec.sign_extend h * 65536))
    by (change (2 ^ (32 - 1)) with 2147483648; lia).
  rewrite (wrap_signed_small (w := 32) (z := m * 256))
    by (change (2 ^ (32 - 1)) with 2147483648; lia).
  rewrite (wrap_signed_small (w := 32)
             (z := Spec.sign_extend h * 65536 + m * 256))
    by (change (2 ^ (32 - 1)) with 2147483648; lia).
  apply wrap_signed_small; [lia |].
  change (2 ^ (32 - 1)) with 2147483648; lia.
Qed.

Lemma uint24_no_wrap (l m h : Z) :
  0 <= l < 256 -> 0 <= m < 256 -> 0 <= h < 256 ->
  wrap_signed 32
    (wrap_signed 32
       (wrap_signed 32 (wrap_signed 32 h * 2 ^ 16)
        + wrap_signed 32 (wrap_signed 32 m * 2 ^ 8)) + l)
  = h * 65536 + m * 256 + l.
Proof.
  intros Hl Hm Hh.
  change (2 ^ 16) with 65536. change (2 ^ 8) with 256.
  rewrite (wrap_signed_small (w := 32) (z := h))
    by (change (2 ^ (32 - 1)) with 2147483648; lia).
  rewrite (wrap_signed_small (w := 32) (z := m))
    by (change (2 ^ (32 - 1)) with 2147483648; lia).
  rewrite (wrap_signed_small (w := 32) (z := h * 65536))
    by (change (2 ^ (32 - 1)) with 2147483648; lia).
  rewrite (wrap_signed_small (w := 32) (z := m * 256))
    by (change (2 ^ (32 - 1)) with 2147483648; lia).
  rewrite (wrap_signed_small (w := 32) (z := h * 65536 + m * 256))
    by (change (2 ^ (32 - 1)) with 2147483648; lia).
  apply wrap_signed_small; [lia |].
  change (2 ^ (32 - 1)) with 2147483648; lia.
Qed.

Lemma compose_int24_triplets (k : nat) (bs : list byte) :
  List.length bs = (3 * k)%nat ->
  compose_int24 (map byte_val bs)
  = map (fun '(l, m, h) => Spec.int24_value l m h) (Spec.triplets bs).
Proof.
  revert bs. induction k as [| k IH]; intros bs Hlen.
  - destruct bs; [reflexivity | discriminate].
  - destruct bs as [| l [| m [| h rest]]]; simpl in Hlen; try lia.
    specialize (IH rest ltac:(lia)).
    unfold compose_int24 in *. simpl map.
    rewrite stride3_0_cons3, stride3_1_cons3, stride3_2_cons3.
    cbn [Np.astype_int8 Np.astype_int32 Np.mul_int32 Np.add_int32 map
         Spec.triplets].
    f_equal; [| exact IH].
    unfold Spec.int24_value.
    apply int24_no_wrap; apply byte_val_range.
Qed.

Lemma compose_uint24_triplets (k : nat) (bs : list byte) :
  List.length bs = (3 * k)%nat ->
  compose_uint24 (map byte_val bs)
  = map (fun '(l, m, h) => Spec.uint24_value l m h) (Spec.triplets bs).
Proof.
  revert bs. induction k as [| k IH]; intros bs Hlen.
  - destruct bs; [reflexivity | discriminate].
  - destruct bs as [| l [| m [| h rest]]]; simpl in Hlen; try lia.
    specialize (IH rest ltac:(lia)).
    unfold compose_uint24 in *. simpl map.
    rewrite stride3_0_cons3, stride3_1_cons3, stride3_2_cons3.
    cbn [Np.astype_int32 Np.mul_int32 Np.add_int32 map Spec.triplets].
    f_equal; [| exact IH].
    unfold Spec.uint24_value.
    apply uint24_no_wrap; apply byte_val_range.
Qed.

Lemma uint8_samples (packet : list byte) (pos n : Z) :
  0 <= pos -> 0 <= n -> pos + DT_SYNC_FIXED_SIZE + 3 * n <= len packet ->
  Np.frombuffer_uint8 packet (pos + DT_SYNC_FIXED_SIZE) (n * 3)
  = Returns (map byte_val (slice packet (pos + DT_SYNC_FIXED_SIZE) (3 * n))).
Proof.
  intros Hpos Hn Hlen. unfold Np.frombuffer_uint8, DT_SYNC_FIXED_SIZE in *.
  rewrite frombuffer_items_ok by lia.
  change (Z.to_nat 1) with 1%nat. rewrite chunks_1.
  - unfold slice. replace (n * 3) with (3 * n) by lia. reflexivity.
  - unfold len in Hlen. rewrite length_skipn. lia.
Qed.

Lemma length_triplets (k : nat) (bs : list byte) :
  List.length bs = (3 * k)%nat -> List.length (Spec.triplets bs) = k.
Proof.
  revert bs. induction k as [| k IH]; intros bs Hlen.
  - destruct bs; [reflexivity | discriminate].
  - destruct bs as [| l [| m [| h rest]]]; simpl in Hlen; try lia.
    simpl. rewrite IH; [reflexivity | lia].
Qed.

(** C2. readSamplesSync composes each 3-byte sample (low, mid, high) as
    sign_extend(high)*65536 + mid*256 + low for int24 and as
    high*65536 + mid*256 + low for uint24, then scales it as
    value*factor + offset; on the bytes 00 00 00, 01 00 00, ff ff ff with
    factor 2 and offset 1 the signed decode is 1, 3, -1 and the unsigned
    decode is 1, 3, 33554431. *)
Theorem readSamplesSync_24bit (lib : PyLib) (packet : list byte) (pos n : Z)
    (r : receiver) (entry : attr_value * attr_value) (f o : F64.t) :
  0 <= pos -> 0 <= n ->
  pos + DT_SYNC_FIXED_SIZE + 3 * n <= len packet ->
  scaling_entry r = Returns entry ->
  py_float lib (fst entry) = Returns f ->
  py_float lib (snd entry) = Returns o ->
  let samples :=
    Spec.triplets (slice packet (pos + DT_SYNC_FIXED_SIZE) (3 * n)) in
  List.length samples = Z.to_nat n
  /\ readSamplesSync lib packet pos n Np.int24 r
     = (Returns (Np.Vector Np.float64
          (map (fun '(low, mid, high) =>
                  Np.SFloat (Spec.scaled f o (Spec.int24_value low mid high)))
               samples)), r)
  /\ readSamplesSync lib packet pos n Np.uint24 r
     = (Returns (Np.Vector Np.float64
          (map (fun '(low, mid, high) =>
                  Np.SFloat (Spec.scaled f o (Spec.uint24_value low mid high)))
               samples)), r)
  /\ fst (readSamplesSync lib Vectors.test_packet 0 3 Np.int24
            (Vectors.with_scaling 2 1))
     = Returns (Np.Vector Np.float64
         [Np.SFloat (F64.of_Z 1); Np.SFloat (F64.of_Z 3);
          Np.SFloat (F64.of_Z (-1))])
  /\ fst (readSamplesSync lib Vectors.test_packet 0 3 Np.uint24
            (Vectors.with_scaling 2 1))
     = Returns (Np.Vector Np.float64
         [Np.SFloat (F64.of_Z 1); Np.SFloat (F64.of_Z 3);
          Np.SFloat (F64.of_Z 33554431)]).
Proof.
  intros Hpos Hn Hlen Hentry Hf Ho samples.
  assert (Hbytes : List.length (slice packet (pos + DT_SYNC_FIXED_SIZE) (3 * n))
                   = (3 * Z.to_nat n)%nat).
  { rewrite length_slice; unfold DT_SYNC_FIXED_SIZE in *; lia. }
  split; [exact (@length_triplets _ _ Hbytes) |].
  split; [| split].
  - unfold readSamplesSync, bind, get, lift, ret. cbn [obind].
    rewrite Hentry. cbn [obind]. rewrite Hf, Ho.
    rewrite uint8_samples by assumption. cbn [obind].
    rewrite (@compose_int24_triplets _ _ Hbytes).
    unfold scale. rewrite !map_map.
    do 3 f_equal. apply map_ext. intros [[low mid] high]. reflexivity.
  - unfold readSamplesSync, bind, get, lift, ret. cbn [obind].
    rewrite Hentry. cbn [obind]. rewrite Hf, Ho.
    rewrite uint8_samples by assumption. cbn [obind].
    rewrite (@compose_uint24_triplets _ _ Hbytes).
    unfold scale. rewrite !map_map.
    do 3 f_equal. apply map_ext. intros [[low mid] high]. reflexivity.
  - split; vm_compute; reflexivity.
Qed.

Lemma readSamplesSync_24bit_witness :
  fst (readSamplesSync Vectors.demo_lib Vectors.test_packet 0 3 Np.int24
         (Vectors.with_scaling 2 1))
  = Returns (Np.Vector Np.float64
      [Np.SFloat (Spec.scaled (F64.of_Z 2) (F64.of_Z 1) 0);
       Np.SFloat (Spec.scaled (F64.of_Z 2) (F64.of_Z 1) 1);
       Np.SFloat (Spec.scaled (F64.of_Z 2) (F64.of_Z 1) (-1))]).
Proof.
  pose proof (@readSamplesSync_24bit Vectors.demo_lib Vectors.test_packet 0 3
                (Vectors.with_scaling 2 1) (AInt 2, AInt 1)
                (F64.of_Z 2) (F64.of_Z 1)
                ltac:(lia) ltac:(lia) ltac:(vm_compute; discriminate)
                eq_refl eq_refl eq_refl) as H.
  destruct H as (_ & H & _).
  rewrite H. reflexivity.
Defined.

(* ================================================================= *)
(** ** Relations every method keeps *)

Section Keeps.

Variable R : receiver -> receiver -> Prop.
Hypothesis HR : session_order R.

Lemma keeps_ret {A} (a : A) : keeps R (ret a).
Proof. intros r. apply (so_refl HR). Qed.

Lemma keeps_raise {A} (e : exn) : keeps R (@raise receiver A e).
Proof. intros r. apply (so_refl HR). Qed.

Lemma keeps_lift {A} (o : outcome A) : keeps R (lift o).
Proof. intros r. apply (so_refl HR). Qed.

Lemma keeps_get : keeps R get.
Proof. intros r. apply (so_refl HR). Qed.

Lemma keeps_bind {A B} (m : M receiver A) (k : A -> M receiver B) :
  keeps R m -> (forall a, keeps R (k a)) -> keeps R (bind m k).
Proof.
  intros Hm Hk r. unfold bind. specialize (Hm r).
  destruct (m r) as [[a | e |] r1]; cbn [snd] in *; try exact Hm.
  apply (so_trans HR) with r1; [exact Hm | apply Hk].
Qed.

Lemma keeps_when (b : bool) (m : M receiver unit) :
  keeps R m -> keeps R (when b m).
Proof. intros Hm. destruct b; [exact Hm | apply keeps_ret]. Qed.

Lemma keeps_logging_warning (msg : string) : keeps R (logging_warning msg).
Proof. intros r. apply (so_warnings HR). Qed.

Lemma keeps_incr_channel_idx : keeps R incr_channel_idx.
Proof. intros r. apply (so_channel_idx HR). Qed.

Lemma keeps_channelValue_append (data : Np.pydata) :
  keeps R (channelValue_append data).
Proof.
  intros r. unfold channelValue_append, bind, get, modify, raise.
  destruct (channelValue r) as [l |] eqn:E; cbn [snd].
  - apply (so_block HR). exact E.
  - apply (so_refl HR).
Qed.

Variable lib : PyLib.

Ltac keeps_step :=
  first
    [ apply keeps_ret | apply keeps_raise | apply keeps_lift
    | apply keeps_get | apply keeps_logging_warning
    | apply keeps_incr_channel_idx | apply keeps_channelValue_append
    | apply keeps_when
    | apply keeps_bind; [| intros ?]
    | match goal with
      | |- keeps _ (match ?x with _ => _ end) => destruct x
      end ].

Lemma keeps_readSamples (packet : list byte)
    (channel_data_type dim num_samples pos sample_type : Z) :
  keeps R (readSamples lib packet channel_data_type dim num_samples pos
                       sample_type).
Proof.
  unfold readSamples, readSamplesSync, readArraySync, readSamplesAsync,
    readArrayAsync.
  repeat keeps_step.
Qed.

Lemma keeps_processSyncFixed (packet : list byte) (pos : Z) :
  keeps R (processSyncFixed lib packet pos).
Proof.
  unfold processSyncFixed.
  apply keeps_bind; [apply keeps_lift |].
  intros [[[[code dim] n] ts] freq].
  apply keeps_bind; [apply keeps_readSamples | intros data].
  repeat keeps_step.
Qed.

Lemma keeps_processAsyncFixed (packet : list byte) (pos : Z) :
  keeps R (processAsyncFixed lib packet pos).
Proof.
  unfold processAsyncFixed.
  apply keeps_bind; [apply keeps_lift |].
  intros [[[code dim] n] freq].
  apply keeps_bind; [apply keeps_readSamples | intros data].
  repeat keeps_step.
Qed.

Lemma keeps_processPacketInfo (packet : list byte) (pos : Z) :
  keeps R (processPacketInfo packet pos).
Proof.
  unfold processPacketInfo.
  apply keeps_bind; [apply keeps_lift |].
  intros [[[[[v id] sq] st] sd] n] r. apply (so_packet_info HR).
Qed.

Lemma keeps_parseScalingXML_children (cs : list Element) :
  keeps R (parseScalingXML_children cs).
Proof.
  induction cs as [| child rest IH]; cbn [parseScalingXML_children].
  - apply keeps_ret.
  - apply keeps_bind; [apply keeps_lift | intros child0].
    apply keeps_bind; [| intros _; exact IH].
    intros r. apply (so_scaling HR).
Qed.

Lemma keeps_parseScalingXML (xml_content : string) :
  keeps R (parseScalingXML lib xml_content).
Proof.
  unfold parseScalingXML.
  apply keeps_bind; [apply keeps_lift | intros root].
  destruct (String.eqb (tag root) "ChannelInfo");
    [apply keeps_parseScalingXML_children | apply keeps_ret].
Qed.

Lemma keeps_processXmlConfig (packet : list byte) (pos size : Z) :
  keeps R (processXmlConfig lib packet pos size).
Proof.
  unfold processXmlConfig.
  apply keeps_bind; [apply keeps_lift | intros content].
  apply keeps_bind; [| intros _; apply keeps_parseScalingXML].
  intros r. apply (so_packet_xml HR).
Qed.

Lemma keeps_processPacket_dispatch (packet : list byte)
    (pos sub_packet_size sub_packet_type : Z) :
  keeps R (processPacket_dispatch lib packet pos sub_packet_size
                                  sub_packet_type).
Proof.
  unfold processPacket_dispatch.
  repeat (apply keeps_bind; [| intros _]); apply keeps_when;
    auto using keeps_processPacketInfo, keeps_processXmlConfig,
               keeps_processSyncFixed, keeps_processAsyncFixed.
Qed.

Lemma keeps_processPacket_loop (fuel : nat) (packet : list byte) (pos : Z)
    (hit_footer : bool) :
  keeps R (processPacket_loop lib fuel packet pos hit_footer).
Proof.
  revert pos. induction fuel as [| fuel IH]; intros pos;
    cbn [processPacket_loop];
    destruct ((pos <? len packet) && negb hit_footer);
    try apply keeps_ret; try apply keeps_lift.
  apply keeps_bind; [apply keeps_lift | intros [size type]].
  apply keeps_bind; [apply keeps_processPacket_dispatch | intros _].
  apply IH.
Qed.

Lemma keeps_processPacket (fuel : nat) (packet : list byte) :
  keeps R (processPacket lib fuel packet).
Proof.
  unfold processPacket.
  apply keeps_bind; [| intros _; apply keeps_processPacket_loop].
  intros r. apply (so_channel_idx HR).
Qed.

End Keeps.

Lemma blocks_extended_order : session_order blocks_extended.
Proof.
  unfold blocks_extended. constructor.
  - intros r. destruct (channelValue r); [exists []; symmetry; apply app_nil_r | exact I].
  - intros r1 r2 r3.
    destruct (channelValue r1), (channelValue r2), (channelValue r3);
      try tauto.
    intros [a ->] [b ->]. exists (a ++ b). symmetry. apply app_assoc.
  - intros r v. cbn. destruct (channelValue r); [exists []; symmetry; apply app_nil_r | exact I].
  - intros r v. cbn. destruct (channelValue r); [exists []; symmetry; apply app_nil_r | exact I].
  - intros r v. cbn. destruct (channelValue r); [exists []; symmetry; apply app_nil_r | exact I].
  - intros r v. cbn. destruct (channelValue r); [exists []; symmetry; apply app_nil_r | exact I].
  - intros r e. cbn. destruct (channelValue r); [exists []; symmetry; apply app_nil_r | exact I].
  - intros r l b ->. cbn. exists [b]. reflexivity.
Qed.

Lemma scaling_extended_order : session_order scaling_extended.
Proof.
  unfold scaling_extended. constructor.
  - intros r. exists []. symmetry. apply app_nil_r.
  - intros r1 r2 r3 [a Ha] [b Hb]. exists (a ++ b).
    rewrite Hb, Ha. symmetry. apply app_assoc.
  - intros r v. exists []. symmetry. apply app_nil_r.
  - intros r v. exists []. symmetry. apply app_nil_r.
  - intros r v. exists []. symmetry. apply app_nil_r.
  - intros r v. exists []. symmetry. apply app_nil_r.
  - intros r e. exists [e]. reflexivity.
  - intros r l b _. exists []. symmetry. apply app_nil_r.
Qed.

(* ================================================================= *)
(** ** What the sample readers do to the receiver *)

Lemma stateless_ret {A} (a : A) : stateless (ret a).
Proof. intros r. reflexivity. Qed.

Lemma stateless_lift {A} (o : outcome A) : stateless (lift o).
Proof. intros r. reflexivity. Qed.

Lemma stateless_get : stateless get.
Proof. intros r. reflexivity. Qed.

Lemma stateless_bind {A B} (m : M receiver A) (k : A -> M receiver B) :
  stateless m -> (forall a, stateless (k a)) -> stateless (bind m k).
Proof.
  intros Hm Hk r. unfold bind. specialize (Hm r).
  destruct (m r) as [[a | e |] r1]; cbn [snd] in *; subst r1;
    [apply Hk | reflexivity | reflexivity].
Qed.

Lemma stateless_readSamplesSync lib packet pos num_samples sample_type :
  stateless (readSamplesSync lib packet pos num_samples sample_type).
Proof.
  unfold readSamplesSync.
  repeat (apply stateless_bind; [| intros ?]);
    auto using stateless_get, stateless_lift, stateless_ret.
Qed.

Lemma stateless_readArraySync packet pos dim num_samples sample_type :
  stateless (readArraySync packet pos dim num_samples sample_type).
Proof.
  unfold readArraySync.
  apply stateless_bind; [apply stateless_lift | intros; apply stateless_ret].
Qed.

Lemma stateless_readSamplesAsync packet pos num_samples sample_type :
  stateless (readSamplesAsync packet pos num_samples sample_type).
Proof.
  unfold readSamplesAsync.
  apply stateless_bind; [apply stateless_lift | intros; apply stateless_ret].
Qed.

Lemma stateless_readArrayAsync packet pos dim num_samples sample_type :
  stateless (readArrayAsync packet pos dim num_samples sample_type).
Proof.
  unfold readArrayAsync.
  apply stateless_bind; [apply stateless_lift | intros; apply stateless_ret].
Qed.

Lemma set_warnings_same (r : receiver) : set_warnings (warnings r) r = r.
Proof. destruct r. reflexivity. Qed.

(** [readSamples] changes nothing but the log of warnings. *)
Lemma readSamples_effect lib packet code dim n pos sample_type (r : receiver) :
  exists w,
    snd (readSamples lib packet code dim n pos sample_type r)
    = set_warnings w r.
Proof.
  unfold readSamples, bind at 1, lift.
  destruct (DT_DATA_TYPE code) as [[dt |] | e |]; cbn [snd].
  - destruct ((sample_type =? SBT_SYNC_FIXED) && (0 <? n)).
    { exists (warnings r). rewrite set_warnings_same.
      destruct (dim =? 1);
        [apply stateless_readSamplesSync | apply stateless_readArraySync]. }
    destruct ((sample_type =? SBT_ASYNC_FIXED) && (0 <? n)).
    { exists (warnings r). rewrite set_warnings_same.
      destruct (dim =? 1);
        [apply stateless_readSamplesAsync | apply stateless_readArrayAsync]. }
    eexists. reflexivity.
  - eexists. reflexivity.
  - exists (warnings r). symmetry. apply set_warnings_same.
  - exists (warnings r). symmetry. apply set_warnings_same.
Qed.

Lemma readSamples_channelValue lib packet code dim n pos sample_type r :
  channelValue (snd (readSamples lib packet code dim n pos sample_type r))
  = channelValue r.
Proof.
  destruct (readSamples_effect lib packet code dim n pos sample_type r) as [w ->].
  reflexivity.
Qed.

Lemma append_then_incr (data : Np.pydata) (r : receiver) :
  one_block_or_none r
    ((channelValue_append data ;; incr_channel_idx) r).
Proof.
  unfold one_block_or_none, channelValue_append, incr_channel_idx, bind, get,
    modify, raise.
  destruct (channelValue r) as [l |] eqn:E; rewrite ?E; cbn.
  - exists data. reflexivity.
  - rewrite E. split; [reflexivity | discriminate].
Qed.

Lemma one_block_or_none_failed (r r' : receiver) (o : outcome unit) :
  channelValue r' = channelValue r -> o <> Returns tt ->
  one_block_or_none r (o, r').
Proof.
  intros Hcv Ho. unfold one_block_or_none. cbn [fst snd]. rewrite Hcv.
  destruct (channelValue r); [| split; [reflexivity | exact Ho]].
  destruct o as [[] | e |]; [contradiction | reflexivity | reflexivity].
Qed.

Lemma one_block_or_none_shift (r r1 : receiver) (res : outcome unit * receiver) :
  channelValue r1 = channelValue r ->
  one_block_or_none r1 res -> one_block_or_none r res.
Proof.
  unfold one_block_or_none. intros ->. exact (fun H => H).
Qed.

Lemma processSyncFixed_one_block lib packet pos (r : receiver) :
  one_block_or_none r (processSyncFixed lib packet pos r).
Proof.
  unfold processSyncFixed. unfold bind at 1. unfold lift at 1.
  destruct (Struct.unpack_3IQd packet pos)
    as [[[[[code dim] n] ts] freq] | e |];
    try (apply one_block_or_none_failed; [reflexivity | discriminate]).
  unfold bind at 1.
  pose proof (readSamples_channelValue lib packet code dim n pos SBT_SYNC_FIXED r)
    as Hcv.
  destruct (readSamples lib packet code dim n pos SBT_SYNC_FIXED r)
    as [[data | e |] r1]; cbn [snd] in Hcv;
    try (apply one_block_or_none_failed; [exact Hcv | discriminate]).
  unfold bind at 1. unfold lift at 1.
  destruct (arange_over lib ts (ts + n) freq) as [timeStamps | e |];
    try (apply one_block_or_none_failed; [exact Hcv | discriminate]).
  unfold bind at 1. unfold lift at 1.
  destruct (Np.c_ timeStamps data) as [block | e |];
    try (apply one_block_or_none_failed; [exact Hcv | discriminate]).
  apply one_block_or_none_shift with r1; [exact Hcv |].
  apply append_then_incr.
Qed.

Lemma processAsyncFixed_one_block lib packet pos (r : receiver) :
  one_block_or_none r (processAsyncFixed lib packet pos r).
Proof.
  unfold processAsyncFixed. unfold bind at 1. unfold lift at 1.
  destruct (Struct.unpack_3Id packet pos) as [[[[code dim] n] freq] | e |];
    try (apply one_block_or_none_failed; [reflexivity | discriminate]).
  unfold bind at 1.
  pose proof (readSamples_channelValue lib packet code dim n pos SBT_ASYNC_FIXED r)
    as Hcv.
  destruct (readSamples lib packet code dim n pos SBT_ASYNC_FIXED r)
    as [[data | e |] r1]; cbn [snd] in Hcv;
    try (apply one_block_or_none_failed; [exact Hcv | discriminate]).
  unfold bind at 1. unfold lift at 1.
  destruct (Np.size data) as [size | e |];
    try (apply one_block_or_none_failed; [exact Hcv | discriminate]).
  unfold bind at 1.
  destruct (0 <? size).
  - unfold bind at 1. unfold lift at 1.
    destruct (Np.field_f0 data) as [f0 | e |];
      try (apply one_block_or_none_failed; [exact Hcv | discriminate]).
    unfold bind at 1. unfold lift at 1.
    destruct (Np.field_f1 data) as [f1 | e |];
      try (apply one_block_or_none_failed; [exact Hcv | discriminate]).
    unfold lift.
    destruct (Np.c_ _ f1) as [block | e |];
      try (apply one_block_or_none_failed; [exact Hcv | discriminate]).
    apply one_block_or_none_shift with r1; [exact Hcv |].
    apply append_then_incr.
  - unfold ret.
    apply one_block_or_none_shift with r1; [exact Hcv |].
    apply append_then_incr.
Qed.

(** C9. Decoding is append-only: each of the two sample decoders adds
    exactly one block at the end of the packet's result list when it
    returns and leaves the list untouched when it fails, and whatever the
    outcome of processPacket (returned, raised part-way, still running)
    the blocks that were in the list before are still there, unchanged
    and in place, followed by the added ones. *)
Theorem decoding_is_append_only (lib : PyLib) (packet : list byte) :
  (forall pos r, one_block_or_none r (processSyncFixed lib packet pos r))
  /\ (forall pos r, one_block_or_none r (processAsyncFixed lib packet pos r))
  /\ (forall fuel r,
        blocks_extended r (snd (processPacket lib fuel packet r))).
Proof.
  split; [| split].
  - intros pos r. apply processSyncFixed_one_block.
  - intros pos r. apply processAsyncFixed_one_block.
  - intros fuel r.
    apply (keeps_processPacket blocks_extended_order lib fuel packet).
Qed.

(* ================================================================= *)
(** ** The scaling table *)

Lemma set_scaling_info_same (r : receiver) :
  set_scaling_info (scaling_info r) r = r.
Proof. destruct r. reflexivity. Qed.

Lemma set_scaling_info_twice (a b : list (attr_value * attr_value)) r :
  set_scaling_info b (set_scaling_info a r) = set_scaling_info b r.
Proof. reflexivity. Qed.

(** The loop over the channel elements adds the entries of the elements
    up to the first one without a sub-element, in document order, and
    raises IndexError exactly when there is such an element. *)
Lemma parseScalingXML_children_effect (cs : list Element) (r : receiver) :
  parseScalingXML_children cs r
  = (if forallb has_child cs then Returns tt else Raises IndexError,
     set_scaling_info (scaling_info r ++ scaling_entries cs) r).
Proof.
  revert r. induction cs as [| child rest IH]; intros r.
  - cbn. rewrite app_nil_r, set_scaling_info_same. reflexivity.
  - cbn [parseScalingXML_children scaling_entries forallb].
    unfold has_child at 1.
    destruct (children child) as [| child0 more] eqn:E.
    + unfold bind, lift. cbn.
      rewrite app_nil_r, set_scaling_info_same. reflexivity.
    + unfold bind at 1. unfold lift. cbn [nth_error of_option].
      unfold bind at 1. unfold modify at 1.
      rewrite IH. cbn [andb]. f_equal.
      cbn [scaling_info set_scaling_info]. rewrite <- app_assoc.
      reflexivity.
Qed.

(** C10. The scaling table only grows.  parseScalingXML adds one
    (factor, offset) entry per channel element of a ChannelInfo root, in
    document order, with the integer 1 for an absent factor and the
    integer 0 for an absent offset; a document with another root tag
    leaves the receiver as it was; every method of the decoder, whatever
    its outcome, leaves the old entries in place and in order and at most
    adds entries after them; processPacket sets the channel index to
    zero and starts the walk with the table it found. *)
Theorem scaling_table_only_grows (lib : PyLib) :
  (forall xml_content r,
      parseScalingXML lib xml_content r
      = match ET_fromstring lib xml_content with
        | None => (Raises ParseError, r)
        | Some root =>
            if String.eqb (tag root) "ChannelInfo" then
              (if forallb has_child (children root)
               then Returns tt else Raises IndexError,
               set_scaling_info
                 (scaling_info r ++ scaling_entries (children root)) r)
            else (Returns tt, r)
        end)
  /\ (forall cs,
        forallb has_child cs = true ->
        scaling_entries cs
        = map (fun child => scaling_of (hd child (children child))) cs)
  /\ (forall attrib sub,
        scaling_of (Elem "Scaling" attrib sub)
        = (match assoc "factor" attrib with
           | None => AInt 1
           | Some s => AStr s
           end,
           match assoc "offset" attrib with
           | None => AInt 0
           | Some s => AStr s
           end))
  /\ (forall fuel packet, keeps scaling_extended (processPacket lib fuel packet))
  /\ (forall packet pos size,
        keeps scaling_extended (processXmlConfig lib packet pos size))
  /\ (forall packet pos, keeps scaling_extended (processSyncFixed lib packet pos))
  /\ (forall packet pos, keeps scaling_extended (processAsyncFixed lib packet pos))
  /\ (forall packet pos, keeps scaling_extended (processPacketInfo packet pos))
  /\ (forall fuel packet r,
        processPacket lib fuel packet r
        = processPacket_loop lib fuel packet 0 false
            (set_actual_channel_idx 0 r)
        /\ scaling_info (set_actual_channel_idx 0 r) = scaling_info r
        /\ actual_channel_idx (set_actual_channel_idx 0 r) = 0).
Proof.
  repeat split.
  - intros xml_content r. unfold parseScalingXML, bind, lift.
    destruct (ET_fromstring lib xml_content) as [root |]; cbn [of_option].
    + destruct (String.eqb (tag root) "ChannelInfo").
      * apply parseScalingXML_children_effect.
      * reflexivity.
    + reflexivity.
  - intros cs. induction cs as [| child rest IH]; [reflexivity |].
    cbn [forallb scaling_entries map]. unfold has_child at 1.
    destruct (children child) as [| child0 more]; [discriminate |].
    cbn [andb hd]. intros H. rewrite (IH H). reflexivity.
  - intros fuel packet. apply keeps_processPacket, scaling_extended_order.
  - intros packet pos size. apply keeps_processXmlConfig, scaling_extended_order.
  - intros packet pos. apply keeps_processSyncFixed, scaling_extended_order.
  - intros packet pos. apply keeps_processAsyncFixed, scaling_extended_order.
  - intros packet pos. apply keeps_processPacketInfo, scaling_extended_order.
Qed.

Lemma scaling_table_only_grows_witness :
  forallb has_child (children Vectors.xml_doc) = true
  /\ scaling_entries (children Vectors.xml_doc)
     = [scaling_of (Elem "Scaling" [("factor", "1"); ("offset", "0")]%string [])]
  /\ snd (parseScalingXML Vectors.demo_lib Vectors.xml_text init_receiver)
     = set_scaling_info [(AStr "1", AStr "0")] init_receiver.
Proof.
  pose proof (scaling_table_only_grows Vectors.demo_lib) as (Hparse & Hall & _).
  split; [reflexivity |]. split.
  - rewrite (Hall (children Vectors.xml_doc) eq_refl). reflexivity.
  - rewrite Hparse. reflexivity.
Defined.

(* ================================================================= *)
(** ** Walking a payload *)

Lemma loop_step lib fuel packet pos size type :
  (pos <? len packet) = true ->
  Struct.unpack_2I packet pos = Returns (size, type) ->
  processPacket_loop lib (S fuel) packet pos false
  = (processPacket_dispatch lib packet pos size type ;;
     processPacket_loop lib fuel packet (pos + size) false).
Proof.
  intros Hpos Hhdr. cbn [processPacket_loop]. rewrite Hpos. cbn [andb negb].
  rewrite Hhdr. reflexivity.
Qed.

Lemma loop_end lib fuel packet pos :
  (pos <? len packet) = false ->
  processPacket_loop lib fuel packet pos false = ret tt.
Proof.
  intros Hpos. destruct fuel; cbn [processPacket_loop]; rewrite Hpos; reflexivity.
Qed.

Lemma dispatch_packet_info lib packet pos size r :
  processPacket_dispatch lib packet pos size SBT_PACKET_INFO r
  = (processPacketInfo packet (pos + DT_SUBPACKET_HEADER_SIZE) ;; ret tt) r.
Proof.
  unfold processPacket_dispatch. cbn [Z.eqb SBT_PACKET_INFO SBT_XML_CONFIG
    SBT_SYNC_FIXED SBT_ASYNC_FIXED Pos.eqb when].
  unfold bind, ret.
  destruct (processPacketInfo packet (pos + DT_SUBPACKET_HEADER_SIZE) r)
    as [[[] | e |] r1]; reflexivity.
Qed.

Lemma dispatch_xml_config lib packet pos size r :
  processPacket_dispatch lib packet pos size SBT_XML_CONFIG r
  = (processXmlConfig lib packet (pos + DT_SUBPACKET_HEADER_SIZE)
       (size - DT_SUBPACKET_HEADER_SIZE) ;; ret tt) r.
Proof.
  unfold processPacket_dispatch. cbn [Z.eqb SBT_PACKET_INFO SBT_XML_CONFIG
    SBT_SYNC_FIXED SBT_ASYNC_FIXED Pos.eqb when].
  unfold bind, ret.
  destruct (processXmlConfig lib packet (pos + DT_SUBPACKET_HEADER_SIZE)
              (size - DT_SUBPACKET_HEADER_SIZE) r)
    as [[[] | e |] r1]; reflexivity.
Qed.

Lemma dispatch_sync_fixed lib packet pos size r :
  processPacket_dispatch lib packet pos size SBT_SYNC_FIXED r
  = (processSyncFixed lib packet (pos + DT_SUBPACKET_HEADER_SIZE) ;; ret tt) r.
Proof.
  unfold processPacket_dispatch. cbn [Z.eqb SBT_PACKET_INFO SBT_XML_CONFIG
    SBT_SYNC_FIXED SBT_ASYNC_FIXED Pos.eqb when].
  unfold bind, ret.
  destruct (processSyncFixed lib packet (pos + DT_SUBPACKET_HEADER_SIZE) r)
    as [[[] | e |] r1]; reflexivity.
Qed.

Lemma dispatch_async_fixed lib packet pos size r :
  processPacket_dispatch lib packet pos size SBT_ASYNC_FIXED r
  = processAsyncFixed lib packet (pos + DT_SUBPACKET_HEADER_SIZE) r.
Proof.
  unfold processPacket_dispatch. cbn [Z.eqb SBT_PACKET_INFO SBT_XML_CONFIG
    SBT_SYNC_FIXED SBT_ASYNC_FIXED Pos.eqb when].
  unfold bind, ret. reflexivity.
Qed.

(** A sub-record of a type without a decoder is stepped over. *)
Lemma dispatch_other lib packet pos size type r :
  type <> SBT_PACKET_INFO -> type <> SBT_XML_CONFIG ->
  type <> SBT_SYNC_FIXED -> type <> SBT_ASYNC_FIXED ->
  processPacket_dispatch lib packet pos size type r = (Returns tt, r).
Proof.
  intros H1 H2 H3 H5. unfold processPacket_dispatch.
  destruct (Z.eqb_spec SBT_PACKET_INFO type); [congruence |].
  destruct (Z.eqb_spec SBT_XML_CONFIG type); [congruence |].
  destruct (Z.eqb_spec SBT_SYNC_FIXED type); [congruence |].
  destruct (Z.eqb_spec SBT_ASYNC_FIXED type); [congruence |].
  reflexivity.
Qed.

(** More fuel changes nothing once the walk has ended. *)
Lemma loop_fuel_mono lib (fuel extra : nat) packet :
  forall pos r o r',
    processPacket_loop lib fuel packet pos false r = (o, r') ->
    o <> OutOfFuel ->
    processPacket_loop lib (fuel + extra) packet pos false r = (o, r').
Proof.
  induction fuel as [| fuel IH]; intros pos r o r';
    cbn [processPacket_loop Nat.add];
    destruct ((pos <? len packet) && negb false) eqn:Hgo.
  - intros H. injection H as <- <-. intros Ho. contradiction.
  - intros H _. rewrite <- H.
    destruct extra; cbn [processPacket_loop]; rewrite Hgo; reflexivity.
  - unfold bind at 1 3. unfold lift.
    destruct (Struct.unpack_2I packet pos) as [[size type] | e |];
      try (intros H _; exact H).
    unfold bind.
    destruct (processPacket_dispatch lib packet pos size type r)
      as [[[] | e |] r1]; try (intros H _; exact H).
    apply IH.
  - intros H _. exact H.
Qed.

Lemma processPacket_fuel_mono lib (fuel extra : nat) packet r o r' :
  processPacket lib fuel packet r = (o, r') ->
  o <> OutOfFuel ->
  processPacket lib (fuel + extra) packet r = (o, r').
Proof.
  unfold processPacket, bind, modify. apply loop_fuel_mono.
Qed.

(* ================================================================= *)
(** ** The end-to-end scenario *)

Ltac eval_here t :=
  let v := eval vm_compute in t in
  replace t with v by (vm_compute; reflexivity).

(** C1. The synthetic packet made of a packet-info sub-record with
    status 0, an xml-config sub-record declaring one channel with factor
    1 and offset 0, and a sync-fixed sub-record (dtype code 10 float32,
    dimension 1, 3 samples, start 0, frequency 1) holding 1.0, 2.0, 3.0
    makes processPacket return with exactly one block in the result
    list, whose rows are [0.0, 1.0], [1.0, 2.0], [2.0, 3.0]. *)
Theorem end_to_end_scenario (lib : PyLib) (fuel : nat) :
  bytes_decode lib Vectors.xml_bytes = Some Vectors.xml_text ->
  ET_fromstring lib Vectors.xml_text = Some Vectors.xml_doc ->
  float_of_str lib "1" = Some (F64.of_Z 1) ->
  float_of_str lib "0" = Some (F64.of_Z 0) ->
  exists r',
    processPacket lib (3 + fuel) Vectors.e2e_packet (fresh_packet init_receiver)
    = (Returns tt, r')
    /\ channelValue r'
       = Some [Np.Matrix Np.float64 2
                 [[Np.SFloat (F64.of_Z 0); Np.SFloat (F64.of_Z 1)];
                  [Np.SFloat (F64.of_Z 1); Np.SFloat (F64.of_Z 2)];
                  [Np.SFloat (F64.of_Z 2); Np.SFloat (F64.of_Z 3)]]]
    /\ stream_status (packet_info r') = 0.
Proof.
  intros Hdec Hxml H1 H0.
  change (3 + fuel)%nat with (S (S (S fuel))).
  unfold processPacket. unfold bind at 1. unfold modify.
  rewrite (@loop_step lib _ Vectors.e2e_packet 0 32 SBT_PACKET_INFO)
    by (vm_compute; reflexivity).
  unfold bind at 1. rewrite dispatch_packet_info.
  unfold bind at 1.
  eval_here (processPacketInfo Vectors.e2e_packet (0 + DT_SUBPACKET_HEADER_SIZE)
               (set_actual_channel_idx 0 (fresh_packet init_receiver))).
  cbn [ret].
  rewrite (@loop_step lib _ Vectors.e2e_packet (0 + 32) 86 SBT_XML_CONFIG)
    by (vm_compute; reflexivity).
  unfold bind at 1. rewrite dispatch_xml_config.
  unfold bind at 1. unfold processXmlConfig. unfold bind at 1.
  replace (slice Vectors.e2e_packet (0 + 32 + DT_SUBPACKET_HEADER_SIZE)
             (86 - DT_SUBPACKET_HEADER_SIZE))
    with Vectors.xml_bytes by (vm_compute; reflexivity).
  rewrite Hdec. unfold lift at 1. cbn [of_option].
  unfold bind at 1. unfold modify at 1.
  unfold parseScalingXML. unfold bind at 1. rewrite Hxml.
  unfold lift at 1. cbn [of_option].
  change (String.eqb (tag Vectors.xml_doc) "ChannelInfo") with true. cbv iota.
  rewrite parseScalingXML_children_effect.
  change (forallb has_child (children Vectors.xml_doc)) with true. cbv iota.
  cbn [ret].
  rewrite (@loop_step lib _ Vectors.e2e_packet (0 + 32 + 86) 48 SBT_SYNC_FIXED)
    by (vm_compute; reflexivity).
  unfold bind at 1. rewrite dispatch_sync_fixed.
  unfold bind at 1. unfold processSyncFixed. unfold bind at 1.
  eval_here (Struct.unpack_3IQd Vectors.e2e_packet (0 + 32 + 86 + DT_SUBPACKET_HEADER_SIZE)).
  unfold lift at 1. cbv iota beta.
  unfold readSamples. unfold bind at 1. unfold bind at 1.
  cbn [DT_DATA_TYPE lift].
  match goal with
  | |- context [set_scaling_info ?a ?b] => eval_here (set_scaling_info a b)
  end.
  change ((SBT_SYNC_FIXED =? SBT_SYNC_FIXED) && (0 <? 3)) with true.
  change (1 =? 1) with true. cbv iota.
  unfold readSamplesSync. unfold bind at 1. unfold get at 1.
  unfold bind at 1. unfold lift at 1.
  cbn [scaling_entry scaling_info actual_channel_idx Z.to_nat nth_error
       of_option obind fst snd py_float].
  rewrite H1. cbn [of_option].
  unfold bind at 1. unfold lift at 1.
  cbn [scaling_entry scaling_info actual_channel_idx Z.to_nat nth_error
       of_option obind fst snd py_float].
  rewrite H0. cbn [of_option].
  unfold bind at 1. unfold lift at 1.
  eval_here (Np.frombuffer Vectors.e2e_packet Np.float32
               (0 + 32 + 86 + DT_SUBPACKET_HEADER_SIZE + DT_SYNC_FIXED_SIZE) 3).
  cbv iota beta. unfold ret at 1.
  unfold bind at 1. unfold lift at 1.
  match goal with
  | |- context [arange_over lib ?a ?b ?c] => eval_here (arange_over lib a b c)
  end.
  unfold bind at 1. unfold lift at 1.
  match goal with
  | |- context [Np.c_ ?a ?b] => eval_here (Np.c_ a b)
  end.
  unfold bind at 1. unfold channelValue_append at 1.
  unfold bind at 1. unfold get at 1. cbn [channelValue]. unfold modify at 1.
  unfold incr_channel_idx, modify. unfold ret at 1.
  rewrite loop_end by (vm_compute; reflexivity). unfold ret.
  eexists. split; [reflexivity |]. split; vm_compute; reflexivity.
Qed.

Lemma end_to_end_scenario_witness :
  exists r',
    processPacket Vectors.demo_lib 3 Vectors.e2e_packet
      (fresh_packet init_receiver) = (Returns tt, r')
    /\ channelValue r'
       = Some [Np.Matrix Np.float64 2
                 [[Np.SFloat (F64.of_Z 0); Np.SFloat (F64.of_Z 1)];
                  [Np.SFloat (F64.of_Z 1); Np.SFloat (F64.of_Z 2)];
                  [Np.SFloat (F64.of_Z 2); Np.SFloat (F64.of_Z 3)]]]
    /\ stream_status (packet_info r') = 0.
Proof.
  exact (@end_to_end_scenario Vectors.demo_lib 0 eq_refl eq_refl eq_refl eq_refl).
Defined.

(* ================================================================= *)
(** ** Synchronous samples and their time column *)

Lemma zrange_seq (start : Z) (n : nat) :
  Np.zrange start n = map (fun i => start + Z.of_nat i) (seq 0 n).
Proof.
  revert start. induction n as [| n IH]; intros start; [reflexivity |].
  cbn [Np.zrange seq map]. rewrite IH, <- seq_shift, map_map.
  f_equal; [f_equal; lia |].
  apply map_ext. intros i. lia.
Qed.

Lemma length_zrange (start : Z) (n : nat) : List.length (Np.zrange start n) = n.
Proof. rewrite zrange_seq, length_map. apply length_seq. Qed.


Lemma wire_width_pos (dt : Np.dtype) : 0 < wire_width dt.
Proof. destruct dt; reflexivity. Qed.





(* ================================================================= *)
(** ** Sub-records without samples, and unsupported dtypes *)

Lemma set_warnings_nil (r : receiver) : set_warnings (warnings r ++ []) r = r.
Proof. rewrite app_nil_r. apply set_warnings_same. Qed.

(** With a sample count of zero, [readSamples] logs one warning and
    returns [np.empty(0)], for every dtype code of the table. *)
Lemma readSamples_no_samples lib packet code dim pos sample_type r :
  0 <= code <= 15 ->
  readSamples lib packet code dim 0 pos sample_type r
  = (Returns Np.empty0, set_warnings (warnings r ++ [no_data_warning code]) r).
Proof.
  intros Hcode.
  assert (Hcases : code = 0 \/ code = 1 \/ code = 2 \/ code = 3 \/ code = 4
                   \/ code = 5 \/ code = 6 \/ code = 7 \/ code = 8
                   \/ code = 9 \/ code = 10 \/ code = 11 \/ code = 12
                   \/ code = 13 \/ code = 14 \/ code = 15) by lia.
  unfold readSamples.
  repeat (destruct Hcases as [-> | Hcases]); try subst code;
    cbn [DT_DATA_TYPE]; unfold bind at 1; unfold lift; cbv iota;
    rewrite ?andb_false_r; reflexivity.
Qed.

(** X27.  A sync-fixed sub-record whose sample count is zero, for any
    dtype code of the table (14 and 15 and the complex codes included)
    and a start timestamp up to 2^63 - 1, adds an empty block (no rows)
    to the result list and one warning to the log, raises nothing, and
    the walk goes on with the next sub-record. *)
Theorem zero_count_gives_empty_block (lib : PyLib) (packet : list byte)
    (pos size : Z) (fuel : nat) (r : receiver) (code dim ts : Z) (freq : F64.t)
    (blocks : list Np.pydata) :
  (pos <? len packet) = true ->
  Struct.unpack_2I packet pos = Returns (size, SBT_SYNC_FIXED) ->
  Struct.unpack_3IQd packet (pos + DT_SUBPACKET_HEADER_SIZE)
  = Returns (code, dim, 0, ts, freq) ->
  0 <= code <= 15 ->
  ts <= 2 ^ 63 - 1 ->
  channelValue r = Some blocks ->
  processPacket_loop lib (S fuel) packet pos false r
  = processPacket_loop lib fuel packet (pos + size) false
      (after_block [no_data_warning code] (Np.Matrix Np.float64 2 []) r).
Proof.
  intros Hpos Hhdr Hbody Hcode Hts Hcv.
  rewrite (@loop_step lib fuel _ _ _ _ Hpos Hhdr).
  unfold bind at 1. rewrite dispatch_sync_fixed.
  unfold bind at 1. unfold processSyncFixed.
  unfold bind at 1. unfold lift at 1. rewrite Hbody.
  unfold bind at 1. rewrite readSamples_no_samples by exact Hcode.
  unfold bind at 1. unfold lift at 1. unfold arange_over.
  replace (ts + 0 <=? 2 ^ 63 - 1) with true by (symmetry; apply Z.leb_le; lia).
  replace (ts + 0 - ts) with 0 by lia.
  cbn [Z.to_nat Np.zrange map].
  unfold bind at 1. unfold lift at 1.
  cbn [Np.c_ Np.empty0 List.length Nat.eqb Np.zip_rows map Np.with_f64].
  unfold bind at 1. unfold channelValue_append. unfold bind at 1.
  unfold get at 1. cbn [channelValue set_warnings]. rewrite Hcv.
  unfold modify at 1. unfold incr_channel_idx, modify, ret.
  unfold after_block. rewrite Hcv. reflexivity.
Qed.

Lemma zero_count_gives_empty_block_witness :
  processPacket_loop Vectors.demo_lib 1
    (Vectors.sync_fixed 14 1 0 0 []) 0 false (fresh_packet init_receiver)
  = (Returns tt,
     after_block ["Data type not supported yet by python"%string]
       (Np.Matrix Np.float64 2 []) (fresh_packet init_receiver)).
Proof.
  rewrite (@zero_count_gives_empty_block Vectors.demo_lib
             (Vectors.sync_fixed 14 1 0 0 []) 0 36 0
             (fresh_packet init_receiver) 14 1 0 (F64.of_Z 1) []
             eq_refl eq_refl eq_refl
             ltac:(lia) ltac:(vm_compute; discriminate) eq_refl).
  reflexivity.
Defined.

(** C4, on the code.  A sync-fixed sub-record of dtype code 14 with one
    sample makes processPacket raise ValueError: the warning is logged
    and the empty array is returned, but joining it with the one
    timestamp fails; no block is added and the well-formed sub-record
    that follows is never reached.  The same sub-record sent as
    async-fixed, where the join is guarded by the size of the data,
    gives the warning and an empty block and raises nothing. *)
Theorem unsupported_dtype_aborts_packet (lib : PyLib) (fuel : nat) :
  processPacket lib (S fuel) Vectors.dtype14_packet (fresh_packet init_receiver)
  = (Raises ValueError,
     set_warnings ["Data type not supported yet by python"%string]
       (fresh_packet init_receiver))
  /\ processAsyncFixed lib (Vectors.async_fixed 14 1 1 [x00]) 8
       (fresh_packet init_receiver)
     = (Returns tt,
        after_block ["Data type not supported yet by python"%string]
          Np.empty0 (fresh_packet init_receiver)).
Proof.
  split; vm_compute; reflexivity.
Qed.

(** A sync-fixed sub-record of dtype complex64 with one sample is
    decoded like any other named dtype: the block has one row, with the
    real part of the sample, and no warning is logged. *)
Lemma complex_samples_are_decoded :
  processPacket Vectors.demo_lib 1 Vectors.complex_packet
    (Vectors.with_scaling 1 0)
  = (Returns tt,
     after_block []
       (Np.Matrix Np.float64 2
          [[Np.SFloat (F64.of_Z 0); Np.SFloat (F64.of_Z 1)]])
       (Vectors.with_scaling 1 0)).
Proof.
  vm_compute. reflexivity.
Qed.

(* ================================================================= *)
(** ** Sizes the dispatcher does not check *)

Lemma bind_ret_unit (m : M receiver unit) (r : receiver) :
  (m ;; ret tt) r = m r.
Proof.
  unfold bind, ret. destruct (m r) as [[[] | e |] r1]; reflexivity.
Qed.

(** C5, as the code has it.  The dispatcher checks no size.  A header
    whose declared size reaches or passes the end of the payload ends the
    walk with that sub-record: the outcome is the outcome of dispatching
    it, and for a type without a decoder (footer, the variable types,
    unknown codes) processPacket's loop returns normally with the
    receiver untouched.  No framing error is raised. *)
Theorem oversize_ends_walk (lib : PyLib) (packet : list byte) (pos size type : Z)
    (fuel : nat) (r : receiver) :
  (pos <? len packet) = true ->
  Struct.unpack_2I packet pos = Returns (size, type) ->
  len packet <= pos + size ->
  processPacket_loop lib (S fuel) packet pos false r
  = processPacket_dispatch lib packet pos size type r
  /\ (type <> SBT_PACKET_INFO -> type <> SBT_XML_CONFIG ->
      type <> SBT_SYNC_FIXED -> type <> SBT_ASYNC_FIXED ->
      processPacket_loop lib (S fuel) packet pos false r = (Returns tt, r)).
Proof.
  intros Hpos Hhdr Hsize.
  assert (Hloop : processPacket_loop lib (S fuel) packet pos false r
                  = processPacket_dispatch lib packet pos size type r).
  { rewrite (@loop_step lib fuel _ _ _ _ Hpos Hhdr).
    rewrite loop_end by (apply Z.ltb_ge; exact Hsize).
    apply bind_ret_unit. }
  split; [exact Hloop |].
  intros H1 H2 H3 H5. rewrite Hloop. apply dispatch_other; assumption.
Qed.

Lemma oversize_ends_walk_witness :
  processPacket_loop Vectors.demo_lib 1 Vectors.oversize_packet 0 false
    (fresh_packet init_receiver)
  = (Returns tt, fresh_packet init_receiver).
Proof.
  apply (@oversize_ends_walk Vectors.demo_lib Vectors.oversize_packet 0 16
           SBT_PACKET_FOOTER 0 (fresh_packet init_receiver)
           eq_refl eq_refl ltac:(vm_compute; discriminate));
    discriminate.
Defined.

(** C5, as stated, fails on the code: the 8-byte payload whose only
    header declares 16 bytes is processed without any error. *)
Lemma framing_error_counterexample :
  len Vectors.oversize_packet = 8
  /\ Struct.unpack_2I Vectors.oversize_packet 0 = Returns (16, SBT_PACKET_FOOTER)
  /\ processPacket Vectors.demo_lib 1 Vectors.oversize_packet
       (fresh_packet init_receiver)
     = (Returns tt, set_actual_channel_idx 0 (fresh_packet init_receiver)).
Proof.
  repeat split.
Qed.

(** X1.  A header that declares a size of zero keeps the walk at the same
    offset: for a type without a decoder no amount of fuel lets the loop
    end. *)
Lemma zero_size_never_ends (lib : PyLib) (packet : list byte) (pos type : Z)
    (fuel : nat) (r : receiver) :
  (pos <? len packet) = true ->
  Struct.unpack_2I packet pos = Returns (0, type) ->
  type <> SBT_PACKET_INFO -> type <> SBT_XML_CONFIG ->
  type <> SBT_SYNC_FIXED -> type <> SBT_ASYNC_FIXED ->
  processPacket_loop lib fuel packet pos false r = (OutOfFuel, r).
Proof.
  intros Hpos Hhdr H1 H2 H3 H5.
  induction fuel as [| fuel IH].
  - cbn [processPacket_loop]. rewrite Hpos. reflexivity.
  - rewrite (@loop_step lib fuel _ _ _ _ Hpos Hhdr).
    unfold bind. rewrite dispatch_other by assumption.
    replace (pos + 0) with pos by lia. exact IH.
Qed.

(* ================================================================= *)
(** ** The footer *)

(** The walk steps over a footer sub-record like over any sub-record
    without a decoder, and goes on behind it. *)
Lemma footer_is_stepped_over (lib : PyLib) (packet : list byte) (pos size : Z)
    (fuel : nat) (r : receiver) :
  (pos <? len packet) = true ->
  Struct.unpack_2I packet pos = Returns (size, SBT_PACKET_FOOTER) ->
  processPacket_loop lib (S fuel) packet pos false r
  = processPacket_loop lib fuel packet (pos + size) false r.
Proof.
  intros Hpos Hhdr.
  rewrite (@loop_step lib fuel _ _ _ _ Hpos Hhdr).
  unfold bind. rewrite dispatch_other by discriminate. reflexivity.
Qed.

(** C6, on the code.  In the payload made of a footer sub-record
    followed by an async-fixed sub-record (int8, one sample: timestamp 5,
    value 7), the sub-record behind the footer is decoded: processPacket
    returns with the block [[5.0, 7.0]] in the result list. *)
Theorem sub_record_after_footer_is_decoded (fuel : nat) :
  processPacket Vectors.demo_lib (2 + fuel) Vectors.footer_first_packet
    (fresh_packet init_receiver)
  = (Returns tt,
     after_block []
       (Np.Matrix Np.float64 2
          [[Np.SFloat (F64.of_Z 5); Np.SFloat (F64.of_Z 7)]])
       (fresh_packet init_receiver)).
Proof.
  apply processPacket_fuel_mono; [| discriminate].
  vm_compute. reflexivity.
Qed.

(* ================================================================= *)
(** ** Asynchronous array samples *)

Lemma readArrayAsync_rows_no_fuel packet dt dim cur n :
  readArrayAsync_rows packet dt dim cur n <> OutOfFuel.
Proof.
  revert cur. induction n as [| n IH]; intros cur; cbn [readArrayAsync_rows];
    [discriminate |].
  unfold Np.frombuffer_uint64, Np.frombuffer, Np.frombuffer_items.
  destruct (len packet <? cur); [discriminate |].
  destruct (len packet - cur <? 1 * 8); [discriminate |].
  cbn [obind].
  match goal with
  | |- context [of_option IndexError ?x] => destruct x; [| discriminate]
  end.
  cbn [of_option obind].
  destruct (Np.itemsize dt) as [k |]; [| discriminate].
  destruct (len packet <? cur + 8); [discriminate |].
  destruct (len packet - (cur + 8) <? dim * k); [discriminate |].
  cbn [of_option obind].
  specialize (IH (cur + 8 + dim * k)).
  destruct (readArrayAsync_rows packet dt dim (cur + 8 + dim * k) n);
    [discriminate | discriminate | contradiction].
Qed.

(** X2.  For a named dtype, a dimension other than 1 and a sample count above
    zero, [processAsyncFixed] always raises and adds no block: the rows
    come back as a Python list, and the list has no [size]. *)
Lemma async_array_always_raises (lib : PyLib) (packet : list byte) (pos : Z)
    (r : receiver) (code dim n : Z) (freq : F64.t) (dt : Np.dtype) :
  Struct.unpack_3Id packet pos = Returns (code, dim, n, freq) ->
  DT_DATA_TYPE code = Returns (Some dt) ->
  dim <> 1 -> 0 < n ->
  exists e, processAsyncFixed lib packet pos r = (Raises e, r).
Proof.
  intros Hhdr Hdt Hdim Hn.
  unfold processAsyncFixed. unfold bind at 1. unfold lift at 1. rewrite Hhdr.
  unfold bind at 1. unfold readSamples. unfold bind at 1. unfold lift at 1.
  rewrite Hdt.
  change (SBT_ASYNC_FIXED =? SBT_SYNC_FIXED) with false.
  change (SBT_ASYNC_FIXED =? SBT_ASYNC_FIXED) with true.
  cbn [andb]. replace (0 <? n) with true by (symmetry; apply Z.ltb_lt; exact Hn).
  replace (dim =? 1) with false by (symmetry; apply Z.eqb_neq; exact Hdim).
  unfold readArrayAsync. unfold bind at 1. unfold lift at 1.
  pose proof (@readArrayAsync_rows_no_fuel packet dt dim
                (pos + DT_ASYNC_FIXED_SIZE) (Z.to_nat n)) as Hfuel.
  destruct (readArrayAsync_rows packet dt dim (pos + DT_ASYNC_FIXED_SIZE)
              (Z.to_nat n)) as [rows | e |].
  - exists AttributeError. reflexivity.
  - exists e. reflexivity.
  - contradiction.
Qed.

(** C7, on the code.  The async-fixed sub-record of dtype int8 with
    dimension 2 and one sample (timestamp 5, values 1 and 2) makes
    processPacket raise AttributeError; no block reaches the result
    list. *)
Theorem async_array_block_is_lost (fuel : nat) :
  processPacket Vectors.demo_lib (1 + fuel) Vectors.async_array_packet
    (fresh_packet init_receiver)
  = (Raises AttributeError,
     set_actual_channel_idx 0 (fresh_packet init_receiver))
  /\ readArrayAsync Vectors.async_array_packet 8 2 1 Np.int8
       (fresh_packet init_receiver)
     = (Returns (Np.RowLists Np.int8 [(5, [Np.SInt 1; Np.SInt 2])]),
        fresh_packet init_receiver).
Proof.
  split.
  - apply processPacket_fuel_mono; [| discriminate].
    vm_compute. reflexivity.
  - vm_compute. reflexivity.
Qed.

(* ================================================================= *)
(** ** recvFixedSize *)

Lemma write_at_nothing (data : list byte) (off : Z) :
  Socket.write_at data off [] = data.
Proof.
  unfold Socket.write_at. cbn [List.length app].
  rewrite Nat.add_0_r. apply firstn_skipn.
Qed.

(** On a connection the peer has closed, with bytes still to read, the
    loop makes no progress. *)
Lemma recvFixedSize_loop_closed (fuel : nat) (data : list byte)
    (off data_to_read : Z) :
  data_to_read <> 0 ->
  Socket.recvFixedSize_loop fuel data off data_to_read Vectors.closed_socket
  = (OutOfFuel, Vectors.closed_socket).
Proof.
  intros Hn. induction fuel as [| fuel IH];
    cbn [Socket.recvFixedSize_loop];
    destruct (Z.eqb_spec data_to_read 0) as [E | _]; try contradiction.
  - reflexivity.
  - unfold bind, Socket.recv_into.
    cbn [Vectors.closed_socket Socket.incoming Socket.peer_closed
         Socket.recv_events].
    rewrite write_at_nothing.
    change (len []) with 0.
    replace (off + 0) with off by lia.
    replace (data_to_read - 0) with data_to_read by lia.
    exact IH.
Qed.

(** C8, on the code.  When the peer has closed the connection before the
    requested byte arrives, every read returns no bytes, [data_to_read]
    never changes, and the loop is still running whatever the fuel:
    recvFixedSize neither returns nor raises. *)
Theorem recvFixedSize_spins_on_closed_socket (fuel : nat) :
  Socket.recvFixedSize fuel 1 Vectors.closed_socket
  = (OutOfFuel, Vectors.closed_socket).
Proof.
  unfold Socket.recvFixedSize. change (1 <? 0) with false. cbv iota.
  apply recvFixedSize_loop_closed. discriminate.
Qed.

(** What does hold of [recvFixedSize]: a read hands over a prefix of the
    stream, no longer than asked for. *)
Lemma recv_events_prefix (evs : list Socket.event) (closed : bool) (nbytes : Z)
    (chunk : list byte) (s' : Socket.socket) :
  Socket.recv_events evs closed nbytes = (Returns chunk, s') ->
  (List.length chunk <= Z.to_nat nbytes)%nat
  /\ Socket.stream evs = chunk ++ Socket.stream (Socket.incoming s').
Proof.
  induction evs as [| ev rest IH]; cbn [Socket.recv_events].
  - destruct closed; [| discriminate].
    intros H. injection H as <- <-. split; [cbn; lia | reflexivity].
  - destruct ev as [[| b bs] |]; [exact IH | | discriminate].
    intros H. injection H as <- <-. split.
    + rewrite length_firstn. lia.
    + cbn [Socket.stream Socket.incoming].
      rewrite <- (firstn_skipn (Z.to_nat nbytes) (b :: bs)) at 1.
      rewrite <- app_assoc. f_equal.
      destruct (skipn (Z.to_nat nbytes) (b :: bs)); reflexivity.
Qed.

Lemma length_write_at (data : list byte) (off : Z) (chunk : list byte) :
  0 <= off -> off + len chunk <= len data ->
  List.length (Socket.write_at data off chunk) = List.length data.
Proof.
  unfold Socket.write_at, len. intros Hoff Hfit.
  rewrite !length_app, length_firstn, length_skipn. lia.
Qed.

Lemma firstn_write_at (data : list byte) (off : Z) (chunk : list byte) :
  0 <= off -> off + len chunk <= len data ->
  firstn (Z.to_nat off + List.length chunk) (Socket.write_at data off chunk)
  = firstn (Z.to_nat off) data ++ chunk.
Proof.
  unfold Socket.write_at, len. intros Hoff Hfit.
  rewrite app_assoc.
  rewrite firstn_app.
  replace (Z.to_nat off + List.length chunk
           - List.length (firstn (Z.to_nat off) data ++ chunk))%nat with 0%nat
    by (rewrite length_app, length_firstn; lia).
  cbn [firstn]. rewrite app_nil_r.
  apply firstn_all2. rewrite length_app, length_firstn. lia.
Qed.

Lemma recvFixedSize_loop_exact (fuel : nat) :
  forall (data : list byte) (off data_to_read : Z) (s s' : Socket.socket)
         (d : list byte),
    0 <= off -> 0 <= data_to_read -> off + data_to_read = len data ->
    Socket.recvFixedSize_loop fuel data off data_to_read s = (Returns d, s') ->
    List.length d = List.length data
    /\ firstn (Z.to_nat off) d = firstn (Z.to_nat off) data
    /\ Socket.stream (Socket.incoming s)
       = skipn (Z.to_nat off) d ++ Socket.stream (Socket.incoming s').
Proof.
  induction fuel as [| fuel IH]; intros data off n s s' d Hoff Hn Hsum;
    cbn [Socket.recvFixedSize_loop];
    destruct (Z.eqb_spec n 0) as [-> | Hn0];
    try (intros H; injection H as <- <-;
         split; [reflexivity |]; split; [reflexivity |];
         rewrite skipn_all2 by (unfold len in Hsum; lia); reflexivity);
    try discriminate.
  unfold bind at 1. unfold Socket.recv_into.
  destruct (Socket.recv_events (Socket.incoming s) (Socket.peer_closed s) n)
    as [[chunk | e |] s1] eqn:Hrecv; try discriminate.
  destruct (recv_events_prefix _ _ _ Hrecv) as [Hshort Hstream].
  intros Hloop.
  assert (Hchunk : 0 <= len chunk <= n) by (unfold len; lia).
  assert (Hfit : off + len chunk <= len data) by lia.
  assert (Hwritten : len (Socket.write_at data off chunk) = len data)
    by (pose proof (length_write_at data chunk Hoff Hfit) as E;
        unfold len; rewrite E; reflexivity).
  apply IH in Hloop; [| lia | lia | lia].
  destruct Hloop as (Hlen & Hfirst & Hrest).
  rewrite length_write_at in Hlen by assumption.
  replace (Z.to_nat (off + len chunk))
    with (Z.to_nat off + List.length chunk)%nat in * by (unfold len; lia).
  rewrite firstn_write_at in Hfirst by assumption.
  assert (Hoff_len : List.length (firstn (Z.to_nat off) data) = Z.to_nat off)
    by (rewrite length_firstn; unfold len in *; lia).
  assert (Hd : d = (firstn (Z.to_nat off) data ++ chunk)
                   ++ skipn (Z.to_nat off + List.length chunk) d)
    by (rewrite <- Hfirst; symmetry; apply firstn_skipn).
  split; [exact Hlen |]. split.
  - rewrite Hd at 1. rewrite <- app_assoc, firstn_app.
    rewrite Hoff_len, Nat.sub_diag. cbn [firstn]. rewrite app_nil_r.
    apply firstn_all2. lia.
  - rewrite Hstream, Hrest, app_assoc. f_equal.
    rewrite Hd at 2. rewrite <- app_assoc, skipn_app.
    rewrite Hoff_len, Nat.sub_diag. cbn [skipn].
    rewrite (@skipn_all2 _ _ (firstn (Z.to_nat off) data)) by lia.
    reflexivity.
Qed.

(** When [recvFixedSize] returns, the buffer holds exactly [size] bytes,
    and they are the next [size] bytes of the stream: nothing more was
    taken from the socket. *)
Lemma recvFixedSize_exact (fuel : nat) (size : Z) (s s' : Socket.socket)
    (d : list byte) :
  Socket.recvFixedSize fuel size s = (Returns d, s') ->
  len d = size
  /\ Socket.stream (Socket.incoming s)
     = d ++ Socket.stream (Socket.incoming s').
Proof.
  unfold Socket.recvFixedSize.
  destruct (Z.ltb_spec size 0) as [Hneg | Hsize]; [discriminate |].
  intros Hloop.
  apply recvFixedSize_loop_exact in Hloop;
    [| lia | exact Hsize | unfold len; rewrite repeat_length; lia].
  destruct Hloop as (Hlen & _ & Hrest).
  split; [unfold len; rewrite Hlen, repeat_length; lia | exact Hrest].
Qed.

(** A socket on which nothing arrives makes [recvFixedSize] raise
    socket.timeout. *)
Lemma recvFixedSize_times_out (fuel : nat) (size : Z) :
  0 < size ->
  Socket.recvFixedSize (S fuel) size
    {| Socket.incoming := []; Socket.peer_closed := false |}
  = (Raises SocketTimeout,
     {| Socket.incoming := []; Socket.peer_closed := false |}).
Proof.
  intros Hsize. unfold Socket.recvFixedSize.
  destruct (Z.ltb_spec size 0); [lia |].
  cbn [Socket.recvFixedSize_loop].
  destruct (Z.eqb_spec size 0); [lia |]. reflexivity.
Qed.

(** On a prompt peer with bytes still to come, a read delivers at least
    one byte. *)
Lemma recv_events_progress (evs : list Socket.event) (closed : bool)
    (nbytes : Z) :
  Socket.prompt evs = true -> Socket.stream evs <> [] -> 0 < nbytes ->
  exists chunk s1,
    Socket.recv_events evs closed nbytes = (Returns chunk, s1)
    /\ (1 <= List.length chunk)%nat
    /\ Socket.prompt (Socket.incoming s1) = true.
Proof.
  intros Hprompt Hstream Hn.
  induction evs as [| ev rest IH]; [contradiction |].
  destruct ev as [[| b bs] |]; [| | discriminate].
  - cbn [Socket.recv_events]. apply IH; assumption.
  - cbn [Socket.recv_events]. eexists. eexists.
    split; [reflexivity |]. split.
    + rewrite length_firstn. cbn [List.length]. lia.
    + cbn [Socket.incoming].
      destruct (skipn (Z.to_nat nbytes) (b :: bs)); exact Hprompt.
Qed.

Lemma recvFixedSize_loop_returns (fuel : nat) :
  forall (data : list byte) (off data_to_read : Z) (s : Socket.socket),
    Socket.prompt (Socket.incoming s) = true ->
    0 <= data_to_read <= Z.of_nat fuel ->
    data_to_read <= len (Socket.stream (Socket.incoming s)) ->
    exists d s',
      Socket.recvFixedSize_loop fuel data off data_to_read s = (Returns d, s').
Proof.
  induction fuel as [| fuel IH]; intros data off n s Hprompt Hfuel Hstream;
    cbn [Socket.recvFixedSize_loop];
    destruct (Z.eqb_spec n 0) as [-> | Hn0];
    try (eexists; eexists; reflexivity); [lia |].
  assert (Hnonempty : Socket.stream (Socket.incoming s) <> []).
  { intros E. rewrite E in Hstream. cbn in Hstream. lia. }
  destruct (@recv_events_progress (Socket.incoming s) (Socket.peer_closed s) n
              Hprompt Hnonempty ltac:(lia))
    as (chunk & s1 & Hrecv & Hone & Hprompt1).
  destruct (recv_events_prefix _ _ _ Hrecv) as [Hshort Hsplit].
  unfold bind at 1. unfold Socket.recv_into. rewrite Hrecv.
  apply IH; [exact Hprompt1 | unfold len; lia |].
  rewrite Hsplit, len_app in Hstream. lia.
Qed.

(** Enough fuel gives the result: from a prompt peer that still sends at
    least [size] bytes, [recvFixedSize] returns, after at most [size]
    reads, the next [size] bytes of the stream. *)
Lemma recvFixedSize_returns (size : Z) (s : Socket.socket) :
  0 <= size ->
  Socket.prompt (Socket.incoming s) = true ->
  size <= len (Socket.stream (Socket.incoming s)) ->
  exists s',
    Socket.recvFixedSize (Z.to_nat size) size s
    = (Returns (firstn (Z.to_nat size) (Socket.stream (Socket.incoming s))), s').
Proof.
  intros Hsize Hprompt Hstream.
  destruct (@recvFixedSize_loop_returns (Z.to_nat size)
              (repeat x00 (Z.to_nat size)) 0 size s Hprompt ltac:(lia) Hstream)
    as (d & s' & Hloop).
  assert (Hrun : Socket.recvFixedSize (Z.to_nat size) size s = (Returns d, s')).
  { unfold Socket.recvFixedSize. destruct (Z.ltb_spec size 0); [lia | exact Hloop]. }
  destruct (recvFixedSize_exact _ _ _ Hrun) as [Hlen Hsplit].
  exists s'. rewrite Hrun, Hsplit. do 2 f_equal.
  rewrite firstn_app.
  replace (Z.to_nat size - List.length d)%nat with 0%nat by (unfold len in Hlen; lia).
  cbn [firstn]. rewrite app_nil_r. symmetry. apply firstn_all2.
  unfold len in Hlen. lia.
Qed.

(* ================================================================= *)
(** ** Further properties of [recvFixedSize] *)

(** X3.  When recvFixedSize returns, the buffer holds exactly the requested
    number of bytes, they are the next bytes of the stream in order, and
    every byte behind them is still in the socket. *)
Theorem recvFixedSize_never_over_reads (fuel : nat) (size : Z)
    (s s' : Socket.socket) (data : list byte) :
  Socket.recvFixedSize fuel size s = (Returns data, s') ->
  len data = size
  /\ Socket.stream (Socket.incoming s)
     = data ++ Socket.stream (Socket.incoming s').
Proof.
  apply recvFixedSize_exact.
Qed.

Lemma recvFixedSize_never_over_reads_witness :
  len [x01; x02; x03] = 3
  /\ Socket.stream (Socket.incoming Cases.two_segment_socket)
     = [x01; x02; x03]
       ++ Socket.stream
            (Socket.incoming
               {| Socket.incoming := [Socket.Segment [x04]];
                  Socket.peer_closed := true |}).
Proof.
  exact (@recvFixedSize_never_over_reads 2 3 Cases.two_segment_socket _ _
           eq_refl).
Defined.

(** X4.  From a peer that keeps sending, recvFixedSize returns after at most
    [size] reads with the next [size] bytes of the stream, however the
    bytes are cut into segments. *)
Theorem recvFixedSize_collects_segments (size : Z) (s : Socket.socket) :
  0 <= size ->
  Socket.prompt (Socket.incoming s) = true ->
  size <= len (Socket.stream (Socket.incoming s)) ->
  exists s',
    Socket.recvFixedSize (Z.to_nat size) size s
    = (Returns (firstn (Z.to_nat size) (Socket.stream (Socket.incoming s))), s')
    /\ Socket.stream (Socket.incoming s')
       = skipn (Z.to_nat size) (Socket.stream (Socket.incoming s)).
Proof.
  intros Hsize Hprompt Hstream.
  destruct (@recvFixedSize_returns size s Hsize Hprompt Hstream) as [s' Hrun].
  exists s'. split; [exact Hrun |].
  destruct (recvFixedSize_exact _ _ _ Hrun) as [Hlen Hsplit].
  rewrite Hsplit at 1.
  rewrite skipn_app, skipn_all2 by (rewrite length_firstn; lia).
  rewrite length_firstn.
  replace (Z.to_nat size
           - Nat.min (Z.to_nat size)
               (List.length (Socket.stream (Socket.incoming s))))%nat
    with 0%nat by (unfold len in Hstream; lia).
  reflexivity.
Qed.

Lemma recvFixedSize_collects_segments_witness :
  exists s',
    Socket.recvFixedSize 3 3 Cases.two_segment_socket
    = (Returns [x01; x02; x03], s')
    /\ Socket.stream (Socket.incoming s') = [x04].
Proof.
  exact (@recvFixedSize_collects_segments 3 Cases.two_segment_socket
           ltac:(lia) eq_refl ltac:(vm_compute; discriminate)).
Defined.

(* ================================================================= *)
(** ** Sub-records the decoders refuse *)

Lemma DT_DATA_TYPE_unknown (code : Z) :
  15 < code -> DT_DATA_TYPE code = Raises KeyError.
Proof.
  intros Hcode. destruct code as [| p | p]; try lia.
  do 4 (destruct p as [p | p |]; try lia; try reflexivity).
Qed.

(** X5.  A dtype code above 15 is not a key of DT_DATA_TYPE: both sample
    decoders raise KeyError before anything is logged, appended or
    counted. *)
Theorem unknown_dtype_code_raises (lib : PyLib) (packet : list byte) (pos : Z)
    (r : receiver) (code dim n ts : Z) (freq : F64.t) :
  15 < code ->
  (Struct.unpack_3IQd packet pos = Returns (code, dim, n, ts, freq) ->
   processSyncFixed lib packet pos r = (Raises KeyError, r))
  /\ (Struct.unpack_3Id packet pos = Returns (code, dim, n, freq) ->
      processAsyncFixed lib packet pos r = (Raises KeyError, r)).
Proof.
  intros Hcode. split; intros Hhdr.
  - unfold processSyncFixed. unfold bind at 1. unfold lift at 1. rewrite Hhdr.
    unfold bind at 1. unfold readSamples. unfold bind at 1. unfold lift at 1.
    rewrite (DT_DATA_TYPE_unknown Hcode). reflexivity.
  - unfold processAsyncFixed. unfold bind at 1. unfold lift at 1. rewrite Hhdr.
    unfold bind at 1. unfold readSamples. unfold bind at 1. unfold lift at 1.
    rewrite (DT_DATA_TYPE_unknown Hcode). reflexivity.
Qed.

Lemma unknown_dtype_code_raises_witness :
  processSyncFixed Vectors.demo_lib Cases.dtype16_packet 8
    (fresh_packet init_receiver)
  = (Raises KeyError, fresh_packet init_receiver).
Proof.
  exact (proj1 (@unknown_dtype_code_raises Vectors.demo_lib Cases.dtype16_packet
                  8 (fresh_packet init_receiver) 16 1 1 0 (F64.of_Z 1)
                  ltac:(lia))
               eq_refl).
Defined.

(** X6.  The two 24-bit dtypes are decoded on the scalar synchronous path
    only.  With samples to read, a sync-fixed sub-record of dtype code 4
    or 5 whose dimension is not 1, and an async-fixed sub-record of
    dtype code 4 or 5 with dimension 1, raise TypeError (numpy knows no
    dtype of that name) and add no block. *)
Theorem int24_only_as_sync_scalar (lib : PyLib) (packet : list byte) (pos : Z)
    (r : receiver) (code dim n ts : Z) (freq : F64.t) :
  code = 4 \/ code = 5 ->
  0 < n ->
  (dim <> 1 ->
   Struct.unpack_3IQd packet pos = Returns (code, dim, n, ts, freq) ->
   processSyncFixed lib packet pos r = (Raises TypeError, r))
  /\ (Struct.unpack_3Id packet pos = Returns (code, 1, n, freq) ->
      processAsyncFixed lib packet pos r = (Raises TypeError, r)).
Proof.
  intros Hcode Hn.
  assert (Hgo : (0 <? n) = true) by (apply Z.ltb_lt; exact Hn).
  assert (Hnat : exists m, Z.to_nat n = S m) by (exists (Z.to_nat n - 1)%nat; lia).
  destruct Hnat as [m Hm].
  split.
  - intros Hdim Hhdr.
    unfold processSyncFixed. unfold bind at 1. unfold lift at 1. rewrite Hhdr.
    unfold bind at 1. unfold readSamples. unfold bind at 1. unfold lift at 1.
    replace (dim =? 1) with false by (symmetry; apply Z.eqb_neq; exact Hdim).
    destruct Hcode as [-> | ->]; cbn [DT_DATA_TYPE];
      change (SBT_SYNC_FIXED =? SBT_SYNC_FIXED) with true;
      rewrite Hgo; cbn [andb];
      unfold readArraySync, bind, lift; rewrite Hm; reflexivity.
  - intros Hhdr.
    unfold processAsyncFixed. unfold bind at 1. unfold lift at 1. rewrite Hhdr.
    unfold bind at 1. unfold readSamples. unfold bind at 1. unfold lift at 1.
    destruct Hcode as [-> | ->]; cbn [DT_DATA_TYPE];
      change (SBT_ASYNC_FIXED =? SBT_SYNC_FIXED) with false;
      change (SBT_ASYNC_FIXED =? SBT_ASYNC_FIXED) with true;
      rewrite Hgo; cbn [andb]; reflexivity.
Qed.

Lemma int24_only_as_sync_scalar_witness :
  processAsyncFixed Vectors.demo_lib Cases.async_int24_packet 8
    (fresh_packet init_receiver)
  = (Raises TypeError, fresh_packet init_receiver).
Proof.
  exact (proj2 (@int24_only_as_sync_scalar Vectors.demo_lib
                  Cases.async_int24_packet 8 (fresh_packet init_receiver)
                  4 1 1 0 (F64.of_Z 1) (or_introl eq_refl) ltac:(lia))
               eq_refl).
Defined.

(** X7.  Scalar synchronous samples need a scaling entry at the current
    channel index.  When the table is too short (no XML configuration
    has been received yet, or it declared fewer channels), the
    sub-record raises IndexError, whatever its bytes, and adds no
    block. *)
Theorem sync_scalar_needs_scaling_entry (lib : PyLib) (packet : list byte)
    (pos : Z) (r : receiver) (code n ts : Z) (freq : F64.t) (dt : Np.dtype) :
  Struct.unpack_3IQd packet pos = Returns (code, 1, n, ts, freq) ->
  DT_DATA_TYPE code = Returns (Some dt) ->
  0 < n ->
  Z.of_nat (List.length (scaling_info r)) <= actual_channel_idx r ->
  processSyncFixed lib packet pos r = (Raises IndexError, r).
Proof.
  intros Hhdr Hdt Hn Hidx.
  unfold processSyncFixed. unfold bind at 1. unfold lift at 1. rewrite Hhdr.
  unfold bind at 1. unfold readSamples. unfold bind at 1. unfold lift at 1.
  rewrite Hdt.
  change (SBT_SYNC_FIXED =? SBT_SYNC_FIXED) with true.
  replace (0 <? n) with true by (symmetry; apply Z.ltb_lt; exact Hn).
  change (1 =? 1) with true. cbn [andb].
  unfold readSamplesSync. unfold bind at 1. unfold get at 1.
  unfold bind at 1. unfold lift at 1. unfold scaling_entry.
  replace (nth_error (scaling_info r) (Z.to_nat (actual_channel_idx r)))
    with (@None (attr_value * attr_value))
    by (symmetry; apply nth_error_None; lia).
  reflexivity.
Qed.

Lemma sync_scalar_needs_scaling_entry_witness :
  processSyncFixed Vectors.demo_lib Cases.uint8_packet 8
    (fresh_packet init_receiver)
  = (Raises IndexError, fresh_packet init_receiver).
Proof.
  exact (@sync_scalar_needs_scaling_entry Vectors.demo_lib Cases.uint8_packet 8
           (fresh_packet init_receiver) 1 1 0 (F64.of_Z 1) Np.uint8
           eq_refl eq_refl ltac:(lia) ltac:(cbn; lia)).
Defined.

(* ================================================================= *)
(** ** Further properties of the walk *)

(** X8.  Between one and seven bytes left at the offset of the next header
    make the walk raise struct.error; what was decoded before stays. *)
Theorem truncated_header_raises (lib : PyLib) (packet : list byte) (pos : Z)
    (fuel : nat) (r : receiver) :
  pos < len packet < pos + DT_SUBPACKET_HEADER_SIZE ->
  processPacket_loop lib (S fuel) packet pos false r = (Raises StructError, r).
Proof.
  intros [Hlo Hhi]. cbn [processPacket_loop].
  replace (pos <? len packet) with true by (symmetry; apply Z.ltb_lt; exact Hlo).
  cbn [andb negb]. unfold bind, lift, Struct.unpack_2I, Struct.requires.
  unfold DT_SUBPACKET_HEADER_SIZE in Hhi.
  replace (len packet - pos <? 8) with true by (symmetry; apply Z.ltb_lt; lia).
  reflexivity.
Qed.

Lemma truncated_header_raises_witness :
  processPacket_loop Vectors.demo_lib 1 Cases.stray_bytes_packet 8 false
    (fresh_packet init_receiver)
  = (Raises StructError, fresh_packet init_receiver).
Proof.
  exact (@truncated_header_raises Vectors.demo_lib Cases.stray_bytes_packet
           8 0 (fresh_packet init_receiver)
           ltac:(vm_compute; split; reflexivity)).
Defined.

(** X9.  An entry of the scaling table keeps its index and its value through
    every packet, whatever the packet holds and however processing it
    ends: a later XML configuration adds entries behind the existing
    ones and cannot change the scaling of a channel already declared. *)
Theorem scaling_lookup_stable (lib : PyLib) (fuel : nat) (packet : list byte)
    (r : receiver) (i : nat) (entry : attr_value * attr_value) :
  nth_error (scaling_info r) i = Some entry ->
  nth_error (scaling_info (snd (processPacket lib fuel packet r))) i
  = Some entry.
Proof.
  intros Hentry.
  destruct (keeps_processPacket scaling_extended_order lib fuel packet r)
    as [added ->].
  rewrite nth_error_app1; [exact Hentry |].
  apply nth_error_Some. rewrite Hentry. discriminate.
Qed.

Lemma scaling_lookup_stable_witness :
  nth_error
    (scaling_info
       (snd (processPacket Vectors.demo_lib 3 Vectors.e2e_packet
               (Vectors.with_scaling 2 1)))) 0
  = Some (AInt 2, AInt 1).
Proof.
  exact (@scaling_lookup_stable Vectors.demo_lib 3 Vectors.e2e_packet
           (Vectors.with_scaling 2 1) 0 (AInt 2, AInt 1) eq_refl).
Defined.

Lemma zero_size_never_ends_witness :
  processPacket_loop Vectors.demo_lib 5 Vectors.zero_size_packet 0 false
    (fresh_packet init_receiver)
  = (OutOfFuel, fresh_packet init_receiver).
Proof.
  apply (@zero_size_never_ends Vectors.demo_lib Vectors.zero_size_packet 0
           SBT_PACKET_FOOTER 5 (fresh_packet init_receiver) eq_refl eq_refl);
    discriminate.
Defined.

Lemma async_array_always_raises_witness :
  exists e,
    processAsyncFixed Vectors.demo_lib Vectors.async_array_packet 8
      (fresh_packet init_receiver)
    = (Raises e, fresh_packet init_receiver).
Proof.
  exact (@async_array_always_raises Vectors.demo_lib Vectors.async_array_packet
           8 (fresh_packet init_receiver) 0 2 1 (F64.of_Z 1) Np.int8
           eq_refl eq_refl ltac:(discriminate) ltac:(lia)).
Defined.

(* ================================================================= *)
(** ** Asynchronous scalar samples *)

Lemma zip_rows_pairs {A} (res : Np.dtype) (f : A -> F64.t) (g : A -> Np.scalar)
    (l : list A) :
  Np.zip_rows res (map f l) (map (fun x => [g x]) l)
  = map (fun x => [Np.cast res (Np.SFloat (f x)); Np.cast res (g x)]) l.
Proof.
  induction l as [| x l IH]; [reflexivity |].
  cbn [map Np.zip_rows]. rewrite IH. reflexivity.
Qed.

Lemma itemsize_pos (dt : Np.dtype) (k : Z) : Np.itemsize dt = Some k -> 0 < k.
Proof. destruct dt; intros H; inversion H; lia. Qed.

(** X10.  An async-fixed sub-record of a numpy dtype with dimension 1 and
    n > 0 samples is read as n packed records of a u64 timestamp and one
    value; processAsyncFixed returns and appends the block whose rows are
    [timestamp / frequency, value].  No scaling entry is looked up and
    no factor or offset is applied. *)
Theorem async_scalar_rows (lib : PyLib) (packet : list byte) (pos : Z)
    (r : receiver) (code n k : Z) (freq : F64.t) (dt : Np.dtype)
    (blocks : list Np.pydata) :
  0 <= pos ->
  Struct.unpack_3Id packet pos = Returns (code, 1, n, freq) ->
  DT_DATA_TYPE code = Returns (Some dt) ->
  Np.itemsize dt = Some k ->
  0 < n ->
  pos + DT_ASYNC_FIXED_SIZE + n * (8 + k) <= len packet ->
  channelValue r = Some blocks ->
  processAsyncFixed lib packet pos r
  = (Returns tt,
     after_block []
       (Np.Matrix (Np.with_f64 dt) 2
          (map (fun record =>
                  [Np.cast (Np.with_f64 dt)
                     (Np.SFloat
                        (F64.div (F64.of_Z (le_uint (firstn 8 record))) freq));
                   Np.cast (Np.with_f64 dt)
                     (Np.decode_item dt (skipn 8 record))])
               (chunks (Z.to_nat (8 + k)) (Z.to_nat n)
                  (skipn (Z.to_nat (pos + DT_ASYNC_FIXED_SIZE)) packet))))
       r).
Proof.
  intros Hpos Hhdr Hdt Hk Hn Hlen Hcv.
  pose proof (itemsize_pos _ Hk) as Hkpos.
  unfold processAsyncFixed. unfold bind at 1. unfold lift at 1. rewrite Hhdr.
  unfold bind at 1. unfold readSamples. unfold bind at 1. unfold lift at 1.
  rewrite Hdt.
  change (SBT_ASYNC_FIXED =? SBT_SYNC_FIXED) with false.
  change (SBT_ASYNC_FIXED =? SBT_ASYNC_FIXED) with true.
  replace (0 <? n) with true by (symmetry; apply Z.ltb_lt; exact Hn).
  change (1 =? 1) with true. cbn [andb].
  unfold readSamplesAsync. unfold bind at 1. unfold lift at 1.
  unfold Np.frombuffer_pair. rewrite Hk.
  rewrite frombuffer_items_ok by nia.
  unfold ret at 1. unfold bind at 1. unfold lift at 1.
  cbn [Np.size]. rewrite length_map, length_chunks.
  unfold bind at 1.
  replace (0 <? Z.of_nat (Z.to_nat n)) with true
    by (symmetry; apply Z.ltb_lt; lia).
  unfold bind at 1. unfold lift at 1. cbn [Np.field_f0].
  unfold bind at 1. unfold lift at 1. cbn [Np.field_f1].
  unfold lift at 1. unfold Np.c_.
  rewrite !length_map, Nat.eqb_refl.
  unfold bind at 1. unfold channelValue_append. unfold bind at 1.
  unfold get at 1. rewrite Hcv. unfold modify at 1.
  unfold incr_channel_idx, modify.
  unfold after_block. rewrite Hcv, set_warnings_nil.
  rewrite !map_map. cbn [fst snd].
  rewrite (zip_rows_pairs (Np.with_f64 dt)
             (fun bs => F64.div (F64.of_Z (le_uint (firstn 8 bs))) freq)
             (fun bs => Np.decode_item dt (skipn 8 bs))).
  reflexivity.
Qed.

Lemma async_scalar_rows_witness :
  processAsyncFixed Vectors.demo_lib Vectors.footer_first_packet 16
    (fresh_packet init_receiver)
  = (Returns tt,
     after_block []
       (Np.Matrix Np.float64 2
          [[Np.SFloat (F64.of_Z 5); Np.SFloat (F64.of_Z 7)]])
       (fresh_packet init_receiver)).
Proof.
  exact (@async_scalar_rows Vectors.demo_lib Vectors.footer_first_packet 16
           (fresh_packet init_receiver) 0 1 1 (F64.of_Z 1) Np.int8 []
           ltac:(lia) eq_refl eq_refl eq_refl ltac:(lia)
           ltac:(vm_compute; discriminate) eq_refl).
Defined.

(* ================================================================= *)
(** ** Synchronous array samples *)

Lemma chunks_firstn (k n : nat) (l : list byte) :
  chunks k n (firstn (n * k) l) = chunks k n l.
Proof.
  revert l. induction n as [| n IH]; intros l; [reflexivity |].
  cbn [chunks Nat.mul]. f_equal.
  - rewrite firstn_firstn. f_equal. lia.
  - rewrite <- IH. rewrite <- (IH (skipn k l)). f_equal.
    rewrite skipn_firstn_comm. rewrite firstn_firstn. f_equal. lia.
Qed.

Lemma chunks_cons (k n : nat) (l : list byte) :
  chunks k (S n) l = firstn k l :: chunks k n (skipn k l).
Proof. reflexivity. Qed.

(** The loop of [readArraySync] cuts [n] rows of [dim] items out of the
    buffer, one behind the other. *)
Lemma readArraySync_rows_ok (packet : list byte) (dt : Np.dtype) (dim k : Z)
    (n : nat) :
  Np.itemsize dt = Some k -> 0 <= dim ->
  forall cur,
    0 <= cur -> cur + Z.of_nat n * (dim * k) <= len packet ->
    readArraySync_rows packet dt dim cur n
    = Returns (map (fun row => map (Np.decode_item dt)
                                   (chunks (Z.to_nat k) (Z.to_nat dim) row))
                   (chunks (Z.to_nat (dim * k)) n
                           (skipn (Z.to_nat cur) packet))).
Proof.
  intros Hk Hdim. pose proof (itemsize_pos _ Hk) as Hkpos.
  induction n as [| n IH]; intros cur Hcur Hlen; [reflexivity |].
  cbn [readArraySync_rows]. unfold Np.frombuffer. rewrite Hk.
  rewrite frombuffer_items_ok by nia.
  cbn [obind of_option].
  rewrite IH by nia. cbn [obind].
  rewrite chunks_cons. cbn [map]. do 2 f_equal.
  - f_equal.
    replace (Z.to_nat (dim * k)) with (Z.to_nat dim * Z.to_nat k)%nat by nia.
    symmetry. apply chunks_firstn.
  - f_equal. f_equal. rewrite skipn_skipn. f_equal. nia.
Qed.

Lemma combine_maps {A B C D} (f : A -> C) (g : B -> D) (l1 : list A)
    (l2 : list B) :
  combine (map f l1) (map g l2)
  = map (fun p => (f (fst p), g (snd p))) (combine l1 l2).
Proof.
  revert l2. induction l1 as [| a l1 IH]; intros [| b l2]; try reflexivity.
  cbn [map combine fst snd]. rewrite IH. reflexivity.
Qed.

Lemma zip_rows_combine (res : Np.dtype) (times : list F64.t)
    (rows : list (list Np.scalar)) :
  Np.zip_rows res times rows
  = map (fun tr => Np.cast res (Np.SFloat (fst tr)) :: map (Np.cast res) (snd tr))
        (combine times rows).
Proof.
  revert rows. induction times as [| t times IH]; intros [| row rows];
    try reflexivity.
  cbn [Np.zip_rows combine map fst snd]. rewrite IH. reflexivity.
Qed.

(** X11.  A sync-fixed sub-record of a numpy dtype with a dimension other than
    1 and n > 0 samples is read as n consecutive groups of [dim] items;
    processSyncFixed returns and appends a block of n rows
    [(T+i)/F, v_0, ..., v_(dim-1)].  The values are as they are on the
    wire: no scaling entry is looked up, so the sub-record decodes with
    an empty scaling table too. *)
Theorem sync_array_rows (lib : PyLib) (packet : list byte) (pos : Z)
    (r : receiver) (code dim n ts k : Z) (freq : F64.t) (dt : Np.dtype)
    (blocks : list Np.pydata) :
  0 <= pos ->
  Struct.unpack_3IQd packet pos = Returns (code, dim, n, ts, freq) ->
  DT_DATA_TYPE code = Returns (Some dt) ->
  Np.itemsize dt = Some k ->
  dim <> 1 -> 0 <= dim -> 0 < n ->
  ts + n <= 2 ^ 63 - 1 ->
  pos + DT_SYNC_FIXED_SIZE + n * (dim * k) <= len packet ->
  channelValue r = Some blocks ->
  processSyncFixed lib packet pos r
  = (Returns tt,
     after_block []
       (Np.Matrix (Np.with_f64 dt) (1 + dim)
          (map (fun ir =>
                  Np.cast (Np.with_f64 dt)
                    (Np.SFloat (Spec.sample_time ts freq (fst ir)))
                  :: map (fun item =>
                            Np.cast (Np.with_f64 dt) (Np.decode_item dt item))
                         (chunks (Z.to_nat k) (Z.to_nat dim) (snd ir)))
               (combine (seq 0 (Z.to_nat n))
                  (chunks (Z.to_nat (dim * k)) (Z.to_nat n)
                     (skipn (Z.to_nat (pos + DT_SYNC_FIXED_SIZE)) packet)))))
       r).
Proof.
  intros Hpos Hhdr Hdt Hk Hdim Hdim0 Hn Hts Hlen Hcv.
  pose proof (itemsize_pos _ Hk) as Hkpos.
  unfold processSyncFixed. unfold bind at 1. unfold lift at 1. rewrite Hhdr.
  unfold bind at 1. unfold readSamples. unfold bind at 1. unfold lift at 1.
  rewrite Hdt.
  change (SBT_SYNC_FIXED =? SBT_SYNC_FIXED) with true.
  replace (0 <? n) with true by (symmetry; apply Z.ltb_lt; exact Hn).
  replace (dim =? 1) with false by (symmetry; apply Z.eqb_neq; exact Hdim).
  cbn [andb].
  unfold readArraySync. unfold bind at 1. unfold lift at 1.
  rewrite (@readArraySync_rows_ok packet dt dim k (Z.to_nat n) Hk Hdim0)
    by (unfold DT_SYNC_FIXED_SIZE in *; nia).
  unfold ret at 1. unfold bind at 1. unfold lift at 1. unfold arange_over.
  replace (ts + n <=? 2 ^ 63 - 1) with true
    by (symmetry; apply Z.leb_le; exact Hts).
  replace (ts + n - ts) with n by lia.
  unfold bind at 1. unfold lift at 1. unfold Np.c_.
  rewrite !length_map, length_zrange, length_chunks, Nat.eqb_refl.
  unfold bind at 1. unfold channelValue_append. unfold bind at 1.
  unfold get at 1. rewrite Hcv. unfold modify at 1.
  unfold incr_channel_idx, modify.
  unfold after_block. rewrite Hcv, set_warnings_nil.
  assert (Hnat : exists m, Z.to_nat n = S m)
    by (exists (Z.to_nat n - 1)%nat; lia).
  destruct Hnat as [m Hm].
  set (rows := map _ (chunks (Z.to_nat (dim * k)) _ _)).
  assert (Hcols : match rows with
                  | [] => 2
                  | r0 :: _ => 1 + Z.of_nat (List.length r0)
                  end = 1 + dim).
  { subst rows. rewrite Hm. cbn [chunks map].
    rewrite length_map, length_chunks. lia. }
  rewrite Hcols.
  assert (Hrows :
    Np.zip_rows (Np.with_f64 dt)
      (map (fun k0 : Z => F64.div (F64.of_Z k0) freq)
           (Np.zrange ts (Z.to_nat n))) rows
    = map (fun ir =>
             Np.cast (Np.with_f64 dt)
               (Np.SFloat (Spec.sample_time ts freq (fst ir)))
             :: map (fun item =>
                       Np.cast (Np.with_f64 dt) (Np.decode_item dt item))
                    (chunks (Z.to_nat k) (Z.to_nat dim) (snd ir)))
          (combine (seq 0 (Z.to_nat n))
             (chunks (Z.to_nat (dim * k)) (Z.to_nat n)
                (skipn (Z.to_nat (pos + DT_SYNC_FIXED_SIZE)) packet)))).
  { subst rows. rewrite zip_rows_combine, zrange_seq, map_map.
    rewrite combine_maps, map_map.
    apply map_ext. intros [i row]. cbn [fst snd].
    rewrite map_map. reflexivity. }
  rewrite Hrows. reflexivity.
Qed.

Lemma sync_array_rows_witness :
  processSyncFixed Vectors.demo_lib Cases.sync_array_packet 8
    (fresh_packet init_receiver)
  = (Returns tt,
     after_block []
       (Np.Matrix Np.float64 3
          [[Np.SFloat (F64.of_Z 0); Np.SFloat (F64.of_Z 1);
            Np.SFloat (F64.of_Z 2)]])
       (fresh_packet init_receiver)).
Proof.
  exact (@sync_array_rows Vectors.demo_lib Cases.sync_array_packet 8
           (fresh_packet init_receiver) 0 2 1 0 1 (F64.of_Z 1) Np.int8 []
           ltac:(lia) eq_refl eq_refl eq_refl ltac:(discriminate) ltac:(lia)
           ltac:(lia) ltac:(vm_compute; discriminate)
           ltac:(vm_compute; discriminate) eq_refl).
Defined.

(* ================================================================= *)
(** ** The channel index counts the blocks *)

Section Steps.

Variable R : receiver -> receiver -> Prop.
Hypothesis HR : packet_order R.
Variable lib : PyLib.

Lemma step_ret {A} (a : A) : keeps R (ret a).
Proof. intros r. apply (po_refl HR). Qed.

Lemma step_lift {A} (o : outcome A) : keeps R (lift o).
Proof. intros r. apply (po_refl HR). Qed.

Lemma step_bind {A B} (m : M receiver A) (k : A -> M receiver B) :
  keeps R m -> (forall a, keeps R (k a)) -> keeps R (bind m k).
Proof.
  intros Hm Hk r. unfold bind. specialize (Hm r).
  destruct (m r) as [[a | e |] r1]; cbn [snd] in *; try exact Hm.
  apply (po_trans HR) with r1; [exact Hm | apply Hk].
Qed.

Lemma step_readSamples packet code dim n pos sample_type :
  keeps R (readSamples lib packet code dim n pos sample_type).
Proof.
  intros r.
  destruct (readSamples_effect lib packet code dim n pos sample_type r)
    as [w ->].
  apply (po_warnings HR).
Qed.

Lemma step_append_incr (data : Np.pydata) :
  keeps R (channelValue_append data ;; incr_channel_idx).
Proof.
  intros r. unfold channelValue_append, incr_channel_idx, bind, get, modify,
    raise.
  destruct (channelValue r) as [l |] eqn:E; cbn [snd].
  - exact (po_block HR r data E).
  - apply (po_refl HR).
Qed.

Lemma step_processSyncFixed packet pos :
  keeps R (processSyncFixed lib packet pos).
Proof.
  unfold processSyncFixed.
  apply step_bind; [apply step_lift |].
  intros [[[[code dim] n] ts] freq].
  apply step_bind; [apply step_readSamples | intros data].
  apply step_bind; [apply step_lift | intros timeStamps].
  apply step_bind; [apply step_lift | intros block].
  apply step_append_incr.
Qed.

Lemma step_processAsyncFixed packet pos :
  keeps R (processAsyncFixed lib packet pos).
Proof.
  unfold processAsyncFixed.
  apply step_bind; [apply step_lift |].
  intros [[[code dim] n] freq].
  apply step_bind; [apply step_readSamples | intros data].
  apply step_bind; [apply step_lift | intros size].
  apply step_bind; [| intros block; apply step_append_incr].
  destruct (0 <? size); [| apply step_ret].
  apply step_bind; [apply step_lift | intros f0].
  apply step_bind; [apply step_lift | intros f1].
  apply step_lift.
Qed.

Lemma step_processPacketInfo packet pos :
  keeps R (processPacketInfo packet pos).
Proof.
  unfold processPacketInfo.
  apply step_bind; [apply step_lift |].
  intros [[[[[v id] sq] st] sd] n] r. apply (po_packet_info HR).
Qed.

Lemma step_processXmlConfig packet pos size :
  keeps R (processXmlConfig lib packet pos size).
Proof.
  unfold processXmlConfig.
  apply step_bind; [apply step_lift | intros content].
  apply step_bind; [intros r; apply (po_packet_xml HR) | intros _].
  unfold parseScalingXML.
  apply step_bind; [apply step_lift | intros root].
  destruct (String.eqb (tag root) "ChannelInfo"); [| apply step_ret].
  intros r. rewrite parseScalingXML_children_effect. cbn [snd].
  apply (po_scaling HR).
Qed.

Lemma step_processPacket_loop (fuel : nat) packet pos :
  keeps R (processPacket_loop lib fuel packet pos false).
Proof.
  revert pos. induction fuel as [| fuel IH]; intros pos;
    cbn [processPacket_loop];
    destruct ((pos <? len packet) && negb false);
    try apply step_ret; try apply step_lift.
  apply step_bind; [apply step_lift | intros [size type]].
  apply step_bind; [| intros _; apply IH].
  unfold processPacket_dispatch.
  repeat (apply step_bind; [| intros _]);
    (match goal with |- keeps R (when ?b _) => destruct b end);
    cbn [when]; try apply step_ret;
    auto using step_processPacketInfo, step_processXmlConfig,
               step_processSyncFixed, step_processAsyncFixed.
Qed.

End Steps.

Lemma index_counts_blocks_order : packet_order index_counts_blocks.
Proof.
  unfold index_counts_blocks. constructor.
  - intros r. destruct (channelValue r); [| reflexivity].
    exists []. split; [symmetry; apply app_nil_r | cbn; lia].
  - intros r1 r2 r3.
    destruct (channelValue r1), (channelValue r2), (channelValue r3);
      try tauto; try lia.
    intros (a & -> & Ha) (b & -> & Hb). exists (a ++ b).
    split; [symmetry; apply app_assoc | rewrite length_app; lia].
  - intros r v. cbn. destruct (channelValue r); [| reflexivity].
    exists []. split; [symmetry; apply app_nil_r | cbn; lia].
  - intros r v. cbn. destruct (channelValue r); [| reflexivity].
    exists []. split; [symmetry; apply app_nil_r | cbn; lia].
  - intros r v. cbn. destruct (channelValue r); [| reflexivity].
    exists []. split; [symmetry; apply app_nil_r | cbn; lia].
  - intros r v. cbn. destruct (channelValue r); [| reflexivity].
    exists []. split; [symmetry; apply app_nil_r | cbn; lia].
  - intros r l b ->. cbn. exists [b]. split; [reflexivity | cbn; lia].
Qed.

(** X12.  However processPacket ends (returned, raised part-way, still
    running), the channel index it leaves equals the number of blocks it
    has added to the result list: a block and its index step are never
    apart, and sub-records that are not sample sub-records leave both
    alone.  The k-th sample sub-record of a packet is therefore the one
    decoded at channel index k. *)
Theorem channel_index_counts_blocks (lib : PyLib) (fuel : nat)
    (packet : list byte) (r : receiver) (blocks : list Np.pydata) :
  channelValue r = Some blocks ->
  exists added,
    channelValue (snd (processPacket lib fuel packet r))
    = Some (blocks ++ added)
    /\ actual_channel_idx (snd (processPacket lib fuel packet r))
       = Z.of_nat (List.length added).
Proof.
  intros Hcv. unfold processPacket, bind, modify.
  pose proof (step_processPacket_loop index_counts_blocks_order lib fuel
                packet 0 (set_actual_channel_idx 0 r)) as H.
  unfold index_counts_blocks in H. cbn [channelValue set_actual_channel_idx] in H.
  rewrite Hcv in H.
  destruct (channelValue (snd (processPacket_loop lib fuel packet 0 false
                                 (set_actual_channel_idx 0 r))))
    as [l' |]; [| contradiction].
  destruct H as (added & -> & Hidx). exists added.
  split; [reflexivity |]. rewrite Hidx. cbn. lia.
Qed.

Lemma channel_index_counts_blocks_witness :
  exists added,
    channelValue
      (snd (processPacket Vectors.demo_lib 3 Vectors.e2e_packet
              (fresh_packet init_receiver)))
    = Some ([] ++ added)
    /\ actual_channel_idx
         (snd (processPacket Vectors.demo_lib 3 Vectors.e2e_packet
                 (fresh_packet init_receiver)))
       = Z.of_nat (List.length added).
Proof.
  exact (@channel_index_counts_blocks Vectors.demo_lib 3 Vectors.e2e_packet
           (fresh_packet init_receiver) [] eq_refl).
Defined.

(* ================================================================= *)
(** ** When the walk ends *)

Lemma le_uint_nonneg (bs : list byte) : 0 <= le_uint bs.
Proof.
  induction bs as [| b r IH]; cbn [le_uint]; [lia |].
  pose proof (byte_val_range b). lia.
Qed.

Lemma unpack_2I_nonneg packet pos size type :
  Struct.unpack_2I packet pos = Returns (size, type) -> 0 <= size.
Proof.
  unfold Struct.unpack_2I, Struct.requires.
  destruct (len packet - pos <? 8); [discriminate |].
  cbn [obind]. intros H. injection H as <- _. apply le_uint_nonneg.
Qed.

Ltac ended_by_cases :=
  unfold ended;
  repeat
    match goal with
    | |- context [if ?b then _ else _] => destruct b
    | |- context [match ?x with _ => _ end] => destruct x
    end;
  cbn; try discriminate.

Lemma ended_frombuffer_items {A} size (dec : list byte -> A) buffer offset count :
  ended (Np.frombuffer_items size dec buffer offset count).
Proof. unfold Np.frombuffer_items. ended_by_cases. Qed.

Lemma ended_frombuffer buffer dt offset count :
  ended (Np.frombuffer buffer dt offset count).
Proof.
  unfold Np.frombuffer. destruct (Np.itemsize dt);
    [apply ended_frombuffer_items | discriminate].
Qed.

Lemma ended_obind {A B} (o : outcome A) (k : A -> outcome B) :
  ended o -> (forall a, ended (k a)) -> ended (obind o k).
Proof.
  intros Ho Hk. destruct o as [a | e |]; cbn [obind];
    [apply Hk | discriminate | contradiction].
Qed.

Lemma ended_of_option {A} (e : exn) (o : option A) : ended (of_option e o).
Proof. destruct o; discriminate. Qed.

Lemma ended_readArraySync_rows packet dt dim cur n :
  ended (readArraySync_rows packet dt dim cur n).
Proof.
  revert cur. induction n as [| n IH]; intros cur; cbn [readArraySync_rows];
    [discriminate |].
  apply ended_obind; [apply ended_frombuffer | intros row].
  apply ended_obind; [apply ended_of_option | intros sz].
  apply ended_obind; [apply IH | discriminate].
Qed.

Section Ends.

Variable lib : PyLib.
Hypothesis arange_ends : forall start stop, ended (arange_wide lib start stop).

Lemma ends_ret {A} (a : A) : ends (ret a).
Proof. intros r. discriminate. Qed.

Lemma ends_lift {A} (o : outcome A) : ended o -> ends (lift o).
Proof. intros Ho r. exact Ho. Qed.

Lemma ends_bind {A B} (m : M receiver A) (k : A -> M receiver B) :
  ends m -> (forall a, ends (k a)) -> ends (bind m k).
Proof.
  intros Hm Hk r. unfold bind. specialize (Hm r).
  destruct (m r) as [[a | e |] r1]; cbn [fst] in *;
    [apply Hk | discriminate | contradiction].
Qed.

Lemma ends_readSamples packet code dim n pos sample_type :
  ends (readSamples lib packet code dim n pos sample_type).
Proof.
  unfold readSamples.
  apply ends_bind; [apply ends_lift; unfold DT_DATA_TYPE; ended_by_cases |].
  intros [dt |]; [| intros r; discriminate].
  destruct ((sample_type =? SBT_SYNC_FIXED) && (0 <? n)).
  { destruct (dim =? 1).
    - unfold readSamplesSync.
      apply ends_bind; [intros r; discriminate | intros r0].
      apply ends_bind; [| intros f].
      { apply ends_lift, ended_obind; [apply ended_of_option |].
        intros e. unfold py_float. destruct (fst e);
          [apply ended_of_option | discriminate]. }
      apply ends_bind; [| intros o].
      { apply ends_lift, ended_obind; [apply ended_of_option |].
        intros e. unfold py_float. destruct (snd e);
          [apply ended_of_option | discriminate]. }
      apply ends_bind; [| intros data; apply ends_ret].
      apply ends_lift.
      destruct dt; try apply ended_frombuffer;
        (apply ended_obind; [apply ended_frombuffer_items | discriminate]).
    - unfold readArraySync.
      apply ends_bind; [| intros rows; apply ends_ret].
      apply ends_lift, ended_readArraySync_rows. }
  destruct ((sample_type =? SBT_ASYNC_FIXED) && (0 <? n)).
  { destruct (dim =? 1).
    - unfold readSamplesAsync.
      apply ends_bind; [| intros rows; apply ends_ret].
      apply ends_lift. unfold Np.frombuffer_pair.
      destruct (Np.itemsize dt); [apply ended_frombuffer_items | discriminate].
    - unfold readArrayAsync.
      apply ends_bind; [| intros rows; apply ends_ret].
      apply ends_lift. apply readArrayAsync_rows_no_fuel. }
  intros r. discriminate.
Qed.

Lemma ends_append_incr data : ends (channelValue_append data ;; incr_channel_idx).
Proof.
  intros r. unfold channelValue_append, incr_channel_idx, bind, get, modify,
    raise.
  destruct (channelValue r); discriminate.
Qed.

Lemma ends_processSyncFixed packet pos : ends (processSyncFixed lib packet pos).
Proof.
  unfold processSyncFixed.
  apply ends_bind;
    [apply ends_lift; unfold Struct.unpack_3IQd, Struct.requires; ended_by_cases |].
  intros [[[[code dim] n] ts] freq].
  apply ends_bind; [apply ends_readSamples | intros data].
  apply ends_bind; [| intros timeStamps].
  { apply ends_lift. unfold arange_over.
    destruct (ts + n <=? 2 ^ 63 - 1); [discriminate |].
    apply ended_obind; [apply arange_ends | discriminate]. }
  apply ends_bind; [| intros block; apply ends_append_incr].
  apply ends_lift. unfold Np.c_. ended_by_cases.
Qed.

Lemma ends_processAsyncFixed packet pos : ends (processAsyncFixed lib packet pos).
Proof.
  unfold processAsyncFixed.
  apply ends_bind;
    [apply ends_lift; unfold Struct.unpack_3Id, Struct.requires; ended_by_cases |].
  intros [[[code dim] n] freq].
  apply ends_bind; [apply ends_readSamples | intros data].
  apply ends_bind; [apply ends_lift; destruct data; discriminate | intros size].
  apply ends_bind; [| intros block; apply ends_append_incr].
  destruct (0 <? size); [| apply ends_ret].
  apply ends_bind; [apply ends_lift; destruct data; discriminate | intros f0].
  apply ends_bind; [apply ends_lift; destruct data; discriminate | intros f1].
  apply ends_lift. unfold Np.c_. ended_by_cases.
Qed.

Lemma ends_processPacket_dispatch packet pos size type :
  ends (processPacket_dispatch lib packet pos size type).
Proof.
  unfold processPacket_dispatch.
  repeat (apply ends_bind; [| intros _]);
    (match goal with |- ends (when ?b _) => destruct b end);
    cbn [when]; try apply ends_ret.
  - unfold processPacketInfo.
    apply ends_bind;
      [apply ends_lift; unfold Struct.unpack_6I, Struct.requires; ended_by_cases |].
    intros [[[[[v id] sq] st] sd] n] r. discriminate.
  - unfold processXmlConfig.
    apply ends_bind; [apply ends_lift, ended_of_option | intros content].
    apply ends_bind; [intros r; discriminate | intros _].
    unfold parseScalingXML.
    apply ends_bind; [apply ends_lift, ended_of_option | intros root].
    destruct (String.eqb (tag root) "ChannelInfo"); [| apply ends_ret].
    intros r. rewrite parseScalingXML_children_effect. cbn [fst].
    destruct (forallb has_child (children root)); discriminate.
  - apply ends_processSyncFixed.
  - apply ends_processAsyncFixed.
Qed.

Lemma ends_processPacket_loop (packet : list byte) (fuel : nat) :
  (forall pos size type,
      visits packet pos -> pos < len packet ->
      Struct.unpack_2I packet pos = Returns (size, type) -> size <> 0) ->
  forall pos r,
    visits packet pos -> len packet - pos <= Z.of_nat fuel ->
    ended (fst (processPacket_loop lib fuel packet pos false r)).
Proof.
  intros Hsizes. induction fuel as [| fuel IH]; intros pos r Hvisit Hfuel;
    cbn [processPacket_loop];
    destruct (Z.ltb_spec pos (len packet)) as [Hin | Hout]; cbn [andb negb];
    try discriminate; [lia |].
  unfold bind at 1. unfold lift at 1.
  assert (Hunpack : ended (Struct.unpack_2I packet pos))
    by (unfold Struct.unpack_2I, Struct.requires; ended_by_cases).
  destruct (Struct.unpack_2I packet pos) as [[size type] | e |] eqn:Hhdr;
    cbv iota beta;
    [| unfold ended; cbn [fst]; discriminate | contradiction].
  unfold bind.
  pose proof (ends_processPacket_dispatch packet pos size type r) as Hd.
  destruct (processPacket_dispatch lib packet pos size type r)
    as [[[] | e |] r1]; cbn [fst] in *;
    [| unfold ended; discriminate | contradiction].
  pose proof (unpack_2I_nonneg _ _ Hhdr) as Hnonneg.
  pose proof (Hsizes pos size type Hvisit Hin Hhdr) as Hnonzero.
  apply IH; [exact (visits_next Hvisit Hin Hhdr) | lia].
Qed.

End Ends.

(** X13.  The walk ends, with at most one turn of the loop per payload byte,
    when no header it reads declares a size of zero: processPacket then
    returns or raises.  (The library's [arange] is assumed to return or
    raise.) *)
Theorem walk_ends_without_zero_sizes (lib : PyLib) (packet : list byte)
    (r : receiver) :
  (forall start stop, ended (arange_wide lib start stop)) ->
  (forall pos size type,
      visits packet pos -> pos < len packet ->
      Struct.unpack_2I packet pos = Returns (size, type) -> size <> 0) ->
  ended (fst (processPacket lib (Z.to_nat (len packet)) packet r)).
Proof.
  intros Hlib Hsizes. unfold processPacket, bind, modify.
  apply ends_processPacket_loop; [exact Hlib | exact Hsizes | constructor |].
  pose proof (len_nonneg packet). lia.
Qed.

Lemma e2e_packet_visits (pos : Z) :
  visits Vectors.e2e_packet pos ->
  pos = 0 \/ pos = 32 \/ pos = 118 \/ pos = 166.
Proof.
  induction 1 as [| pos size type Hvisit IH Hin Hhdr]; [left; reflexivity |].
  change (len Vectors.e2e_packet) with 166 in Hin.
  destruct IH as [-> | [-> | [-> | ->]]]; [| | | lia];
    vm_compute in Hhdr; injection Hhdr as <- _; lia.
Qed.

Lemma walk_ends_without_zero_sizes_witness :
  ended (fst (processPacket Vectors.demo_lib
                (Z.to_nat (len Vectors.e2e_packet)) Vectors.e2e_packet
                (fresh_packet init_receiver))).
Proof.
  apply (@walk_ends_without_zero_sizes Vectors.demo_lib Vectors.e2e_packet).
  - intros start stop. discriminate.
  - intros pos size type Hvisit _ Hhdr.
    destruct (e2e_packet_visits Hvisit) as [-> | [-> | [-> | ->]]];
      vm_compute in Hhdr; try discriminate;
      injection Hhdr as <- _; discriminate.
Defined.

(* ================================================================= *)
(** ** Reading from a segment that has arrived *)

Import Session.

Lemma rest_of_nonempty (remaining : list byte) (later : list Socket.event) :
  remaining <> [] -> rest_of remaining later = Socket.Segment remaining :: later.
Proof. destruct remaining; [contradiction | reflexivity]. Qed.

Lemma recv_from_segment (bs : list byte) (later : list Socket.event)
    (closed : bool) (nbytes : Z) :
  bs <> [] ->
  Socket.recv_events (Socket.Segment bs :: later) closed nbytes
  = (Returns (firstn (Z.to_nat nbytes) bs),
     {| Socket.incoming := rest_of (skipn (Z.to_nat nbytes) bs) later;
        Socket.peer_closed := closed |}).
Proof.
  destruct bs as [| b bs]; [contradiction |]. intros _.
  cbn [Socket.recv_events]. unfold rest_of.
  destruct (skipn (Z.to_nat nbytes) (b :: bs)); reflexivity.
Qed.

(** Reading from [rest_of] is reading from the segment. *)
Lemma recv_from_rest_of (bs : list byte) (later : list Socket.event)
    (closed : bool) (nbytes : Z) :
  Socket.recv_events (rest_of bs later) closed nbytes
  = Socket.recv_events (Socket.Segment bs :: later) closed nbytes.
Proof. destruct bs; reflexivity. Qed.

Lemma write_at_whole (chunk : list byte) :
  Socket.write_at (repeat x00 (List.length chunk)) 0 chunk = chunk.
Proof.
  unfold Socket.write_at. cbn [Z.to_nat firstn app Nat.add].
  rewrite skipn_all2 by (rewrite repeat_length; lia).
  apply app_nil_r.
Qed.

(** With [size] bytes at the front of the segment that has arrived, one
    read is enough. *)
Lemma recvFixedSize_from_segment (fuel : nat) (size : Z) (bs : list byte)
    (later : list Socket.event) (closed : bool) :
  0 <= size <= len bs ->
  Socket.recvFixedSize (S fuel) size
    {| Socket.incoming := rest_of bs later; Socket.peer_closed := closed |}
  = (Returns (firstn (Z.to_nat size) bs),
     {| Socket.incoming := rest_of (skipn (Z.to_nat size) bs) later;
        Socket.peer_closed := closed |}).
Proof.
  intros [Hlo Hhi]. unfold Socket.recvFixedSize.
  destruct (Z.ltb_spec size 0); [lia |].
  cbn [Socket.recvFixedSize_loop].
  destruct (Z.eqb_spec size 0) as [-> | Hnz].
  - reflexivity.
  - assert (Hbs : bs <> []).
    { intros ->. cbn in Hhi. lia. }
    unfold bind, Socket.recv_into.
    cbn [Socket.incoming Socket.peer_closed].
    rewrite recv_from_rest_of, (recv_from_segment later closed size Hbs).
    assert (Hlen : List.length (firstn (Z.to_nat size) bs) = Z.to_nat size)
      by (rewrite length_firstn; unfold len in Hhi; lia).
    replace (size - len (firstn (Z.to_nat size) bs)) with 0
      by (unfold len; lia).
    destruct fuel; cbn [Socket.recvFixedSize_loop Z.eqb ret];
      rewrite <- Hlen at 1; rewrite write_at_whole; reflexivity.
Qed.

(* ================================================================= *)
(** ** Searching for the start token *)

Lemma bytes_eqb_refl (a : list byte) : bytes_eqb a a = true.
Proof.
  induction a as [| x a IH]; [reflexivity |].
  cbn [bytes_eqb]. rewrite IH, (Byte.byte_dec_lb eq_refl). reflexivity.
Qed.

Lemma bytes_eqb_eq (a b : list byte) : bytes_eqb a b = true -> a = b.
Proof.
  revert b. induction a as [| x a IH]; intros [| y b]; cbn [bytes_eqb];
    try discriminate; [reflexivity |].
  intros H. apply andb_prop in H. destruct H as [Hxy Hab].
  apply Byte.byte_dec_bl in Hxy. rewrite Hxy, (IH b Hab). reflexivity.
Qed.

Lemma bytes_eqb_neq (a b : list byte) : a <> b -> bytes_eqb a b = false.
Proof.
  intros Hneq. destruct (bytes_eqb a b) eqn:E; [| reflexivity].
  apply bytes_eqb_eq in E. contradiction.
Qed.

Lemma firstn_plus {A} (n m : nat) (l : list A) :
  firstn (n + m) l = firstn n l ++ firstn m (skipn n l).
Proof.
  revert l. induction n as [| n IH]; intros l; [reflexivity |].
  destruct l as [| x l]; cbn [Nat.add firstn skipn app].
  - rewrite firstn_nil. reflexivity.
  - rewrite IH. reflexivity.
Qed.

Lemma tl_skipn {A} (i : nat) (l : list A) : tl (skipn i l) = skipn (S i) l.
Proof.
  revert l. induction i as [| i IH]; intros l.
  - destruct l; reflexivity.
  - destruct l as [| x l]; [reflexivity |].
    change (tl (skipn i l) = skipn (S i) l). apply IH.
Qed.

Lemma tl_firstn {A} (n : nat) (l : list A) :
  tl (firstn (S n) l) = firstn n (tl l).
Proof.
  destruct l; [| reflexivity].
  cbn [tl]. rewrite !firstn_nil. reflexivity.
Qed.

(** One turn of the search: the window slides by one byte. *)
Lemma window_slides (stream : list byte) (i : nat) :
  (i < List.length stream)%nat ->
  pop0 (window_at stream i ++ firstn 1 (skipn (i + 8) stream))
  = Returns (window_at stream (S i)).
Proof.
  intros Hi. unfold window_at.
  replace (skipn (i + 8) stream) with (skipn 8 (skipn i stream))
    by (rewrite skipn_skipn; f_equal; lia).
  rewrite <- (firstn_plus 8 1). cbn [Nat.add].
  rewrite <- tl_skipn, <- tl_firstn.
  destruct (skipn i stream) as [| x l] eqn:E.
  - apply (f_equal (@List.length byte)) in E. rewrite length_skipn in E.
    cbn in E. lia.
  - reflexivity.
Qed.

(** The search over leading garbage: with the bytes already in the
    socket's first segment, the loop reads one byte per offset before
    the token, logs one error per such offset, and stops with the token
    in the window. *)
Lemma search_skips_garbage (stream : list byte) (later : list Socket.event)
    (k : nat) :
  forall (i fuel : nat) (c : session),
    first_token_at stream (i + k) ->
    (i + k + 8 <= List.length stream)%nat ->
    Socket.incoming (sock c) = rest_of (skipn (i + 8) stream) later ->
    (k <= fuel)%nat ->
    readPacket_search fuel (window_at stream i) c
    = (Returns (Some DT_START_TOKEN),
       {| sock := {| Socket.incoming := rest_of (skipn (i + k + 8) stream) later;
                     Socket.peer_closed := Socket.peer_closed (sock c) |};
          rcv := rcv c;
          errors := errors c
                    ++ map (fun j => InvalidStartToken (window_at stream j))
                           (seq i k) |}).
Proof.
  induction k as [| k IH]; intros i fuel c [Hat Hbefore] Hlen Hsock Hfuel.
  - rewrite Nat.add_0_r in *.
    destruct fuel; cbn [readPacket_search];
      rewrite Hat, bytes_eqb_refl; unfold ret; cbn [seq map];
      rewrite app_nil_r; destruct c as [[incoming closed] r e];
      cbn in *; subst incoming; reflexivity.
  - destruct fuel as [| fuel]; [lia |].
    cbn [readPacket_search].
    rewrite bytes_eqb_neq by (apply Hbefore; lia).
    unfold bind at 1. unfold logging_error, modify.
    unfold bind at 1. unfold except_timeout.
    unfold bind at 1. unfold on_sock, Socket.recv_into.
    cbn [sock set_errors]. rewrite Hsock, recv_from_rest_of.
    rewrite recv_from_segment.
    2:{ intros E. apply (f_equal (@List.length byte)) in E.
        rewrite length_skipn in E. cbn in E. lia. }
    unfold ret at 1.
    unfold bind at 1. unfold lift at 1.
    change (Z.to_nat 1) with 1%nat.
    rewrite window_slides by lia.
    rewrite (IH (S i) fuel); cbn [sock rcv errors set_sock Socket.incoming
                                  Socket.peer_closed].
    + replace (S i + k)%nat with (i + S k)%nat by lia.
      cbn [rcv errors set_errors seq map].
      rewrite <- app_assoc. reflexivity.
    + replace (S i + k)%nat with (i + S k)%nat by lia. split; assumption.
    + lia.
    + rewrite skipn_skipn. reflexivity.
    + lia.
Qed.

(* ================================================================= *)
(** ** [readPacket] *)

Lemma window_at_app (a b : list byte) (i : nat) :
  (i + 8 <= List.length a)%nat -> window_at (a ++ b) i = window_at a i.
Proof.
  intros Hi. unfold window_at. rewrite skipn_app, firstn_app.
  replace (8 - List.length (skipn i a))%nat with 0%nat
    by (rewrite length_skipn; lia).
  cbn [firstn]. apply app_nil_r.
Qed.

Lemma token_length : List.length DT_START_TOKEN = 8%nat.
Proof. reflexivity. Qed.

Lemma skipn_exact {A} (a b : list A) : skipn (List.length a) (a ++ b) = b.
Proof.
  rewrite skipn_app, Nat.sub_diag, skipn_all2 by lia. reflexivity.
Qed.

Lemma firstn_exact {A} (a b : list A) : firstn (List.length a) (a ++ b) = a.
Proof.
  rewrite firstn_app, Nat.sub_diag, firstn_all2 by lia. apply app_nil_r.
Qed.

(** From the size field on: the frame is read and handed to
    processPacket. *)
Lemma frame_is_decoded (lib : PyLib) (fuel : nat) (c : session)
    (size4 payload more : list byte) (later : list Socket.event) :
  Socket.incoming (sock c) = rest_of (size4 ++ payload ++ more) later ->
  List.length size4 = 4%nat ->
  le_uint size4 = DT_PACKET_HEADER_SIZE + len payload ->
  readPacket_frame lib (S fuel) c
  = (fst (decoded lib (S fuel) payload (rcv c)),
     {| sock := {| Socket.incoming := rest_of more later;
                   Socket.peer_closed := Socket.peer_closed (sock c) |};
        rcv := snd (decoded lib (S fuel) payload (rcv c));
        errors := errors c |}).
Proof.
  intros Hsock Hfour Hsize.
  assert (Hne : size4 ++ payload ++ more <> [])
    by (destruct size4; [discriminate | discriminate]).
  unfold readPacket_frame. unfold bind at 1. unfold except_timeout.
  unfold bind at 1. unfold on_sock at 1. unfold Socket.recv_into.
  rewrite Hsock, recv_from_rest_of, (recv_from_segment later _ _ Hne).
  change (Z.to_nat (DT_PACKET_HEADER_SIZE - DT_TOKEN_SIZE)) with 4%nat.
  rewrite <- Hfour at 1 2. rewrite firstn_exact, skipn_exact.
  unfold ret at 1. cbv iota beta.
  replace (DT_PACKET_HEADER_SIZE - DT_TOKEN_SIZE =? len size4) with true
    by (unfold len; rewrite Hfour; reflexivity).
  cbn [negb].
  assert (Hbuf : Socket.write_at (repeat x00 4) 0 size4 = size4)
    by (rewrite <- Hfour at 1; apply write_at_whole).
  assert (Hnat : Z.to_nat (len payload) = List.length payload)
    by (unfold len; lia).
  change (Z.to_nat (DT_PACKET_HEADER_SIZE - DT_TOKEN_SIZE)) with 4%nat.
  rewrite !Hbuf.
  replace (le_uint size4 - DT_PACKET_HEADER_SIZE) with (len payload) by lia.
  unfold bind at 1. unfold on_sock at 1.
  cbn [sock set_sock].
  rewrite recvFixedSize_from_segment
    by (rewrite len_app; pose proof (len_nonneg payload);
        pose proof (len_nonneg more); lia).
  rewrite !Hnat, firstn_exact, skipn_exact.
  rewrite Z.eqb_refl.
  cbn [negb].
  unfold bind at 1. unfold on_rcv at 1. unfold modify at 1.
  cbn [rcv set_sock set_rcv].
  unfold bind at 1. unfold on_rcv at 1. cbn [rcv set_rcv set_sock].
  unfold decoded, fresh_packet.
  destruct (processPacket lib (S fuel) payload
              (set_channelValue (Some []) (rcv c))) as [[[] | e |] r'];
    cbn [fst snd set_rcv sock rcv errors]; try reflexivity.
  unfold bind, get. cbn [rcv set_rcv].
  destruct (channelValue r'); reflexivity.
Qed.

(** X14.  Leading garbage does not change what is decoded.  When the bytes
    [garbage ++ token ++ size ++ payload ++ more] have arrived and the
    token does not show earlier in the garbage, readPacket drops the
    garbage byte by byte, logging one error for each, reads the frame,
    and leaves [more] in the socket; its result and the decoder's state
    are those of processPacket on the payload with a fresh result list,
    the same as without any garbage. *)
Theorem readPacket_resynchronises (lib : PyLib) (fuel : nat) (c : session)
    (garbage size4 payload more : list byte) (later : list Socket.event) :
  Socket.incoming (sock c)
  = Socket.Segment (garbage ++ DT_START_TOKEN ++ size4 ++ payload ++ more)
      :: later ->
  (forall i, (i < List.length garbage)%nat ->
             window_at (garbage ++ DT_START_TOKEN) i <> DT_START_TOKEN) ->
  List.length size4 = 4%nat ->
  le_uint size4 = DT_PACKET_HEADER_SIZE + len payload ->
  (List.length garbage <= fuel)%nat ->
  readPacket lib (S fuel) c
  = (fst (decoded lib (S fuel) payload (rcv c)),
     {| sock := {| Socket.incoming := rest_of more later;
                   Socket.peer_closed := Socket.peer_closed (sock c) |};
        rcv := snd (decoded lib (S fuel) payload (rcv c));
        errors := errors c
                  ++ map (fun i => InvalidStartToken
                                     (window_at (garbage ++ DT_START_TOKEN) i))
                         (seq 0 (List.length garbage)) |}).
Proof.
  intros Hsock Hgarbage Hfour Hsize Hfuel.
  set (stream := garbage ++ DT_START_TOKEN ++ size4 ++ payload ++ more) in *.
  assert (Hwin : forall i, (i <= List.length garbage)%nat ->
                           window_at stream i
                           = window_at (garbage ++ DT_START_TOKEN) i).
  { intros i Hi. subst stream. rewrite (app_assoc garbage).
    apply window_at_app. rewrite length_app, token_length. lia. }
  assert (Hat : first_token_at stream (0 + List.length garbage)).
  { split.
    - cbn [Nat.add]. rewrite Hwin by lia. unfold window_at.
      rewrite skipn_exact. reflexivity.
    - intros i Hi. rewrite Hwin by lia. apply Hgarbage. exact Hi. }
  assert (Hlen : (0 + List.length garbage + 8 <= List.length stream)%nat).
  { subst stream. rewrite !length_app, token_length. lia. }
  assert (Hne : stream <> []).
  { intros E. rewrite E in Hlen. cbn in Hlen. lia. }
  unfold readPacket. unfold bind at 1. unfold on_sock at 1.
  unfold Socket.recv_into. rewrite Hsock, (recv_from_segment later _ _ Hne).
  change (Z.to_nat DT_TOKEN_SIZE) with 8%nat.
  change (firstn 8 stream) with (window_at stream 0).
  unfold bind at 1.
  erewrite (@search_skips_garbage stream later (List.length garbage) 0
              (S fuel));
    [| exact Hat | exact Hlen | reflexivity | lia].
  cbn [sock set_sock Socket.peer_closed rcv errors].
  rewrite (@frame_is_decoded lib fuel _ size4 payload more later);
    cbn [sock rcv errors Socket.incoming Socket.peer_closed].
  - do 3 f_equal. apply map_ext_in. intros i Hi.
    apply in_seq in Hi. rewrite Hwin by lia. reflexivity.
  - f_equal. subst stream.
    replace (0 + List.length garbage + 8)%nat
      with (List.length (garbage ++ DT_START_TOKEN))
      by (rewrite length_app, token_length; lia).
    rewrite (app_assoc garbage). apply skipn_exact.
  - exact Hfour.
  - exact Hsize.
Qed.

Lemma garbage_has_no_token (i : nat) :
  (i < 2)%nat -> window_at ([x00; x01] ++ DT_START_TOKEN) i <> DT_START_TOKEN.
Proof.
  intros Hi. destruct i as [| [| i]]; [discriminate | discriminate | lia].
Qed.

Lemma readPacket_resynchronises_witness :
  readPacket Vectors.demo_lib 3 Cases.garbage_session
  = (Returns (RBlocks []),
     {| sock := {| Socket.incoming := []; Socket.peer_closed := false |};
        rcv := set_actual_channel_idx 0 (fresh_packet init_receiver);
        errors := [InvalidStartToken
                     ([x00; x01] ++ firstn 6 DT_START_TOKEN);
                   InvalidStartToken
                     ([x01] ++ firstn 7 DT_START_TOKEN)] |}).
Proof.
  exact (@readPacket_resynchronises Vectors.demo_lib 2 Cases.garbage_session
           [x00; x01] (Vectors.u32 20) Cases.footer_payload [] []
           eq_refl garbage_has_no_token eq_refl eq_refl ltac:(cbn; lia)).
Defined.

(** The search window never grows: a read of one byte adds at most one
    byte and the pop takes one away.  A window shorter than the token
    can therefore never become the token. *)
Lemma search_needs_eight_bytes (fuel : nat) :
  forall (window : list byte) (c : session) found c',
    (List.length window < 8)%nat ->
    readPacket_search fuel window c <> (Returns (Some found), c').
Proof.
  induction fuel as [| fuel IH]; intros window c found c' Hshort;
    cbn [readPacket_search];
    rewrite bytes_eqb_neq
      by (intros E; rewrite E, token_length in Hshort; lia);
    [discriminate |].
  unfold bind at 1. unfold logging_error, modify.
  unfold bind at 1. unfold except_timeout.
  unfold bind at 1. unfold on_sock, Socket.recv_into.
  destruct (Socket.recv_events _ _ 1) as [[chunk | e |] s1] eqn:Hrecv.
  - unfold ret at 1. unfold bind at 1. unfold lift at 1.
    destruct (recv_events_prefix _ _ _ Hrecv) as [Hone _].
    destruct (window ++ chunk) as [| b rest] eqn:E; cbn [pop0];
      [discriminate |].
    apply IH.
    apply (f_equal (@List.length byte)) in E.
    rewrite length_app in E. cbn [List.length] in E.
    change (Z.to_nat 1) with 1%nat in Hone. lia.
  - destruct e; discriminate.
  - discriminate.
Qed.

(** X15.  A frame whose first bytes arrive in a segment of fewer than eight
    bytes is never decoded.  The first read returns that segment alone,
    the search window keeps its length, and it cannot equal the
    eight-byte token: whatever arrives afterwards, readPacket does not
    return a list of blocks. *)
Theorem short_first_read_is_never_decoded (lib : PyLib) (fuel : nat)
    (c : session) (first : list byte) (later : list Socket.event)
    (blocks : list Np.pydata) :
  Socket.incoming (sock c) = Socket.Segment first :: later ->
  first <> [] ->
  (List.length first < 8)%nat ->
  fst (readPacket lib fuel c) <> Returns (RBlocks blocks).
Proof.
  intros Hsock Hne Hshort.
  unfold readPacket. unfold bind at 1. unfold on_sock at 1.
  unfold Socket.recv_into. rewrite Hsock, (recv_from_segment later _ _ Hne).
  change (Z.to_nat DT_TOKEN_SIZE) with 8%nat.
  rewrite firstn_all2 by lia.
  unfold bind.
  match goal with
  | |- context [readPacket_search fuel first ?c1] =>
      pose proof (fun found c' =>
                    @search_needs_eight_bytes fuel first c1 found c' Hshort)
        as Hnever;
      destruct (readPacket_search fuel first c1) as [[[found |] | e |] c2]
  end; cbn [fst]; try discriminate.
  exfalso. exact (Hnever found c2 eq_refl).
Qed.

Lemma short_first_read_is_never_decoded_witness :
  fst (readPacket Vectors.demo_lib 100 Cases.split_session)
  <> Returns (RBlocks []).
Proof.
  exact (@short_first_read_is_never_decoded Vectors.demo_lib 100
           Cases.split_session (firstn 4 Cases.footer_frame)
           [Socket.Segment (skipn 4 Cases.footer_frame)] []
           eq_refl ltac:(discriminate) ltac:(cbn; lia)).
Defined.

(** X16.  The end of the stream is not recognised.  When the peer has closed
    the connection and nothing is left to read, readPacket logs an
    invalid start token for the empty window and raises IndexError from
    popping the empty buffer. *)
Theorem readPacket_at_end_of_stream (lib : PyLib) (fuel : nat) (c : session) :
  Socket.incoming (sock c) = [] ->
  Socket.peer_closed (sock c) = true ->
  readPacket lib (S fuel) c
  = (Raises IndexError, set_errors (errors c ++ [InvalidStartToken []]) c).
Proof.
  intros Hin Hclosed. destruct c as [[incoming closed] r e].
  cbn in Hin, Hclosed. subst incoming closed. reflexivity.
Qed.

Lemma readPacket_at_end_of_stream_witness :
  readPacket Vectors.demo_lib 1 (Cases.session_with [] true)
  = (Raises IndexError,
     set_errors [InvalidStartToken []] (Cases.session_with [] true)).
Proof.
  exact (@readPacket_at_end_of_stream Vectors.demo_lib 0
           (Cases.session_with [] true) eq_refl eq_refl).
Defined.

(** With the token in the window the search is over. *)
Lemma search_at_token (fuel : nat) (c : session) :
  readPacket_search fuel DT_START_TOKEN c = (Returns (Some DT_START_TOKEN), c).
Proof. destruct fuel; reflexivity. Qed.

(** X17.  A frame whose size field is below the header size of 12 is not
    rejected as a framing error: the payload size becomes negative and
    the bytearray of that size raises ValueError.  The token and the
    size field have been consumed by then. *)
Theorem undersize_frame_raises (lib : PyLib) (fuel : nat) (c : session)
    (size4 more : list byte) (later : list Socket.event) :
  Socket.incoming (sock c)
  = Socket.Segment (DT_START_TOKEN ++ size4 ++ more) :: later ->
  List.length size4 = 4%nat ->
  le_uint size4 < DT_PACKET_HEADER_SIZE ->
  readPacket lib fuel c
  = (Raises ValueError,
     set_sock {| Socket.incoming := rest_of more later;
                 Socket.peer_closed := Socket.peer_closed (sock c) |} c).
Proof.
  intros Hsock Hfour Hsmall.
  assert (Hne : size4 ++ more <> []) by (destruct size4; discriminate).
  unfold readPacket. unfold bind at 1. unfold on_sock at 1.
  unfold Socket.recv_into.
  rewrite Hsock, recv_from_segment by discriminate.
  change (Z.to_nat DT_TOKEN_SIZE) with (List.length DT_START_TOKEN).
  rewrite firstn_exact, skipn_exact.
  unfold bind at 1. rewrite search_at_token.
  unfold readPacket_frame. unfold bind at 1. unfold except_timeout.
  unfold bind at 1. unfold on_sock at 1. unfold Socket.recv_into.
  cbn [sock set_sock Socket.incoming Socket.peer_closed].
  rewrite recv_from_rest_of, (recv_from_segment later _ _ Hne).
  change (Z.to_nat (DT_PACKET_HEADER_SIZE - DT_TOKEN_SIZE)) with 4%nat.
  rewrite <- Hfour at 1 2. rewrite firstn_exact, skipn_exact.
  unfold ret at 1. cbv iota beta.
  replace (DT_PACKET_HEADER_SIZE - DT_TOKEN_SIZE =? len size4) with true
    by (unfold len; rewrite Hfour; reflexivity).
  cbn [negb].
  assert (Hbuf : Socket.write_at (repeat x00 4) 0 size4 = size4)
    by (rewrite <- Hfour at 1; apply write_at_whole).
  rewrite Hbuf.
  unfold bind at 1. unfold on_sock at 1. unfold Socket.recvFixedSize.
  destruct (Z.ltb_spec (le_uint size4 - DT_PACKET_HEADER_SIZE) 0); [| lia].
  destruct c as [s r e]. reflexivity.
Qed.

Lemma undersize_frame_raises_witness :
  readPacket Vectors.demo_lib 0 Cases.undersize_session
  = (Raises ValueError,
     set_sock {| Socket.incoming := []; Socket.peer_closed := false |}
              Cases.undersize_session).
Proof.
  exact (@undersize_frame_raises Vectors.demo_lib 0 Cases.undersize_session
           (Vectors.u32 11) [] [] eq_refl eq_refl eq_refl).
Defined.

(** X18.  The two timeouts of readPacket are not treated alike, and the
    handled one loses the token.  While nothing has arrived, readPacket
    raises socket.timeout and logs nothing.  When then the token arrives
    but not the size field behind it, readPacket logs a warning and
    returns False; the token is consumed, so the next call starts at the
    size field. *)
Theorem timeout_after_token_drops_it (lib : PyLib) (fuel : nat) (c : session)
    (later : list Socket.event) :
  Socket.incoming (sock c)
  = Socket.Quiet :: Socket.Segment DT_START_TOKEN :: Socket.Quiet :: later ->
  let waiting :=
    set_sock {| Socket.incoming :=
                  Socket.Segment DT_START_TOKEN :: Socket.Quiet :: later;
                Socket.peer_closed := Socket.peer_closed (sock c) |} c in
  readPacket lib fuel c = (Raises SocketTimeout, waiting)
  /\ readPacket lib fuel waiting
     = (Returns RFalse,
        {| sock := {| Socket.incoming := later;
                      Socket.peer_closed := Socket.peer_closed (sock c) |};
           rcv := set_warnings (warnings (rcv c) ++ ["No data available yet"%string])
                               (rcv c);
           errors := errors c |}).
Proof.
  intros Hsock waiting. subst waiting.
  destruct c as [[incoming closed] r e]. cbn in Hsock. subst incoming.
  split; [reflexivity |].
  unfold readPacket. unfold bind at 1. unfold on_sock at 1.
  unfold Socket.recv_into.
  cbn [sock set_sock Socket.incoming Socket.peer_closed].
  rewrite recv_from_segment by discriminate.
  change (Z.to_nat DT_TOKEN_SIZE) with (List.length DT_START_TOKEN).
  rewrite firstn_all, skipn_all.
  unfold bind at 1. rewrite search_at_token.
  reflexivity.
Qed.

Lemma timeout_after_token_drops_it_witness :
  readPacket Vectors.demo_lib 0
    (Cases.session_with
       [Socket.Quiet; Socket.Segment DT_START_TOKEN; Socket.Quiet] false)
  = (Raises SocketTimeout, Cases.token_then_quiet_session)
  /\ readPacket Vectors.demo_lib 0 Cases.token_then_quiet_session
     = (Returns RFalse,
        {| sock := {| Socket.incoming := []; Socket.peer_closed := false |};
           rcv := set_warnings ["No data available yet"%string] init_receiver;
           errors := [] |}).
Proof.
  exact (@timeout_after_token_drops_it Vectors.demo_lib 0
           (Cases.session_with
              [Socket.Quiet; Socket.Segment DT_START_TOKEN; Socket.Quiet]
              false)
           [] eq_refl).
Defined.

(* ================================================================= *)
(** ** [connectTo] and [disconnect] *)

(** X19.  connectTo reads the welcome message with a single read.  When a
    first segment of the message has arrived and the buffer decodes,
    connectTo returns True having taken at most 64 bytes of that
    segment; the rest of the welcome message, if it arrives later, is
    left in the stream for readPacket. *)
Theorem connectTo_reads_welcome_once (lib : PyLib) (c : client)
    (s : Socket.socket) (first : list byte) (later : list Socket.event) :
  (forall s0, conn c <> Linked s0) ->
  Socket.incoming s = Socket.Segment first :: later ->
  first <> [] ->
  bytes_decode lib
    (Socket.write_at (repeat x00 64) 0 (firstn 64 first)) <> None ->
  connectTo lib (Accepted s) c
  = (Returns CTrue,
     {| conn := Linked {| Socket.incoming := rest_of (skipn 64 first) later;
                          Socket.peer_closed := Socket.peer_closed s |};
        client_errors := client_errors c |}).
Proof.
  intros Hfree Hsock Hne Hdecode. unfold connectTo.
  assert (Hpeer : match match conn c with
                        | ClosedLink => NotConnected
                        | l => l
                        end with
                  | Linked s0 => s0
                  | _ => s
                  end = s).
  { destruct (conn c) as [| s0 |]; [reflexivity | | reflexivity].
    destruct (Hfree s0 eq_refl). }
  rewrite Hpeer. unfold Socket.recv_into.
  rewrite Hsock, (recv_from_segment later _ _ Hne).
  change (Z.to_nat DT_WELCOME_MSG_SIZE) with 64%nat.
  replace (len (firstn 64 first) =? 0) with false
    by (symmetry; apply Z.eqb_neq; destruct first;
        [contradiction | discriminate]).
  destruct (bytes_decode lib _); [reflexivity | contradiction].
Qed.

Lemma connectTo_reads_welcome_once_witness :
  connectTo Vectors.demo_lib (Accepted Cases.slow_welcome) Cases.new_client
  = (Returns CTrue,
     {| conn := Linked {| Socket.incoming :=
                            [Socket.Segment (repeat "A"%byte 54)];
                          Socket.peer_closed := false |};
        client_errors := [] |}).
Proof.
  exact (@connectTo_reads_welcome_once Vectors.demo_lib Cases.new_client
           Cases.slow_welcome (repeat "A"%byte 10)
           [Socket.Segment (repeat "A"%byte 54)]
           ltac:(discriminate) eq_refl ltac:(discriminate)
           ltac:(discriminate)).
Defined.

(** X20.  What connectTo does on a receiver that is connected already
    is decided by the answer to connect.  When connect fails (the system
    refuses the second connect), connectTo logs one error, returns False
    and leaves the connection and its unread bytes alone.  When connect
    returns (as on Linux, once, after a first connect under a timeout),
    connectTo takes the next bytes of the data stream, at most 64 of the
    segment that has arrived, for a welcome message and returns True:
    these bytes are lost to readPacket.  After disconnect, connectTo
    does what it does on a receiver that was never connected. *)
Theorem second_connectTo_reads_the_stream (lib : PyLib) (c : client)
    (s0 peer : Socket.socket) (first : list byte)
    (later : list Socket.event) :
  conn c = Linked s0 ->
  Socket.incoming s0 = Socket.Segment first :: later ->
  first <> [] ->
  bytes_decode lib
    (Socket.write_at (repeat x00 64) 0 (firstn 64 first)) <> None ->
  connectTo lib Refused c
  = (Returns CFalse,
     {| conn := Linked s0;
        client_errors := client_errors c ++ [ConnectionFailed] |})
  /\ connectTo lib (Accepted peer) c
     = (Returns CTrue,
        {| conn := Linked {| Socket.incoming := rest_of (skipn 64 first) later;
                             Socket.peer_closed := Socket.peer_closed s0 |};
           client_errors := client_errors c |})
  /\ connectTo lib (Accepted peer) (snd (disconnect c))
     = connectTo lib (Accepted peer)
         {| conn := NotConnected; client_errors := client_errors c |}.
Proof.
  intros Hconn Hsock Hne Hdecode. unfold connectTo.
  split; [rewrite Hconn; reflexivity |]. split; [| reflexivity].
  rewrite Hconn. unfold Socket.recv_into.
  rewrite Hsock, (recv_from_segment later _ _ Hne).
  change (Z.to_nat DT_WELCOME_MSG_SIZE) with 64%nat.
  replace (len (firstn 64 first) =? 0) with false
    by (symmetry; apply Z.eqb_neq; destruct first;
        [contradiction | discriminate]).
  destruct (bytes_decode lib _); [reflexivity | contradiction].
Qed.

Lemma second_connectTo_reads_the_stream_witness :
  connectTo Vectors.demo_lib Refused Cases.streaming_client
  = (Returns CFalse,
     {| conn := Linked Cases.streaming_socket;
        client_errors := [ConnectionFailed] |})
  /\ connectTo Vectors.demo_lib (Accepted Cases.slow_welcome)
       Cases.streaming_client
     = (Returns CTrue,
        {| conn := Linked {| Socket.incoming := [];
                             Socket.peer_closed := false |};
           client_errors := [] |})
  /\ connectTo Vectors.demo_lib (Accepted Cases.slow_welcome)
       (snd (disconnect Cases.streaming_client))
     = connectTo Vectors.demo_lib (Accepted Cases.slow_welcome)
         Cases.new_client.
Proof.
  exact (@second_connectTo_reads_the_stream Vectors.demo_lib
           Cases.streaming_client Cases.streaming_socket Cases.slow_welcome
           Cases.footer_frame [] eq_refl eq_refl ltac:(discriminate)
           ltac:(discriminate)).
Defined.

(* ================================================================= *)
(** ** Which sub-record changes which attribute *)

Lemma snd_then_ret {A} (m : M receiver A) (r : receiver) :
  snd ((m ;; ret tt) r) = snd (m r).
Proof. unfold bind, ret. destruct (m r) as [[a | e |] r1]; reflexivity. Qed.

Section Frames.

Variable R : receiver -> receiver -> Prop.
Hypothesis R_refl : forall r, R r r.
Hypothesis R_trans : forall r1 r2 r3, R r1 r2 -> R r2 r3 -> R r1 r3.
Variable lib : PyLib.

Lemma frame_lift {A} (o : outcome A) : keeps R (lift o).
Proof. intros r. apply R_refl. Qed.

Lemma frame_bind {A B} (m : M receiver A) (k : A -> M receiver B) :
  keeps R m -> (forall a, keeps R (k a)) -> keeps R (bind m k).
Proof.
  intros Hm Hk r. unfold bind. specialize (Hm r).
  destruct (m r) as [[a | e |] r1]; cbn [snd] in *; try exact Hm.
  apply R_trans with r1; [exact Hm | apply Hk].
Qed.

Section Samples.

Hypothesis R_warnings : forall r v, R r (set_warnings v r).
Hypothesis R_block : forall r l b,
    channelValue r = Some l ->
    R r (set_actual_channel_idx (actual_channel_idx r + 1)
           (set_channelValue (Some (l ++ [b])) r)).

Lemma frame_readSamples packet code dim n pos sample_type :
  keeps R (readSamples lib packet code dim n pos sample_type).
Proof.
  intros r.
  destruct (readSamples_effect lib packet code dim n pos sample_type r)
    as [w ->].
  apply R_warnings.
Qed.

Lemma frame_append_incr (data : Np.pydata) :
  keeps R (channelValue_append data ;; incr_channel_idx).
Proof.
  intros r. unfold channelValue_append, incr_channel_idx, bind, get, modify,
    raise.
  destruct (channelValue r) as [l |] eqn:E; cbn [snd].
  - exact (R_block r data E).
  - apply R_refl.
Qed.

Lemma frame_processSyncFixed packet pos :
  keeps R (processSyncFixed lib packet pos).
Proof.
  unfold processSyncFixed.
  apply frame_bind; [apply frame_lift |].
  intros [[[[code dim] n] ts] freq].
  apply frame_bind; [apply frame_readSamples | intros data].
  apply frame_bind; [apply frame_lift | intros timeStamps].
  apply frame_bind; [apply frame_lift | intros block].
  apply frame_append_incr.
Qed.

Lemma frame_processAsyncFixed packet pos :
  keeps R (processAsyncFixed lib packet pos).
Proof.
  unfold processAsyncFixed.
  apply frame_bind; [apply frame_lift |].
  intros [[[code dim] n] freq].
  apply frame_bind; [apply frame_readSamples | intros data].
  apply frame_bind; [apply frame_lift | intros size].
  apply frame_bind; [| intros block; apply frame_append_incr].
  destruct (0 <? size); [| intros r; apply R_refl].
  apply frame_bind; [apply frame_lift | intros f0].
  apply frame_bind; [apply frame_lift | intros f1].
  apply frame_lift.
Qed.

End Samples.

(** What every sub-record but those of one type keeps, the walk keeps
    when it meets no header of that type. *)
Lemma frame_loop (packet : list byte) (skip : Z) :
  (forall pos size type, type <> skip ->
                         keeps R (processPacket_dispatch lib packet pos size type)) ->
  ~ declares packet skip ->
  forall fuel pos,
    visits packet pos ->
    keeps R (processPacket_loop lib fuel packet pos false).
Proof.
  intros Hdispatch Hnone.
  induction fuel as [| fuel IH]; intros pos Hvisit r;
    cbn [processPacket_loop];
    destruct (Z.ltb_spec pos (len packet)) as [Hin | Hout]; cbn [andb negb];
    try apply R_refl.
  unfold bind at 1. unfold lift at 1.
  destruct (Struct.unpack_2I packet pos) as [[size type] | e |] eqn:Hhdr;
    cbn [snd]; try apply R_refl.
  assert (Htype : type <> skip).
  { intros ->. apply Hnone. exists pos, size. repeat split; assumption. }
  apply (@frame_bind _ _ (processPacket_dispatch lib packet pos size type)
           (fun _ => processPacket_loop lib fuel packet (pos + size) false)).
  - apply Hdispatch. exact Htype.
  - intros _. apply IH. exact (visits_next Hvisit Hin Hhdr).
Qed.

End Frames.

Lemma processXmlConfig_packet_info (lib : PyLib) (packet : list byte)
    (pos size : Z) (r : receiver) :
  packet_info (snd (processXmlConfig lib packet pos size r)) = packet_info r.
Proof.
  unfold processXmlConfig, bind, lift, modify.
  destruct (bytes_decode lib (slice packet pos size)); [| reflexivity].
  cbn [of_option]. unfold parseScalingXML, bind, lift.
  destruct (ET_fromstring lib s) as [root |]; [| reflexivity].
  cbn [of_option].
  destruct (String.eqb (tag root) "ChannelInfo"); [| reflexivity].
  rewrite parseScalingXML_children_effect. reflexivity.
Qed.

Lemma processPacketInfo_configuration (packet : list byte) (pos : Z)
    (r : receiver) :
  packet_xml (snd (processPacketInfo packet pos r)) = packet_xml r
  /\ scaling_info (snd (processPacketInfo packet pos r)) = scaling_info r.
Proof.
  unfold processPacketInfo, bind, lift, modify.
  destruct (Struct.unpack_6I packet pos) as [[[[[[v id] sq] st] sd] n] | e |];
    split; reflexivity.
Qed.

(** X21.  Each attribute of the receiver changes only through sub-records of
    its own type.  A payload in which the walk meets no packet-info
    header leaves [packet_info] (the stream status among it) as it was;
    a payload in which it meets no XML-config header leaves [packet_xml]
    and the scaling table as they were.  Sample sub-records, footers and
    unknown types touch neither, however processing ends. *)
Theorem attributes_change_by_their_subrecords (lib : PyLib) (fuel : nat)
    (packet : list byte) (r : receiver) :
  (~ declares packet SBT_PACKET_INFO ->
   packet_info (snd (processPacket lib fuel packet r)) = packet_info r)
  /\ (~ declares packet SBT_XML_CONFIG ->
      packet_xml (snd (processPacket lib fuel packet r)) = packet_xml r
      /\ scaling_info (snd (processPacket lib fuel packet r)) = scaling_info r).
Proof.
  unfold processPacket, bind, modify. split; intros Hnone.
  - apply (@frame_loop (fun r r' => packet_info r' = packet_info r))
      with (skip := SBT_PACKET_INFO) (r := set_actual_channel_idx 0 r);
      [reflexivity | intros r1 r2 r3 H12 H23; congruence | | exact Hnone
       | constructor].
    intros pos size type Htype r0.
    destruct (Z.eq_dec type SBT_XML_CONFIG) as [-> | H2].
    { rewrite dispatch_xml_config, snd_then_ret.
      apply processXmlConfig_packet_info. }
    destruct (Z.eq_dec type SBT_SYNC_FIXED) as [-> | H3].
    { rewrite dispatch_sync_fixed, snd_then_ret.
      apply (@frame_processSyncFixed (fun r r' => packet_info r' = packet_info r));
        [reflexivity | intros r1 r2 r3 H12 H23; congruence
         | reflexivity | reflexivity]. }
    destruct (Z.eq_dec type SBT_ASYNC_FIXED) as [-> | H5].
    { rewrite dispatch_async_fixed.
      apply (@frame_processAsyncFixed (fun r r' => packet_info r' = packet_info r));
        [reflexivity | intros r1 r2 r3 H12 H23; congruence
         | reflexivity | reflexivity]. }
    rewrite dispatch_other by assumption. reflexivity.
  - apply (@frame_loop (fun r r' => packet_xml r' = packet_xml r
                                    /\ scaling_info r' = scaling_info r))
      with (skip := SBT_XML_CONFIG) (r := set_actual_channel_idx 0 r);
      [split; reflexivity
       | intros r1 r2 r3 [Ha Hb] [Hc Hd]; split; congruence | | exact Hnone
       | constructor].
    intros pos size type Htype r0.
    destruct (Z.eq_dec type SBT_PACKET_INFO) as [-> | H1].
    { rewrite dispatch_packet_info, snd_then_ret.
      apply processPacketInfo_configuration. }
    destruct (Z.eq_dec type SBT_SYNC_FIXED) as [-> | H3].
    { rewrite dispatch_sync_fixed, snd_then_ret.
      apply (@frame_processSyncFixed
               (fun r r' => packet_xml r' = packet_xml r
                            /\ scaling_info r' = scaling_info r));
        [split; reflexivity
         | intros r1 r2 r3 [Ha Hb] [Hc Hd]; split; congruence
         | split; reflexivity | split; reflexivity]. }
    destruct (Z.eq_dec type SBT_ASYNC_FIXED) as [-> | H5].
    { rewrite dispatch_async_fixed.
      apply (@frame_processAsyncFixed
               (fun r r' => packet_xml r' = packet_xml r
                            /\ scaling_info r' = scaling_info r));
        [split; reflexivity
         | intros r1 r2 r3 [Ha Hb] [Hc Hd]; split; congruence
         | split; reflexivity | split; reflexivity]. }
    rewrite dispatch_other by assumption. split; reflexivity.
Qed.

Lemma footer_first_packet_visits (pos : Z) :
  visits Vectors.footer_first_packet pos -> pos = 0 \/ pos = 8 \/ pos = 45.
Proof.
  induction 1 as [| pos size type Hvisit IH Hin Hhdr]; [left; reflexivity |].
  change (len Vectors.footer_first_packet) with 45 in Hin.
  destruct IH as [-> | [-> | ->]]; [| | lia];
    vm_compute in Hhdr; injection Hhdr as <- _; lia.
Qed.

Lemma footer_first_packet_declares (type : Z) :
  declares Vectors.footer_first_packet type ->
  type = SBT_PACKET_FOOTER \/ type = SBT_ASYNC_FIXED.
Proof.
  intros (pos & size & Hvisit & Hin & Hhdr).
  change (len Vectors.footer_first_packet) with 45 in Hin.
  destruct (footer_first_packet_visits Hvisit) as [-> | [-> | ->]]; [| | lia];
    vm_compute in Hhdr; injection Hhdr as _ <-; [left | right]; reflexivity.
Qed.

Lemma footer_first_packet_has_no (type : Z) :
  type <> SBT_PACKET_FOOTER -> type <> SBT_ASYNC_FIXED ->
  ~ declares Vectors.footer_first_packet type.
Proof.
  intros H7 H5 Hd. destruct (footer_first_packet_declares Hd); contradiction.
Qed.

Lemma attributes_change_by_their_subrecords_witness :
  packet_info (snd (processPacket Vectors.demo_lib 2 Vectors.footer_first_packet
                      (Vectors.with_scaling 2 1)))
  = packet_info (Vectors.with_scaling 2 1)
  /\ packet_xml (snd (processPacket Vectors.demo_lib 2
                        Vectors.footer_first_packet (Vectors.with_scaling 2 1)))
     = packet_xml (Vectors.with_scaling 2 1)
  /\ scaling_info (snd (processPacket Vectors.demo_lib 2
                          Vectors.footer_first_packet
                          (Vectors.with_scaling 2 1)))
     = scaling_info (Vectors.with_scaling 2 1).
Proof.
  exact (conj
           (proj1 (@attributes_change_by_their_subrecords Vectors.demo_lib 2
                     Vectors.footer_first_packet (Vectors.with_scaling 2 1))
                  (@footer_first_packet_has_no SBT_PACKET_INFO
                     ltac:(discriminate) ltac:(discriminate)))
           (proj2 (@attributes_change_by_their_subrecords Vectors.demo_lib 2
                     Vectors.footer_first_packet (Vectors.with_scaling 2 1))
                  (@footer_first_packet_has_no SBT_XML_CONFIG
                     ltac:(discriminate) ltac:(discriminate)))).
Defined.

(* ================================================================= *)
(** ** [parseargs] *)

Lemma last_cons_default {A} (a d : A) (l : list A) :
  last (a :: l) d = last l a.
Proof.
  revert a d. induction l as [| b l IH]; intros a d; [reflexivity |].
  change (last (a :: b :: l) d) with (last (b :: l) d).
  rewrite (IH b d), (IH b a). reflexivity.
Qed.

Lemma address_is_no_port (opt : string) :
  Args.is_address opt = true -> Args.is_port opt = false.
Proof.
  unfold Args.is_address, Args.is_port. intros H.
  apply orb_prop in H. destruct H as [H | H];
    apply String.eqb_eq in H; subst opt; reflexivity.
Qed.

Section ParseLoop.

Variable int_of_str : string -> option Z.

Lemma parseargs_loop_last (opts : list (string * string)) :
  (forall arg, ~ In ("-h"%string, arg) opts) ->
  (forall opt arg, In (opt, arg) opts -> Args.is_port opt = true ->
                   int_of_str arg <> None) ->
  forall address port,
    Args.parseargs_loop int_of_str opts address port
    = Args.Returned
        (last (Args.arguments_of Args.is_address opts) address)
        (last (map (Args.port_value int_of_str)
                   (Args.arguments_of Args.is_port opts)) port).
Proof.
  unfold Args.arguments_of.
  induction opts as [| [opt arg] rest IH]; intros Hhelp Hports address port;
    [reflexivity |].
  assert (Hhelp' : forall a, ~ In ("-h"%string, a) rest)
    by (intros a Hin; apply (Hhelp a); right; exact Hin).
  assert (Hports' : forall o a, In (o, a) rest -> Args.is_port o = true ->
                                int_of_str a <> None)
    by (intros o a Hin; apply Hports; right; exact Hin).
  cbn [Args.parseargs_loop filter fst].
  destruct (String.eqb_spec opt "-h") as [-> | _].
  { exfalso. apply (Hhelp arg). left. reflexivity. }
  destruct (Args.is_address opt) eqn:Ha.
  - rewrite (address_is_no_port _ Ha). cbn [map snd].
    rewrite last_cons_default. apply IH; assumption.
  - destruct (Args.is_port opt) eqn:Hp.
    + cbn [map snd]. rewrite last_cons_default.
      unfold Args.port_value at 2.
      destruct (int_of_str arg) as [value |] eqn:Hint.
      * apply IH; assumption.
      * exfalso. apply (Hports opt arg); [left; reflexivity | exact Hp
                                          | exact Hint].
    + apply IH; assumption.
Qed.

Lemma parseargs_loop_help (opts : list (string * string)) (arg : string) :
  In ("-h"%string, arg) opts ->
  forall address port,
    Args.parseargs_loop int_of_str opts address port = Args.SystemExit None
    \/ Args.parseargs_loop int_of_str opts address port = Args.PortValueError.
Proof.
  induction opts as [| [opt a] rest IH]; intros Hin address port;
    [contradiction |].
  cbn [Args.parseargs_loop].
  destruct (String.eqb_spec opt "-h") as [-> | Hopt]; [left; reflexivity |].
  destruct Hin as [Heq | Hin]; [injection Heq as -> _; contradiction |].
  destruct (Args.is_address opt); [apply IH; exact Hin |].
  destruct (Args.is_port opt); [| apply IH; exact Hin].
  destruct (int_of_str a); [apply IH; exact Hin | right; reflexivity].
Qed.

End ParseLoop.

(** X22.  Of options given more than once the last one counts.  When getopt
    accepts the command line, -h is not among the options and every
    port argument converts, parseargs returns the argument of the last
    -a or --address option (127.0.0.1 when there is none) and the
    integer of the last -p or --port option (10003 when there is none);
    what getopt leaves as positional arguments is ignored. *)
Theorem parseargs_last_option_wins
    (getopt : list string -> option (list (string * string) * list string))
    (int_of_str : string -> option Z) (argv : list string)
    (opts : list (string * string)) (args : list string) :
  getopt argv = Some (opts, args) ->
  (forall arg, ~ In ("-h"%string, arg) opts) ->
  (forall opt arg, In (opt, arg) opts -> Args.is_port opt = true ->
                   int_of_str arg <> None) ->
  Args.parseargs getopt int_of_str argv
  = Args.Returned
      (last (Args.arguments_of Args.is_address opts) "127.0.0.1"%string)
      (last (map (Args.port_value int_of_str)
                 (Args.arguments_of Args.is_port opts))
            10003).
Proof.
  intros Hopts Hhelp Hports. unfold Args.parseargs. rewrite Hopts.
  apply parseargs_loop_last; assumption.
Qed.

Lemma demo_command_line_has_no_help (arg : string) :
  ~ In ("-h"%string, arg)
      (Args.demo_getopt_pairs
         ["-p"; "80"; "-a"; "host1"; "--port"; "10005"; "--address"; "host2"]%string).
Proof.
  cbn. intros [H | [H | [H | [H | []]]]]; discriminate.
Qed.

Lemma demo_command_line_ports (opt arg : string) :
  In (opt, arg)
     (Args.demo_getopt_pairs
        ["-p"; "80"; "-a"; "host1"; "--port"; "10005"; "--address"; "host2"]%string) ->
  Args.is_port opt = true ->
  Args.demo_int arg <> None.
Proof.
  cbn. intros [H | [H | [H | [H | []]]]]; injection H as <- <-;
    intros Hp; discriminate.
Qed.

Lemma parseargs_last_option_wins_witness :
  Args.parseargs Args.demo_getopt Args.demo_int
    ["-p"; "80"; "-a"; "host1"; "--port"; "10005"; "--address"; "host2"]%string
  = Args.Returned "host2" 10005.
Proof.
  exact (@parseargs_last_option_wins Args.demo_getopt Args.demo_int
           ["-p"; "80"; "-a"; "host1"; "--port"; "10005"; "--address";
            "host2"]%string _ []
           eq_refl demo_command_line_has_no_help demo_command_line_ports).
Defined.

(** X23.  With -h among the options parseargs never returns: it exits with
    status 0 through sys.exit(), unless a port argument in front of the
    -h does not convert, in which case int raises ValueError first.  A
    command line that getopt rejects exits with status 2. *)
Theorem parseargs_help_never_returns
    (getopt : list string -> option (list (string * string) * list string))
    (int_of_str : string -> option Z) (argv : list string)
    (opts : list (string * string)) (args : list string) (arg : string) :
  getopt argv = Some (opts, args) ->
  In ("-h"%string, arg) opts ->
  Args.parseargs getopt int_of_str argv = Args.SystemExit None
  \/ Args.parseargs getopt int_of_str argv = Args.PortValueError.
Proof.
  intros Hopts Hin. unfold Args.parseargs. rewrite Hopts.
  apply parseargs_loop_help with arg. exact Hin.
Qed.

Lemma parseargs_help_never_returns_witness :
  Args.parseargs Args.demo_getopt Args.demo_int ["-p"; "http"; "-h"]%string
  = Args.SystemExit None
  \/ Args.parseargs Args.demo_getopt Args.demo_int
       ["-p"; "http"; "-h"]%string
     = Args.PortValueError.
Proof.
  exact (@parseargs_help_never_returns Args.demo_getopt Args.demo_int
           ["-p"; "http"; "-h"]%string _ [] EmptyString eq_refl
           (or_intror (or_introl eq_refl))).
Defined.

(* ================================================================= *)
(** ** Synchronous scalar samples *)

Lemma zip_rows_columns (times : list Z) (freq : F64.t) (g : list byte -> F64.t)
    (items : list (list byte)) :
  Np.zip_rows Np.float64
    (map (fun k => F64.div (F64.of_Z k) freq) times)
    (map (fun item => [Np.SFloat (g item)]) items)
  = map (fun ti => [Np.SFloat (F64.div (F64.of_Z (fst ti)) freq);
                    Np.SFloat (g (snd ti))])
        (combine times items).
Proof.
  revert items. induction times as [| t times IH]; intros [| item items];
    try reflexivity.
  cbn [map Np.zip_rows combine fst snd]. rewrite IH. reflexivity.
Qed.

Lemma combine_map_fst {A B C} (f : A -> C) (l1 : list A) (l2 : list B) :
  combine (map f l1) l2 = map (fun p => (f (fst p), snd p)) (combine l1 l2).
Proof.
  revert l2. induction l1 as [| a l1 IH]; intros [| b l2]; try reflexivity.
  cbn [map combine fst snd]. rewrite IH. reflexivity.
Qed.

(** X24.  A sync-fixed sub-record of a numpy dtype with dimension 1 and n > 0
    samples, decoded with the scaling entry (f, o) of the current
    channel index, gives the block of the n rows
    [(T+i)/F, float64(item_i) * f + o], where item_i is the i-th item of
    the dtype's width behind the 28-byte header; the block is float64
    for every dtype. *)
Theorem sync_scalar_rows (lib : PyLib) (packet : list byte) (pos : Z)
    (r : receiver) (code n ts k : Z) (freq : F64.t) (dt : Np.dtype)
    (entry : attr_value * attr_value) (f o : F64.t)
    (blocks : list Np.pydata) :
  0 <= pos ->
  Struct.unpack_3IQd packet pos = Returns (code, 1, n, ts, freq) ->
  DT_DATA_TYPE code = Returns (Some dt) ->
  Np.itemsize dt = Some k ->
  0 < n ->
  ts + n <= 2 ^ 63 - 1 ->
  pos + DT_SYNC_FIXED_SIZE + n * k <= len packet ->
  scaling_entry r = Returns entry ->
  py_float lib (fst entry) = Returns f ->
  py_float lib (snd entry) = Returns o ->
  channelValue r = Some blocks ->
  processSyncFixed lib packet pos r
  = (Returns tt,
     after_block []
       (Np.Matrix Np.float64 2
          (map (fun ir =>
                  [Np.SFloat (Spec.sample_time ts freq (fst ir));
                   Np.SFloat
                     (F64.add
                        (F64.mul (Np.to_f64 (Np.decode_item dt (snd ir))) f)
                        o)])
               (combine (seq 0 (Z.to_nat n))
                  (chunks (Z.to_nat k) (Z.to_nat n)
                     (skipn (Z.to_nat (pos + DT_SYNC_FIXED_SIZE)) packet)))))
       r).
Proof.
  intros Hpos Hhdr Hdt Hk Hn Hts Hlen Hentry Hf Ho Hcv.
  pose proof (itemsize_pos _ Hk) as Hkpos.
  assert (Hitems :
            match dt with
            | Np.int24 =>
                data <~ Np.frombuffer_uint8 packet (pos + DT_SYNC_FIXED_SIZE)
                                           (n * 3) ;;
                Returns (map Np.SInt (compose_int24 data))
            | Np.uint24 =>
                data <~ Np.frombuffer_uint8 packet (pos + DT_SYNC_FIXED_SIZE)
                                           (n * 3) ;;
                Returns (map Np.SInt (compose_uint24 data))
            | _ => Np.frombuffer packet dt (pos + DT_SYNC_FIXED_SIZE) n
            end
            = Returns (map (Np.decode_item dt)
                           (chunks (Z.to_nat k) (Z.to_nat n)
                              (skipn (Z.to_nat (pos + DT_SYNC_FIXED_SIZE))
                                     packet)))).
  { assert (Hgen : Np.frombuffer packet dt (pos + DT_SYNC_FIXED_SIZE) n
                   = Returns (map (Np.decode_item dt)
                                (chunks (Z.to_nat k) (Z.to_nat n)
                                   (skipn (Z.to_nat (pos + DT_SYNC_FIXED_SIZE))
                                          packet)))).
    { unfold Np.frombuffer. rewrite Hk.
      rewrite frombuffer_items_ok by nia. reflexivity. }
    destruct dt; try exact Hgen; discriminate Hk. }
  unfold processSyncFixed. unfold bind at 1. unfold lift at 1. rewrite Hhdr.
  unfold bind at 1. unfold readSamples. unfold bind at 1. unfold lift at 1.
  rewrite Hdt.
  change (SBT_SYNC_FIXED =? SBT_SYNC_FIXED) with true.
  replace (0 <? n) with true by (symmetry; apply Z.ltb_lt; exact Hn).
  change (1 =? 1) with true. cbn [andb].
  assert (Hread :
            readSamplesSync lib packet pos n dt r
            = (Returns
                 (Np.Vector Np.float64
                    (scale f o
                       (map (Np.decode_item dt)
                          (chunks (Z.to_nat k) (Z.to_nat n)
                             (skipn (Z.to_nat (pos + DT_SYNC_FIXED_SIZE))
                                    packet))))), r)).
  { unfold readSamplesSync, bind, get, lift, ret. cbn [obind].
    rewrite Hentry. cbn [obind]. rewrite Hf, Ho, Hitems. reflexivity. }
  rewrite Hread.
  unfold bind at 1. unfold lift at 1. unfold arange_over.
  replace (ts + n <=? 2 ^ 63 - 1) with true
    by (symmetry; apply Z.leb_le; exact Hts).
  replace (ts + n - ts) with n by lia.
  unfold bind at 1. unfold lift at 1. unfold Np.c_, scale.
  rewrite !length_map, length_zrange, length_chunks, Nat.eqb_refl.
  unfold bind at 1. unfold channelValue_append. unfold bind at 1.
  unfold get at 1. rewrite Hcv. unfold modify at 1.
  unfold incr_channel_idx, modify.
  unfold after_block. rewrite Hcv, set_warnings_nil.
  cbn [Np.with_f64].
  rewrite !map_map.
  rewrite (@zip_rows_columns (Np.zrange ts (Z.to_nat n)) freq
             (fun item => F64.add
                            (F64.mul (Np.to_f64 (Np.decode_item dt item)) f) o)).
  rewrite zrange_seq, combine_map_fst, map_map. reflexivity.
Qed.

Lemma sync_scalar_rows_witness :
  processSyncFixed Vectors.demo_lib Cases.uint8_packet 8
    (Vectors.with_scaling 2 1)
  = (Returns tt,
     after_block []
       (Np.Matrix Np.float64 2
          [[Np.SFloat (F64.of_Z 0); Np.SFloat (F64.of_Z 15)]])
       (Vectors.with_scaling 2 1)).
Proof.
  exact (@sync_scalar_rows Vectors.demo_lib Cases.uint8_packet 8
           (Vectors.with_scaling 2 1) 1 1 0 1 (F64.of_Z 1) Np.uint8
           (AInt 2, AInt 1) (F64.of_Z 2) (F64.of_Z 1) []
           ltac:(lia) eq_refl eq_refl eq_refl ltac:(lia)
           ltac:(vm_compute; discriminate) ltac:(vm_compute; discriminate)
           eq_refl eq_refl eq_refl eq_refl).
Defined.

(* ================================================================= *)
(** ** Frames that arrive in pieces *)

Lemma app_same_length {A} (a b x y : list A) :
  a ++ x = b ++ y -> List.length a = List.length b -> a = b /\ x = y.
Proof.
  intros Happ Hlen. split.
  - rewrite <- (firstn_exact a x), Happ, Hlen. apply firstn_exact.
  - rewrite <- (skipn_exact a x), Happ, Hlen. apply skipn_exact.
Qed.

(** X25.  The payload may be cut into segments at will.  Once the token and
    the size field have arrived together, and the peer goes on sending
    without a pause until the payload is complete, readPacket gives the
    result of processPacket on the payload and takes exactly the bytes
    of the frame from the stream: what follows the payload is left for
    the next call. *)
Theorem payload_may_arrive_in_pieces (lib : PyLib) (fuel : nat) (c : session)
    (size4 payload rest : list byte) (later : list Socket.event) :
  Socket.incoming (sock c) = Socket.Segment (DT_START_TOKEN ++ size4) :: later ->
  List.length size4 = 4%nat ->
  le_uint size4 = DT_PACKET_HEADER_SIZE + len payload ->
  Socket.prompt later = true ->
  Socket.stream later = payload ++ rest ->
  len payload <= Z.of_nat fuel ->
  exists s',
    readPacket lib fuel c
    = (fst (decoded lib fuel payload (rcv c)),
       {| sock := s';
          rcv := snd (decoded lib fuel payload (rcv c));
          errors := errors c |})
    /\ Socket.stream (Socket.incoming s') = rest.
Proof.
  intros Hsock Hfour Hsize Hprompt Hstream Hfuel.
  assert (Hne : size4 <> []) by (destruct size4; discriminate).
  pose proof (len_nonneg payload) as Hpayload.
  set (s1 := {| Socket.incoming := later;
                Socket.peer_closed := Socket.peer_closed (sock c) |}).
  destruct (@recvFixedSize_loop_returns fuel
              (repeat x00 (Z.to_nat (len payload))) 0 (len payload) s1
              Hprompt ltac:(lia)
              ltac:(cbn [s1 Socket.incoming]; rewrite Hstream, len_app;
                    pose proof (len_nonneg rest); lia))
    as (d & s' & Hloop).
  assert (Hrun : Socket.recvFixedSize fuel (len payload) s1 = (Returns d, s')).
  { unfold Socket.recvFixedSize.
    destruct (Z.ltb_spec (len payload) 0); [lia | exact Hloop]. }
  destruct (recvFixedSize_exact _ _ _ Hrun) as [Hlen Hsplit].
  cbn [s1 Socket.incoming] in Hsplit. rewrite Hstream in Hsplit.
  destruct (@app_same_length _ payload d rest
              (Socket.stream (Socket.incoming s')) Hsplit
              ltac:(unfold len in Hlen; lia)) as [<- Hrest].
  exists s'. split; [| symmetry; exact Hrest].
  unfold readPacket. unfold bind at 1. unfold on_sock at 1.
  unfold Socket.recv_into.
  rewrite Hsock, recv_from_segment by discriminate.
  change (Z.to_nat DT_TOKEN_SIZE) with (List.length DT_START_TOKEN).
  rewrite firstn_exact, skipn_exact.
  unfold bind at 1. rewrite search_at_token.
  unfold readPacket_frame. unfold bind at 1. unfold except_timeout.
  unfold bind at 1. unfold on_sock at 1. unfold Socket.recv_into.
  cbn [sock set_sock Socket.incoming Socket.peer_closed].
  rewrite recv_from_rest_of, (recv_from_segment later _ _ Hne).
  change (Z.to_nat (DT_PACKET_HEADER_SIZE - DT_TOKEN_SIZE)) with 4%nat.
  rewrite <- Hfour at 1 2. rewrite firstn_all, skipn_all.
  unfold ret at 1. cbv iota beta.
  replace (DT_PACKET_HEADER_SIZE - DT_TOKEN_SIZE =? len size4) with true
    by (unfold len; rewrite Hfour; reflexivity).
  cbn [negb].
  assert (Hbuf : Socket.write_at (repeat x00 4) 0 size4 = size4)
    by (rewrite <- Hfour at 1; apply write_at_whole).
  change (Z.to_nat (DT_PACKET_HEADER_SIZE - DT_TOKEN_SIZE)) with 4%nat.
  rewrite !Hbuf.
  replace (le_uint size4 - DT_PACKET_HEADER_SIZE) with (len payload) by lia.
  unfold bind at 1. unfold on_sock at 1.
  cbn [sock set_sock rest_of]. fold s1. rewrite Hrun.
  rewrite Z.eqb_refl. cbn [negb].
  unfold bind at 1. unfold on_rcv at 1. unfold modify at 1.
  cbn [rcv set_sock set_rcv].
  unfold bind at 1. unfold on_rcv at 1. cbn [rcv set_rcv set_sock].
  unfold decoded, fresh_packet.
  destruct (processPacket lib fuel payload
              (set_channelValue (Some []) (rcv c))) as [[[] | e |] r'];
    cbn [fst snd set_rcv sock rcv errors]; try reflexivity.
  unfold bind, get. cbn [rcv set_rcv].
  destruct (channelValue r'); reflexivity.
Qed.

Lemma payload_may_arrive_in_pieces_witness :
  exists s',
    readPacket Vectors.demo_lib 8 Cases.pieces_session
    = (Returns (RBlocks []),
       {| sock := s';
          rcv := set_actual_channel_idx 0 (fresh_packet init_receiver);
          errors := [] |})
    /\ Socket.stream (Socket.incoming s') = [x09].
Proof.
  exact (@payload_may_arrive_in_pieces Vectors.demo_lib 8 Cases.pieces_session
           (Vectors.u32 20) Cases.footer_payload [x09] _
           eq_refl eq_refl eq_refl eq_refl eq_refl ltac:(vm_compute; discriminate)).
Defined.

(** X26.  The size field must arrive in one piece.  When the segment that
    holds the token ends inside the size field, readPacket logs an error
    and returns False; the token and the part of the size field are
    consumed, so the frame they opened is lost. *)
Theorem split_size_field_loses_frame (lib : PyLib) (fuel : nat) (c : session)
    (part : list byte) (later : list Socket.event) :
  Socket.incoming (sock c) = Socket.Segment (DT_START_TOKEN ++ part) :: later ->
  part <> [] ->
  (List.length part < 4)%nat ->
  readPacket lib fuel c
  = (Returns RFalse,
     {| sock := {| Socket.incoming := later;
                   Socket.peer_closed := Socket.peer_closed (sock c) |};
        rcv := rcv c;
        errors := errors c ++ [NoPacketSize] |}).
Proof.
  intros Hsock Hne Hshort.
  unfold readPacket. unfold bind at 1. unfold on_sock at 1.
  unfold Socket.recv_into.
  rewrite Hsock, recv_from_segment by discriminate.
  change (Z.to_nat DT_TOKEN_SIZE) with (List.length DT_START_TOKEN).
  rewrite firstn_exact, skipn_exact.
  unfold bind at 1. rewrite search_at_token.
  unfold readPacket_frame. unfold bind at 1. unfold except_timeout.
  unfold bind at 1. unfold on_sock at 1. unfold Socket.recv_into.
  cbn [sock set_sock Socket.incoming Socket.peer_closed].
  rewrite recv_from_rest_of, (recv_from_segment later _ _ Hne).
  change (Z.to_nat (DT_PACKET_HEADER_SIZE - DT_TOKEN_SIZE)) with 4%nat.
  rewrite firstn_all2, skipn_all2 by lia.
  unfold ret at 1. cbv iota beta.
  replace (DT_PACKET_HEADER_SIZE - DT_TOKEN_SIZE =? len part) with false
    by (symmetry; apply Z.eqb_neq; unfold len, DT_PACKET_HEADER_SIZE,
        DT_TOKEN_SIZE; lia).
  destruct c as [s r e]. reflexivity.
Qed.

Lemma split_size_field_loses_frame_witness :
  readPacket Vectors.demo_lib 0
    (Cases.session_with
       [Socket.Segment (DT_START_TOKEN ++ [x14; x00]);
        Socket.Segment ([x00; x00] ++ Cases.footer_payload)] false)
  = (Returns RFalse,
     {| sock := {| Socket.incoming :=
                     [Socket.Segment ([x00; x00] ++ Cases.footer_payload)];
                   Socket.peer_closed := false |};
        rcv := init_receiver;
        errors := [NoPacketSize] |}).
Proof.
  exact (@split_size_field_loses_frame Vectors.demo_lib 0
           (Cases.session_with
              [Socket.Segment (DT_START_TOKEN ++ [x14; x00]);
               Socket.Segment ([x00; x00] ++ Cases.footer_payload)] false)
           [x14; x00] _ eq_refl ltac:(discriminate) ltac:(cbn; lia)).
Defined.
